(** * Dataset-loading utilities of cloome ([src/training/data.py])

    A shallow embedding of the module's functions and the proofs of its
    specified properties.  Python integers are [Z], strings are [string],
    dictionaries are [gmap string _], exceptions are a sum type, and the
    calls into numpy, pandas, torch, webdataset and the file system go
    through one record of external operations, [Env]. *)

From Stdlib Require Import ZArith String Ascii List Lia.
From stdpp Require Import base tactics option list gmap strings pretty.

Local Open Scope string_scope.
Local Open Scope list_scope.
Local Open Scope Z_scope.

(** ** Python values, exceptions and results *)

Module Py.

(** The exceptions the module can raise, directly or through a library. *)
Inductive exn :=
| AssertionError
| ValueError (msg : string)
| KeyError (key : string)
| TypeError
| AttributeError (attr : string)
| ZeroDivisionError
| IndexError
| RuntimeError
| OSError (path : string).

Inductive result (A : Type) :=
| Ok (a : A)
| Raise (e : exn).
Arguments Ok {A} a.
Arguments Raise {A} e.

Definition result_bind {A B} (f : A → result B) (r : result A) : result B :=
  match r with
  | Ok a => f a
  | Raise e => Raise e
  end.

Definition is_ok {A} (r : result A) : bool :=
  match r with Ok _ => true | Raise _ => false end.

#[global] Instance result_ret : MRet result := λ A a, Ok a.
#[global] Instance result_mbind : MBind result := λ A B f r, result_bind f r.

(** [bool(x)] for an argument that is a string or [None]. *)
Definition truthy (o : option string) : bool :=
  match o with
  | None => false
  | Some s => negb (String.eqb s "")
  end.

(** [x is None] *)
Definition is_None {A} (x : option A) : bool :=
  match x with None => true | Some _ => false end.

(** [len(l)] as a Python integer. *)
Definition len {A} (l : list A) : Z := Z.of_nat (length l).

(** [a // b] on integers: floor division, [ZeroDivisionError] for [b = 0]. *)
Definition floordiv (a b : Z) : result Z :=
  if b =? 0 then Raise ZeroDivisionError else Ok (a / b).

(** [math.ceil(a / b)] on integers (the float quotient is taken as exact). *)
Definition ceil_truediv (a b : Z) : result Z :=
  if b =? 0 then Raise ZeroDivisionError else Ok (- ((- a) / b)).

(** [l[:stop]]: a negative [stop] counts from the end. *)
Definition slice_to {A} (l : list A) (stop : Z) : list A :=
  if stop <? 0 then take (Z.to_nat (len l + stop)) l
  else take (Z.to_nat stop) l.

(** [l[i]]: a negative [i] counts from the end, [IndexError] out of range. *)
Definition index {A} (l : list A) (i : Z) : result A :=
  let j := if i <? 0 then len l + i else i in
  if j <? 0 then Raise IndexError
  else match l !! Z.to_nat j with
       | Some x => Ok x
       | None => Raise IndexError
       end.

(** [np.arange(n)] *)
Definition arange (n : Z) : list Z := Z.of_nat <$> seq 0 (Z.to_nat n).

(** [s.split(sep)] for a one-character separator. *)
Fixpoint split (sep : ascii) (s : string) : list string :=
  match s with
  | EmptyString => [EmptyString]
  | String c rest =>
      if Ascii.eqb c sep then EmptyString :: split sep rest
      else match split sep rest with
           | h :: t => String c h :: t
           | [] => [String c EmptyString]
           end
  end.

(** [l[-1]] of a list of strings that [split] produced. *)
Definition last_component (l : list string) : string := List.last l "".

(** *** [os.path] (posix) *)

(** [p.rfind('/') + 1] splits [p] into [p[:i]] and [p[i:]]. *)
Fixpoint rsplit_slash (p : string) : string * string :=
  match p with
  | EmptyString => (EmptyString, EmptyString)
  | String c rest =>
      let '(h, t) := rsplit_slash rest in
      if String.eqb h "" then
        if Ascii.eqb c "/" then (String c EmptyString, t)
        else (EmptyString, String c t)
      else (String c h, t)
  end.

Fixpoint all_slashes (s : string) : bool :=
  match s with
  | EmptyString => true
  | String c rest => Ascii.eqb c "/" && all_slashes rest
  end.

(** [s.rstrip('/')] *)
Fixpoint rstrip_slash (s : string) : string :=
  match s with
  | EmptyString => EmptyString
  | String c rest =>
      let r := rstrip_slash rest in
      if String.eqb r "" && Ascii.eqb c "/" then EmptyString else String c r
  end.

Definition basename (p : string) : string := (rsplit_slash p).2.

Definition dirname (p : string) : string :=
  let head := (rsplit_slash p).1 in
  if negb (String.eqb head "") && negb (all_slashes head)
  then rstrip_slash head else head.

Definition ends_with_slash (s : string) : bool :=
  match String.get (String.length s - 1)%nat s with
  | Some c => Ascii.eqb c "/"
  | None => false
  end.

Definition starts_with_slash (s : string) : bool :=
  match s with
  | String c _ => Ascii.eqb c "/"
  | EmptyString => false
  end.

(** [os.path.join(a, b)] *)
Definition join (a b : string) : string :=
  if starts_with_slash b then b
  else if String.eqb a "" || ends_with_slash a then a +:+ b
  else a +:+ "/" +:+ b.

End Py.
Export Py.


(** ** The libraries' objects *)

Module Torch.

(** An opened image, a preprocessed image tensor and a row of token ids. *)
Definition Image := list Z.
Definition Tensor := list Z.
Definition Tokens := list Z.
Definition Transform := Image → Tensor.

(** A cell of a pandas data frame. *)
Inductive Cell :=
| CellStr (s : string)
| CellInt (z : Z)
| CellNaN.

(** [str(x)] of a cell. *)
Definition str (c : Cell) : string :=
  match c with
  | CellStr s => s
  | CellInt z => pretty z
  | CellNaN => "nan"
  end.

(** What [pd.read_csv] returns: the header and the rows; a row shorter
    than the header reads as padded with NaN. *)
Record DataFrame := {
  df_columns : list string;
  df_rows : list (list Cell)
}.

Fixpoint column_index (cols : list string) (key : string) : option nat :=
  match cols with
  | [] => None
  | c :: rest =>
      if String.eqb c key then Some O else S <$> column_index rest key
  end.

(** [df[key].tolist()] *)
Definition df_column (df : DataFrame) (key : string) : result (list Cell) :=
  match column_index (df_columns df) key with
  | None => Raise (KeyError key)
  | Some i => Ok (map (λ row, nth i row CellNaN) (df_rows df))
  end.

(** The class [CsvDataset] of the module: its three attributes. *)
Record CsvDataset := {
  images : list string;
  captions : list Cell;
  transforms : Transform
}.

(** The sharded pipeline [wds.WebDataset(shardlist).decode(..)...batched(..)]. *)
Record WdsPipeline := {
  wds_shards : string;
  wds_epoch_shuffle : bool;
  wds_split_by_node : bool;
  wds_preprocess_img : Transform;
  wds_batch_size : Z;
  wds_partial : bool
}.

Inductive Dataset :=
| CellPaintingDataset (index : option string) (imgs mols : string)
                      (transform : Transform) (size : Z)
| OfCsvDataset (d : CsvDataset)
| ImageFolderDataset (root : string) (transform : Transform) (targets : list Z)
| ImageNetV2 (location : option string) (transform : Transform) (size : Z)
| WebDataset (p : WdsPipeline)
| Subset (dataset : Dataset) (indices : list Z).

Inductive Sampler :=
| DistributedSampler (dataset : Dataset) (num_replicas : Z) (seed : Z)
| SubsetRandomSampler (indices : list Z).

(** The keyword arguments of [DataLoader(...)] and [wds.WebLoader(...)]. *)
Record LoaderArgs := {
  dl_dataset : Dataset;
  dl_batch_size : option Z;
  dl_shuffle : bool;
  dl_num_workers : Z;
  dl_pin_memory : bool;
  dl_sampler : option Sampler;
  dl_drop_last : bool
}.

Inductive Loader :=
| TorchLoader (a : LoaderArgs)
| WebLoader (a : LoaderArgs)
| Repeat (nepochs : Z) (src : Loader)
| Slice (stop : Z) (src : Loader).

(** A loader object with the two attributes the module attaches to it;
    [None] is an attribute that was never set. *)
Record DataLoader := {
  loader : Loader;
  num_samples : option Z;
  num_batches : option Z
}.

Definition set_num_samples (d : DataLoader) (n : Z) : DataLoader :=
  {| loader := loader d; num_samples := Some n; num_batches := num_batches d |}.
Definition set_num_batches (d : DataLoader) (n : Z) : DataLoader :=
  {| loader := loader d; num_samples := num_samples d; num_batches := Some n |}.

Fixpoint loader_args (l : Loader) : LoaderArgs :=
  match l with
  | TorchLoader a | WebLoader a => a
  | Repeat _ src | Slice _ src => loader_args src
  end.

(** [BatchSampler.__iter__]: fill a batch, yield it when it is full, and
    yield the last partial batch unless [drop_last]. *)
Fixpoint batch_iter {A} (batch_size : Z) (drop_last : bool)
         (batch : list A) (sampler : list A) : list (list A) :=
  match sampler with
  | [] => if (0 <? len batch) && negb drop_last then [batch] else []
  | idx :: rest =>
      let batch := batch ++ [idx] in
      if len batch =? batch_size
      then batch :: batch_iter batch_size drop_last [] rest
      else batch_iter batch_size drop_last batch rest
  end.

(** [BatchSampler.__len__] *)
Definition batch_sampler_len (n batch_size : Z) (drop_last : bool) : Z :=
  if drop_last then n / batch_size
  else (n + batch_size - 1) / batch_size.

(** [default_collate] on a batch of (image, text) pairs. *)
Definition collate {A B} (items : list (A * B)) : list A * list B :=
  (map fst items, map snd items).

(** What iterating a loader yields, from what one pass over the underlying
    source yields in each epoch: [repeat] chains epochs, [slice] stops early. *)
Fixpoint stream {A} (epoch : nat → list A) (l : Loader) : list A :=
  match l with
  | TorchLoader _ | WebLoader _ => epoch O
  | Repeat n src =>
      concat (map (λ i, stream (λ j, epoch (i + j)%nat) src) (seq 0 (Z.to_nat n)))
  | Slice stop src => take (Z.to_nat stop) (stream epoch src)
  end.

End Torch.
Export Torch.

(** ** The world outside the module *)

(** The parsed command line, [args]. Path arguments may be [None]. *)
Record Args := {
  train_data : option string;
  val_data : option string;
  train_index : option string;
  val_index : option string;
  data_mols : option string;
  image_path : option string;
  path_data : string;
  imagenet_train : option string;
  imagenet_val : option string;
  imagenet_v2 : option string;
  csv_img_key : string;
  csv_caption_key : string;
  csv_separator : string;
  debug_run : bool;
  distributed : bool;
  seed : Z;
  batch_size : Z;
  batch_size_eval : Z;
  workers : Z;
  world_size : Z
}.

(** The external operations the module calls: numpy's global generator,
    [braceexpand], the files it reads, the tokenizer of [clip.clip], the
    dataset classes of [training.datasets], torchvision and imagenetv2, and
    [torch.distributed]. *)
Record Env := {
  rng : Type;
  np_random_seed : Z → rng;
  np_random_shuffle : rng → list Z → list Z * rng;
  braceexpand : string → list string;
  (** [eval(open(path, 'r').read())], a dictionary of integer sizes. *)
  open_eval : string → result (gmap string Z);
  pd_read_csv : string → string → result DataFrame;
  Image_open : string → result Image;
  tokenize : list string → result (list Tokens);
  (** [len] of the dataset that [CellPainting(index, imgs, mols)] builds. *)
  CellPainting : option string → string → string → result Z;
  (** [.targets] of [datasets.ImageFolder(path)]. *)
  ImageFolder : string → result (list Z);
  (** [len] of [ImageNetV2Dataset(location)]. *)
  ImageNetV2Dataset : option string → result Z;
  (** [len] of a webdataset pipeline. *)
  wds_len : WdsPipeline → result Z;
  (** [torch.distributed.get_world_size()] *)
  dist_get_world_size : result Z
}.

(** What the libraries guarantee: shuffling permutes, the tokenizer returns
    one row per text, lengths are not negative and a process group has at
    least one member. *)
Record EnvOk (E : Env) : Prop := {
  shuffle_perm : ∀ g l, (np_random_shuffle E g l).1 ≡ₚ l;
  tokenize_rows : ∀ texts rows,
    tokenize E texts = Ok rows → length rows = length texts;
  world_size_pos : ∀ n, dist_get_world_size E = Ok n → 0 < n
}.

(** The reads and constructions that touch files, in the order they happen. *)
Inductive Event :=
| EvCellPainting (index : option string) (imgs mols : string)
| EvReadCsv (path sep : string)
| EvReadSizes (path : string)
| EvShardList (shards : string)
| EvImageFolder (path : string)
| EvImageNetV2 (location : option string)
| EvImageOpen (path : string).

Section WithEnv.
Variable E : Env.

(** The mutable state the module works on: numpy's generator, the process
    environment and the trace of reads. *)
Record State := {
  np_rng : rng E;
  environ : gmap string string;
  events : list Event
}.

(** Computations that change the state and may raise. *)
Definition M (A : Type) : Type := State → result A * State.

#[global] Instance M_ret : MRet M := λ A a st, (Ok a, st).
#[global] Instance M_bind : MBind M := λ A B f m st,
  match m st with
  | (Ok a, st') => f a st'
  | (Raise e, st') => (Raise e, st')
  end.

Definition lift {A} (r : result A) : M A := λ st, (r, st).
Definition raise {A} (e : exn) : M A := λ st, (Raise e, st).

Definition log (ev : Event) : M unit := λ st,
  (Ok (), {| np_rng := np_rng st; environ := environ st;
             events := events st ++ [ev] |}).

(** [assert x] for a string-or-None [x]; the checked string is returned. *)
Definition assert_truthy (x : option string) : M string :=
  match x with
  | Some s => if truthy x then mret s else raise AssertionError
  | None => raise AssertionError
  end.

(** [assert x is not None] *)
Definition assert_not_None (x : option string) : M string :=
  match x with
  | Some s => mret s
  | None => raise AssertionError
  end.

Definition assert (b : bool) : M unit :=
  if b then mret () else raise AssertionError.

(** [np.random.shuffle(a)], in place. *)
Definition np_shuffle (a : list Z) : M (list Z) := λ st,
  let '(a', g) := np_random_shuffle E (np_rng st) a in
  (Ok a', {| np_rng := g; environ := environ st; events := events st |}).

(** [np.random.seed(s)]: the legacy generator takes a seed of 32 bits. *)
Definition np_seed (s : Z) : M unit := λ st,
  if (0 <=? s) && (s <? 2 ^ 32) then
    (Ok (), {| np_rng := np_random_seed E s; environ := environ st;
               events := events st |})
  else (Raise (ValueError "Seed must be between 0 and 2**32 - 1"), st).

(** [torch.manual_seed(s)]: the seed has to fit in 64 bits, signed or
    unsigned; the generator it seeds is not one the module draws from. *)
Definition torch_manual_seed (s : Z) : M unit :=
  if (- 2 ^ 63 <=? s) && (s <? 2 ^ 64) then mret () else raise RuntimeError.

(** [os.environ[k] = v] *)
Definition setenv (k v : string) : M unit := λ st,
  (Ok (), {| np_rng := np_rng st; environ := <[k := v]> (environ st);
             events := events st |}).

(** *** Lengths: [len(dataset)], [len(sampler)], [len(dataloader)] *)

Definition dataset_len (d : Dataset) : result Z :=
  match d with
  | CellPaintingDataset _ _ _ _ n => Ok n
  | OfCsvDataset d => Ok (len (captions d))
  | ImageFolderDataset _ _ targets => Ok (len targets)
  | ImageNetV2 _ _ n => Ok n
  | WebDataset p => wds_len E p
  | Subset _ indices => Ok (len indices)
  end.

Definition sampler_len (s : Sampler) : result Z :=
  match s with
  | DistributedSampler dataset num_replicas _ =>
      n ← dataset_len dataset; ceil_truediv n num_replicas
  | SubsetRandomSampler indices => Ok (len indices)
  end.

(** The number of indices the loader draws in one pass: the length of its
    sampler, which without a [sampler] argument ranges over the dataset. *)
Definition index_count (a : LoaderArgs) : result Z :=
  match dl_sampler a with
  | Some s => sampler_len s
  | None => dataset_len (dl_dataset a)
  end.

Definition loader_len (l : Loader) : result Z :=
  match l with
  | TorchLoader a =>
      n ← index_count a;
      match dl_batch_size a with
      | Some b => Ok (batch_sampler_len n b (dl_drop_last a))
      | None => Ok n
      end
  | _ => Raise TypeError
  end.

(** *** Constructors of the libraries *)

(** [DistributedSampler(dataset, seed=seed)] *)
Definition new_DistributedSampler (dataset : Dataset) (seed : Z) : M Sampler :=
  num_replicas ← lift (dist_get_world_size E);
  _ ← lift (sampler_len (DistributedSampler dataset num_replicas seed));
  mret (DistributedSampler dataset num_replicas seed).

(** [RandomSampler(dataset)], the sampler that [DataLoader] builds for
    [shuffle=True]: it takes [len(dataset)] and refuses an empty dataset. *)
Definition new_RandomSampler (dataset : Dataset) : M unit :=
  n ← lift (dataset_len dataset);
  if n <=? 0 then
    raise (ValueError
      ("num_samples should be a positive integer value, but got num_samples="
       +:+ pretty n))
  else mret ().

(** [BatchSampler(sampler, batch_size, drop_last)] checks its batch size. *)
Definition new_BatchSampler (batch_size : Z) : M unit :=
  if batch_size <=? 0 then
    raise (ValueError
      ("batch_size should be a positive integer value, but got batch_size="
       +:+ pretty batch_size))
  else mret ().

(** [DataLoader(dataset, batch_size=.., shuffle=.., num_workers=..,
    pin_memory=.., sampler=.., drop_last=..)] with the checks of its
    [__init__], in their order: the number of workers, a sampler given
    together with [shuffle=True], the default sampler (a [RandomSampler] for
    [shuffle=True], a [SequentialSampler] otherwise) and, unless [batch_size]
    is [None], the [BatchSampler]. *)
Definition new_DataLoader (a : LoaderArgs) : M DataLoader :=
  if dl_num_workers a <? 0 then
    raise (ValueError
      "num_workers option should be non-negative; use num_workers=0 to disable multiprocessing.")
  else if negb (is_None (dl_sampler a)) && dl_shuffle a then
    raise (ValueError "sampler option is mutually exclusive with shuffle")
  else
    _ ← (if is_None (dl_sampler a) && dl_shuffle a
         then new_RandomSampler (dl_dataset a) else mret ());
    _ ← match dl_batch_size a with
        | Some batch_size => new_BatchSampler batch_size
        | None => mret ()
        end;
    mret {| loader := TorchLoader a; num_samples := None; num_batches := None |}.

(** [wds.WebLoader(dataset, batch_size=None, shuffle=False, num_workers=..)]:
    a wrapper of the [DataLoader] that it builds from its arguments. *)
Definition new_WebLoader (a : LoaderArgs) : M DataLoader :=
  _ ← new_DataLoader a;
  mret {| loader := WebLoader a; num_samples := None; num_batches := None |}.

End WithEnv.

Arguments lift {E A} r.
Arguments raise {E A} e.
Arguments log {E} ev.
Arguments assert_truthy {E} x.
Arguments assert_not_None {E} x.
Arguments assert {E} b.
Arguments np_rng {E} s.
Arguments environ {E} s.
Arguments events {E} s.

(** ** The module [training/data.py] *)

Module Data.
Section Functions.
Variable E : Env.

Abbreviation M := (M E).

(** [for x in xs: s = body(x, s)] *)
Fixpoint for_each {A S} (xs : list A) (body : A → S → M S) (s : S) : M S :=
  match xs with
  | [] => mret s
  | x :: rest => s' ← body x s; for_each rest body s'
  end.

(** *** [class CsvDataset] *)

(** [os.path.join(img_folder, img_name)] needs a string. *)
Definition join_cell (img_folder : string) (img_name : Cell) : result string :=
  match img_name with
  | CellStr s => Ok (join img_folder s)
  | _ => Raise TypeError
  end.

Fixpoint join_all (img_folder : string) (names : list Cell) : result (list string) :=
  match names with
  | [] => Ok []
  | img_name :: rest =>
      p ← join_cell img_folder img_name;
      ps ← join_all img_folder rest;
      Ok (p :: ps)
  end.

(** [CsvDataset.__init__] *)
Definition CsvDataset_init (input_filename : string) (transforms : Transform)
    (img_key caption_key img_folder sep : string) : M CsvDataset :=
  _ ← log (EvReadCsv input_filename sep);
  df ← lift (pd_read_csv E input_filename sep);
  images ← lift (df_column df img_key);
  images ← lift (join_all img_folder images);
  captions ← lift (df_column df caption_key);
  mret {| images := images; captions := captions; transforms := transforms |}.

(** [CsvDataset.__len__] *)
Definition CsvDataset_len (self : CsvDataset) : Z := len (captions self).

(** [CsvDataset.__getitem__] *)
Definition CsvDataset_getitem (self : CsvDataset) (idx : Z) : M (Tensor * Tokens) :=
  path ← lift (index (images self) idx);
  _ ← log (EvImageOpen path);
  img ← lift (Image_open E path);
  let images := transforms self img in
  caption ← lift (index (captions self) idx);
  rows ← lift (tokenize E [str caption]);
  texts ← lift (index rows 0);
  mret (images, texts).

(** *** [class DataInfo] *)
Record DataInfo := {
  dataloader : DataLoader;
  sampler : option Sampler
}.

(** *** [get_data_subset] (defined further down in the source) *)
Definition default_n_samples : Z := 1000.

Definition get_data_subset (dataset : Dataset) (n_samples : Z) : M Dataset :=
  n ← lift (dataset_len E dataset);
  let idcs := arange n in
  n ← lift (dataset_len E dataset);
  let n_samples := Z.min n_samples n in
  idcs ← np_shuffle E idcs;
  let new_idcs := slice_to idcs n_samples in
  mret (Subset dataset new_idcs).

(** *** [get_cellpainting_dataset] *)
Definition get_cellpainting_dataset (args : Args) (preprocess_fn : Transform)
    (is_train : bool) : M DataInfo :=
  let input_index := if is_train then train_index args else val_index args in
  let input_filename_mols := data_mols args in
  let input_filename_imgs := image_path args in
  input_filename_mols ← assert_truthy input_filename_mols;
  input_filename_imgs ← assert_truthy input_filename_imgs;
  _ ← log (EvCellPainting input_index input_filename_imgs input_filename_mols);
  size ← lift (CellPainting E input_index input_filename_imgs input_filename_mols);
  let dataset := CellPaintingDataset input_index input_filename_imgs
                   input_filename_mols preprocess_fn size in
  dataset ← (if debug_run args then get_data_subset dataset default_n_samples
             else mret dataset);
  num_samples ← lift (dataset_len E dataset);
  sampler ← (if distributed args && is_train
             then s ← new_DistributedSampler E dataset (seed args); mret (Some s)
             else mret None);
  let shuffle := is_train && is_None sampler in
  let batch_size := if is_train then batch_size args else batch_size_eval args in
  dataloader ← new_DataLoader E
    {| dl_dataset := dataset; dl_batch_size := Some batch_size;
       dl_shuffle := shuffle; dl_num_workers := workers args;
       dl_pin_memory := true; dl_sampler := sampler; dl_drop_last := is_train |};
  let dataloader := set_num_samples dataloader num_samples in
  n ← lift (loader_len E (loader dataloader));
  let dataloader := set_num_batches dataloader n in
  mret {| dataloader := dataloader; sampler := sampler |}.

(** *** [preprocess_txt] *)
Definition preprocess_txt (text : Cell) : result Tokens :=
  rows ← tokenize E [str text]; index rows 0.

(** *** [get_dataset_size] *)

(** [sum(l)] *)
Definition sum (l : list Z) : Z := foldl Z.add 0 l.

(** [[int(sizes[os.path.basename(shard)]) for shard in shards_list]] *)
Fixpoint shard_sizes (sizes : gmap string Z) (shards_list : list string)
    : result (list Z) :=
  match shards_list with
  | [] => Ok []
  | shard :: rest =>
      match sizes !! basename shard with
      | None => Raise (KeyError (basename shard))
      | Some n => ns ← shard_sizes sizes rest; Ok (n :: ns)
      end
  end.

Definition get_dataset_size (shards : string) : M (Z * Z) :=
  let shards_list := braceexpand E shards in
  let dir_path := dirname shards in
  _ ← log (EvReadSizes (join dir_path "sizes.json"));
  sizes ← lift (open_eval E (join dir_path "sizes.json"));
  ns ← lift (shard_sizes sizes shards_list);
  let total_size := sum ns in
  let num_shards := len shards_list in
  mret (total_size, num_shards).

(** *** [get_imagenet] *)

(** [np.zeros(n)] *)
Definition np_zeros (n : Z) : list Z := replicate (Z.to_nat n) 0.

(** [target_array == c] *)
Definition eq_mask (target_array : list Z) (c : Z) : list bool :=
  map (λ t, t =? c) target_array.

(** [a[m]] for a boolean mask [m] *)
Fixpoint masked (a : list Z) (m : list bool) : list Z :=
  match a, m with
  | x :: a', b :: m' => if b then x :: masked a' m' else masked a' m'
  | _, _ => []
  end.

(** [a[:stop] = v] *)
Definition fill_to (a : list Z) (stop : Z) (v : Z) : list Z :=
  let n := length (slice_to a stop) in
  replicate n v ++ drop n a.

(** [a[m] = arr] for a boolean mask [m] *)
Fixpoint mask_assign (a : list Z) (m : list bool) (arr : list Z) : list Z :=
  match a, m with
  | x :: a', b :: m' =>
      if b then
        match arr with
        | y :: arr' => y :: mask_assign a' m' arr'
        | [] => x :: mask_assign a' m' []
        end
      else x :: mask_assign a' m' arr
  | _, _ => a
  end.

(** [np.where(a)[0]]: the positions of the entries that are not zero. *)
Fixpoint nonzero_from (i : Z) (a : list Z) : list Z :=
  match a with
  | [] => []
  | x :: a' =>
      if x =? 0 then nonzero_from (i + 1) a' else i :: nonzero_from (i + 1) a'
  end.

Definition np_where (a : list Z) : list Z := nonzero_from 0 a.

(** [dataset.targets] *)
Definition dataset_targets (d : Dataset) : result (list Z) :=
  match d with
  | ImageFolderDataset _ _ targets => Ok targets
  | _ => Raise (AttributeError "targets")
  end.

(** The body of [for c in range(1000)]. *)
Definition subsample_class (k : Z) (target_array : list Z) (c : Z)
    (idxs : list Z) : M (list Z) :=
  let m := eq_mask target_array c in
  let n := len (masked idxs m) in
  let arr := np_zeros n in
  let arr := fill_to arr k 1 in
  arr ← np_shuffle E arr;
  mret (mask_assign idxs m arr).

(** The [if is_train:] block: the indices handed to [SubsetRandomSampler]. *)
Definition train_subset_indices (targets : list Z) : M (list Z) :=
  let idxs := np_zeros (len targets) in
  let target_array := targets in
  let k := 50 in
  idxs ← for_each (arange 1000) (subsample_class k target_array) idxs;
  mret (np_where idxs).

(** Lines 100-136 of [get_imagenet]: the dataset and the sampler that the
    loader is then built from. *)
Definition imagenet_dataset_sampler (args : Args)
    (preprocess_fns : Transform * Transform) (split : string)
    : M (Dataset * option Sampler) :=
  _ ← assert (bool_decide (split ∈ ["train"; "val"; "v2"]));
  let is_train := String.eqb split "train" in
  let '(preprocess_train, preprocess_val) := preprocess_fns in
  dataset ← (if String.eqb split "v2" then
               _ ← log (EvImageNetV2 (imagenet_v2 args));
               size ← lift (ImageNetV2Dataset E (imagenet_v2 args));
               mret (ImageNetV2 (imagenet_v2 args) preprocess_val size)
             else
               let '(data_path, preprocess_fn) :=
                 if is_train then (imagenet_train args, preprocess_train)
                 else (imagenet_val args, preprocess_val) in
               data_path ← assert_truthy data_path;
               _ ← log (EvImageFolder data_path);
               targets ← lift (ImageFolder E data_path);
               mret (ImageFolderDataset data_path preprocess_fn targets));
  dataset ← (if debug_run args then get_data_subset dataset default_n_samples
             else mret dataset);
  sampler ← (if is_train then
               targets ← lift (dataset_targets dataset);
               idxs ← train_subset_indices targets;
               mret (Some (SubsetRandomSampler idxs))
             else mret None);
  mret (dataset, sampler).

Definition get_imagenet (args : Args) (preprocess_fns : Transform * Transform)
    (split : string) : M DataInfo :=
  '(dataset, sampler) ← imagenet_dataset_sampler args preprocess_fns split;
  dataloader ← new_DataLoader E
    {| dl_dataset := dataset; dl_batch_size := Some (batch_size_eval args);
       dl_shuffle := true; dl_num_workers := workers args;
       dl_pin_memory := false; dl_sampler := sampler; dl_drop_last := false |};
  mret {| dataloader := dataloader; sampler := sampler |}.

(** *** [count_samples] *)

(** The loop over the batches that iterating the loader yields. *)
Fixpoint count_loop {A B} (batches : list (list A * list B))
    (n_elements n_batches : Z) : result (Z * Z) :=
  match batches with
  | [] => Ok (n_elements, n_batches)
  | (images, texts) :: rest =>
      let n_batches := n_batches + 1 in
      let n_elements := n_elements + len images in
      if len images =? len texts then count_loop rest n_elements n_batches
      else Raise AssertionError
  end.

Definition count_samples {A B} (batches : list (list A * list B)) : M (Z * Z) :=
  _ ← setenv E "WDS_EPOCH" "0";
  lift (count_loop batches 0 0).

(** *** [get_wds_dataset] *)

(** Lines 165-175: the sample count, the batch count and the batch size. *)
Definition wds_counts (args : Args) (is_train : bool) (num_samples num_shards : Z)
    : result (Z * Z * Z) :=
  let batch_size' := batch_size args in
  if is_train && distributed args then
    max_shards_per_node ← ceil_truediv num_shards (world_size args);
    q ← floordiv (num_samples * max_shards_per_node) num_shards;
    let num_samples := world_size args * q in
    num_batches ← floordiv num_samples (batch_size args * world_size args);
    let num_samples := num_batches * batch_size args * world_size args in
    Ok (num_samples, num_batches, batch_size')
  else if is_train && negb (distributed args) then
    num_batches ← floordiv num_samples (batch_size args);
    Ok (num_samples, num_batches, batch_size')
  else
    num_batches ← floordiv num_samples (batch_size_eval args);
    let batch_size' := batch_size_eval args in
    Ok (num_samples, num_batches, batch_size').

Definition get_wds_dataset (args : Args) (preprocess_img : Transform)
    (is_train : bool) (run_mode : option string) : M DataInfo :=
  let input_shards := if is_train then train_data args else val_data args in
  input_shards ← assert_not_None input_shards;
  '(num_samples, num_shards) ← get_dataset_size input_shards;
  '(num_samples, num_batches, batch_size) ←
    lift (wds_counts args is_train num_samples num_shards);
  (* [random.seed] takes every integer; like torch's, the generator it seeds
     is not one the module draws from: numpy's is what [get_data_subset]
     uses. *)
  _ ← torch_manual_seed E (seed args);
  _ ← np_seed E (seed args);
  _ ← log (EvShardList input_shards);
  let dataset := WebDataset
    {| wds_shards := input_shards; wds_epoch_shuffle := is_train;
       wds_split_by_node := is_train; wds_preprocess_img := preprocess_img;
       wds_batch_size := batch_size;
       wds_partial := negb is_train || negb (distributed args) |} in
  dataset ← (if debug_run args then get_data_subset dataset default_n_samples
             else mret dataset);
  dataloader ← new_WebLoader E
    {| dl_dataset := dataset; dl_batch_size := None; dl_shuffle := false;
       dl_num_workers := workers args; dl_pin_memory := false;
       dl_sampler := None; dl_drop_last := false |};
  let dataloader :=
    if is_train && distributed args then
      {| loader := Slice num_batches (Repeat 2 (loader dataloader));
         num_samples := None; num_batches := None |}
    else dataloader in
  let dataloader := set_num_batches dataloader num_batches in
  let dataloader := set_num_samples dataloader num_samples in
  mret {| dataloader := dataloader; sampler := None |}.

(** *** [get_csv_dataset] *)
Definition get_csv_dataset (args : Args) (preprocess_fn : Transform)
    (is_train : bool) (run_mode : option string) : M DataInfo :=
  let input_filename := if is_train then train_data args else val_data args in
  input_filename ← assert_truthy input_filename;
  d ← CsvDataset_init input_filename preprocess_fn (csv_img_key args)
        (csv_caption_key args) (path_data args) (csv_separator args);
  let dataset := OfCsvDataset d in
  dataset ← (if debug_run args then get_data_subset dataset default_n_samples
             else mret dataset);
  num_samples ← lift (dataset_len E dataset);
  sampler ← (if distributed args && is_train
             then s ← new_DistributedSampler E dataset (seed args); mret (Some s)
             else mret None);
  let shuffle := is_None sampler in
  let batch_size := if is_train then batch_size args else batch_size_eval args in
  dataloader ← new_DataLoader E
    {| dl_dataset := dataset; dl_batch_size := Some batch_size;
       dl_shuffle := shuffle; dl_num_workers := workers args;
       dl_pin_memory := true; dl_sampler := sampler; dl_drop_last := is_train |};
  let dataloader := set_num_samples dataloader num_samples in
  n ← lift (loader_len E (loader dataloader));
  let dataloader := set_num_batches dataloader n in
  mret {| dataloader := dataloader; sampler := sampler |}.

(** *** [get_dataset_fn] *)

(** The type of [get_wds_dataset] and [get_csv_dataset]. *)
Definition dataset_fn : Type :=
  Args → Transform → bool → option string → M DataInfo.

Definition get_dataset_fn (data_path dataset_type : string) : result dataset_fn :=
  if String.eqb dataset_type "webdataset" then Ok get_wds_dataset
  else if String.eqb dataset_type "csv" then Ok get_csv_dataset
  else if String.eqb dataset_type "auto" then
    let ext := last_component (split "." data_path) in
    if bool_decide (ext ∈ ["csv"; "tsv"]) then Ok get_csv_dataset
    else if bool_decide (ext ∈ ["tar"]) then Ok get_wds_dataset
    else Raise (ValueError
      ("Tried to figure out dataset type, but failed for extention " +:+ ext +:+ "."))
  else Raise (ValueError ("Unsupported dataset type: " +:+ dataset_type)).

(** *** [get_data] *)
Definition get_data (args : Args) (preprocess_fns : Transform * Transform)
    : M (gmap string DataInfo) :=
  let '(preprocess_train, preprocess_val) := preprocess_fns in
  let data : gmap string DataInfo := ∅ in
  data ← (if truthy (train_index args) then
            d ← get_cellpainting_dataset args preprocess_train true;
            mret (<["train" := d]> data)
          else mret data);
  data ← (if truthy (val_index args) then
            d ← get_cellpainting_dataset args preprocess_val false;
            mret (<["val" := d]> data)
          else mret data);
  data ← (if negb (is_None (imagenet_val args)) then
            d ← get_imagenet args preprocess_fns "val";
            mret (<["imagenet-val" := d]> data)
          else mret data);
  data ← (if negb (is_None (imagenet_v2 args)) then
            d ← get_imagenet args preprocess_fns "v2";
            mret (<["imagenet-v2" := d]> data)
          else mret data);
  mret data.

End Functions.
End Data.
Export Data.

(** ** A concrete world, used to run the functions *)

Module Sample.

Definition pre : Transform := λ img, img.

Definition frame : DataFrame :=
  {| df_columns := ["file"; "smiles"];
     df_rows := [[CellStr "a.png"; CellStr "CCO"];
                 [CellStr "b.png"; CellStr "c1ccccc1"];
                 [CellStr "c.png"]] |}.

(** Two shards of very different sizes, a csv file, a CellPainting index of
    2500 rows, an image folder of six pictures in three classes and a process
    group of two nodes; the generator reverses the array it shuffles. *)
Definition env : Env :=
  {| rng := N;
     np_random_seed := λ s, Z.to_N s;
     np_random_shuffle := λ g l, (rev l, N.succ g);
     braceexpand := λ s,
       if String.eqb s "shards/{0..1}.tar" then ["shards/0.tar"; "shards/1.tar"]
       else [s];
     open_eval := λ p,
       if String.eqb p "shards/sizes.json"
       then Ok ({[ "0.tar" := 1000; "1.tar" := 10 ]} : gmap string Z)
       else Raise (OSError p);
     pd_read_csv := λ p sep,
       if String.eqb p "train.csv" then Ok frame else Raise (OSError p);
     Image_open := λ p, Ok [Z.of_nat (String.length p)];
     tokenize := λ texts, Ok (map (λ s, [Z.of_nat (String.length s)]) texts);
     CellPainting := λ _ _ _, Ok 2500;
     ImageFolder := λ _, Ok [0; 1; 0; 2; 1; 0];
     ImageNetV2Dataset := λ _, Ok 10000;
     wds_len := λ _, Raise TypeError;
     dist_get_world_size := Ok 2 |}.

Definition args : Args :=
  {| train_data := Some "shards/{0..1}.tar";
     val_data := Some "train.csv";
     train_index := Some "index_train.csv";
     val_index := None;
     data_mols := Some "mols.hdf5";
     image_path := Some "images";
     path_data := "imgs";
     imagenet_train := Some "imagenet/train";
     imagenet_val := Some "imagenet/val";
     imagenet_v2 := None;
     csv_img_key := "file";
     csv_caption_key := "smiles";
     csv_separator := ",";
     debug_run := false;
     distributed := true;
     seed := 1234;
     batch_size := 10;
     batch_size_eval := 4;
     workers := 2;
     world_size := 2 |}.

Definition st0 : State env :=
  {| np_rng := 0%N : rng env; environ := ∅; events := [] |}.

End Sample.

(** ** Notions of the specification *)

Module Spec.

(** No occurrence of the character [c] in [s]. *)
Fixpoint free_of (c : ascii) (s : string) : bool :=
  match s with
  | EmptyString => true
  | String a rest => negb (Ascii.eqb a c) && free_of c rest
  end.

(** [ext] is the final dot-separated component of [p]: it has no dot and
    is either all of [p] or what follows the last dot of [p]. *)
Definition final_component (p ext : string) : Prop :=
  free_of "." ext = true ∧ (p = ext ∨ ∃ pre, p = pre +:+ "." +:+ ext).

End Spec.
Export Spec.

Module Trace.

(** The reads of the CellPainting and ImageNet constructors; the reads of
    the csv and webdataset constructors are the other events. *)
Definition cellpainting_or_imagenet (ev : Event) : Prop :=
  match ev with
  | EvCellPainting _ _ _ | EvImageFolder _ | EvImageNetV2 _ => True
  | _ => False
  end.

Definition any_event (ev : Event) : Prop := True.

(** Whatever its outcome, [m] appends to the trace only events in [P]. *)
Definition emits {E A} (P : Event → Prop) (m : M E A) : Prop :=
  ∀ st, ∃ evs, events (m st).2 = events st ++ evs ∧ Forall P evs.

(** Whatever its outcome, [m] first appends the event [ev] to the trace. *)
Definition starts_with {E A} (ev : Event) (m : M E A) : Prop :=
  ∀ st, ∃ evs, events (m st).2 = events st ++ ev :: evs.

End Trace.
Export Trace.

(** Counting functions used to state the loop invariant of [get_imagenet]. *)
Module Count.

(** The number of entries of [a] that are not zero. *)
Fixpoint nonzeros (a : list Z) : nat :=
  match a with
  | [] => O
  | x :: a' => ((if (x =? 0)%Z then 0 else 1) + nonzeros a')%nat
  end.

(** The number of examples of class [c]. *)
Fixpoint class_size (c : Z) (targets : list Z) : nat :=
  match targets with
  | [] => O
  | t :: ts => ((if (t =? c)%Z then 1 else 0) + class_size c ts)%nat
  end.

(** The number of examples of class [c] that the 0/1 vector [idxs] selects. *)
Fixpoint selected (c : Z) (targets idxs : list Z) : nat :=
  match targets, idxs with
  | t :: ts, x :: idxs' =>
      ((if (t =? c)%Z && negb (x =? 0)%Z then 1 else 0) + selected c ts idxs')%nat
  | _, _ => O
  end.

End Count.
Export Count.

(** The statements that [get_cellpainting_dataset] and [get_csv_dataset] share
    from [num_samples = len(dataset)] on; they differ in [shuffle] only. *)
Module Tail.

Definition counted_loader (E : Env) (args : Args) (is_train : bool)
    (dataset : Dataset) (shuffle_of : option Sampler → bool) : M E DataInfo :=
  num_samples ← lift (dataset_len E dataset);
  sampler ← (if distributed args && is_train
             then s ← new_DistributedSampler E dataset (seed args); mret (Some s)
             else mret None);
  let shuffle := shuffle_of sampler in
  let batch_size := if is_train then batch_size args else batch_size_eval args in
  dataloader ← new_DataLoader E
    {| dl_dataset := dataset; dl_batch_size := Some batch_size;
       dl_shuffle := shuffle; dl_num_workers := workers args;
       dl_pin_memory := true; dl_sampler := sampler; dl_drop_last := is_train |};
  let dataloader := set_num_samples dataloader num_samples in
  n ← lift (loader_len E (loader dataloader));
  let dataloader := set_num_batches dataloader n in
  mret {| dataloader := dataloader; sampler := sampler |}.

End Tail.
Export Tail.

Module Counted.

(** The loader of [di] carries both count attributes: [num_samples] is the
    length of its dataset, [num_batches] is its own length, which is the
    number of batches that its batch sampler yields on any pass over the
    indices of its sampler. *)
Definition counts_attached (E : Env) (di : DataInfo) : Prop :=
  ∃ a n b batch_size,
    loader (dataloader di) = TorchLoader a
    ∧ dataset_len E (dl_dataset a) = Ok n
    ∧ num_samples (dataloader di) = Some n
    ∧ loader_len E (loader (dataloader di)) = Ok b
    ∧ num_batches (dataloader di) = Some b
    ∧ dl_batch_size a = Some batch_size
    ∧ ∀ order : list Z, index_count E a = Ok (len order) →
        len (batch_iter batch_size (dl_drop_last a) [] order) = b.

End Counted.
Export Counted.

(** Used to state that a computation appends nothing to the trace. *)
Module Quiet.

Definition no_event (ev : Event) : Prop := False.

End Quiet.
Export Quiet.

(** * Properties *)

(** Unfolds the monadic plumbing so that a computation can be run. *)
Ltac run_M :=
  unfold mbind, mret, M_bind, M_ret, lift, raise, log, np_shuffle, np_seed,
    torch_manual_seed, setenv, assert, assert_truthy, assert_not_None,
    result_mbind, result_ret, result_bind in *.

(** ** Python helpers *)

Section PyFacts.

Lemma len_nonneg {A} (l : list A) : 0 ≤ len l.
Proof. unfold len. lia. Qed.

Lemma length_arange n : length (arange n) = Z.to_nat n.
Proof. unfold arange. by rewrite length_fmap, length_seq. Qed.

Lemma elem_of_arange n i : i ∈ arange n ↔ 0 ≤ i < n.
Proof.
  unfold arange. rewrite list_elem_of_fmap. split.
  - intros (k & -> & Hk). apply elem_of_seq in Hk. lia.
  - intros Hi. exists (Z.to_nat i). split; [lia|]. apply elem_of_seq. lia.
Qed.

Lemma NoDup_arange n : NoDup (arange n).
Proof.
  unfold arange. apply (NoDup_fmap_2 Z.of_nat), NoDup_seq.
Qed.

Lemma slice_to_sublist {A} (l : list A) stop : slice_to l stop `sublist_of` l.
Proof. unfold slice_to. destruct (stop <? 0); apply sublist_take. Qed.

Lemma len_slice_to {A} (l : list A) stop :
  0 ≤ stop → len (slice_to l stop) = Z.min stop (len l).
Proof.
  intros Hs. unfold slice_to, len.
  destruct (stop <? 0) eqn:Hneg; [lia|]. rewrite length_take. lia.
Qed.

End PyFacts.

Example split_ext : split "." "data/train.v2.csv" = ["data/train"; "v2"; "csv"].
Proof. reflexivity. Qed.

Example split_trailing_dot : split "." "archive." = ["archive"; ""].
Proof. reflexivity. Qed.

Example dirname_pattern : dirname "/data/shards/{000..003}.tar" = "/data/shards".
Proof. reflexivity. Qed.

Example dirname_relative : dirname "shard-{0..7}.tar" = "".
Proof. reflexivity. Qed.

Example dirname_root : dirname "//x" = "//".
Proof. reflexivity. Qed.

Example basename_shard : basename "/data/shards/002.tar" = "002.tar".
Proof. reflexivity. Qed.

Example join_manifest :
  join (dirname "/data/shards/{000..003}.tar") "sizes.json"
    = "/data/shards/sizes.json".
Proof. reflexivity. Qed.

Example join_relative : join (dirname "shard-{0..7}.tar") "sizes.json" = "sizes.json".
Proof. reflexivity. Qed.

Example slice_to_negative : slice_to [1; 2; 3; 4] (-1) = [1; 2; 3].
Proof. reflexivity. Qed.

Example batch_iter_keep_last :
  batch_iter 2 false [] [0; 1; 2; 3; 4] = [[0; 1]; [2; 3]; [4]].
Proof. reflexivity. Qed.

Example batch_iter_drop_last :
  batch_iter 2 true [] [0; 1; 2; 3; 4] = [[0; 1]; [2; 3]].
Proof. reflexivity. Qed.

(** ** [get_data_subset] *)

Section Subset.
Context {E : Env} (HE : EnvOk E).

(** The indices drawn by [get_data_subset] are a prefix of a permutation of
    [0 .. n-1]. *)
Lemma get_data_subset_run dataset n n_samples st :
  dataset_len E dataset = Ok n →
  ∃ idcs st',
    get_data_subset E dataset n_samples st
      = (Ok (Subset dataset (slice_to idcs (Z.min n_samples n))), st')
    ∧ idcs ≡ₚ arange n
    ∧ environ st' = environ st ∧ events st' = events st.
Proof.
  intros Hn. unfold get_data_subset. run_M. rewrite Hn.
  pose proof (shuffle_perm E HE (np_rng st) (arange n)) as Hp.
  destruct (np_random_shuffle E (np_rng st) (arange n)) as [idcs g] eqn:Hs.
  exists idcs. eexists. split; [reflexivity|]. simpl in *. auto.
Qed.

End Subset.

(** C5: for a dataset of length [n], [get_data_subset] with its default
    argument returns a subset of length exactly [min(1000, n)]; its indices
    are pairwise distinct and lie in [0, n), and there are at most 1000. *)
Theorem get_data_subset_bounds (E : Env) (HE : EnvOk E) dataset n st :
  dataset_len E dataset = Ok n →
  0 ≤ n →
  ∃ indices st',
    get_data_subset E dataset default_n_samples st
      = (Ok (Subset dataset indices), st')
    ∧ dataset_len E (Subset dataset indices) = Ok (Z.min 1000 n)
    ∧ len indices = Z.min 1000 n
    ∧ NoDup indices
    ∧ (∀ i, i ∈ indices → 0 ≤ i < n)
    ∧ len indices ≤ 1000.
Proof.
  intros Hn Hpos.
  destruct (get_data_subset_run HE dataset n default_n_samples st Hn)
    as (idcs & st' & Hrun & Hperm & _ & _).
  unfold default_n_samples in *.
  set (indices := slice_to idcs (Z.min 1000 n)) in *.
  assert (Hlen : len indices = Z.min 1000 n).
  { unfold indices. rewrite len_slice_to by lia.
    unfold len. rewrite Hperm, length_arange. lia. }
  exists indices, st'. split; [exact Hrun|].
  split; [simpl; by rewrite Hlen|]. split; [exact Hlen|].
  split.
  - eapply sublist_NoDup; [|apply slice_to_sublist].
    rewrite Hperm. apply NoDup_arange.
  - split; [|lia]. intros i Hi. apply elem_of_arange. rewrite <- Hperm.
    eapply elem_of_sublist; [exact Hi|apply slice_to_sublist].
Qed.

(** ** [get_dataset_fn] *)

Section Dispatch.

Lemma split_free sep s : free_of sep s = true → split sep s = [s].
Proof.
  induction s as [|a s IH]; simpl; [done|].
  intros [Ha Hs]%andb_true_iff. apply negb_true_iff in Ha.
  by rewrite Ha, (IH Hs).
Qed.

Lemma split_not_nil sep s : split sep s ≠ [].
Proof. destruct s as [|a s]; simpl; [done|]. destruct (Ascii.eqb a sep), (split sep s); done. Qed.

Lemma last_component_cons h t : t ≠ [] → last_component (h :: t) = last_component t.
Proof. by destruct t. Qed.

Lemma last_split_app sep pre ext :
  last_component (split sep (pre +:+ String sep ext))
    = last_component (split sep ext).
Proof.
  induction pre as [|a pre IH]; simpl.
  - rewrite Ascii.eqb_refl. apply last_component_cons, split_not_nil.
  - destruct (Ascii.eqb a sep).
    + rewrite last_component_cons by apply split_not_nil. exact IH.
    + destruct (split sep (pre +:+ String sep ext)) as [|h t] eqn:Hsp.
      { by apply split_not_nil in Hsp. }
      destruct t as [|h' t].
      * (* the separator of [pre . ext] puts at least two components here *)
        exfalso. clear IH. revert h Hsp.
        induction pre as [|b pre IH]; simpl; intros h Hsp.
        -- rewrite Ascii.eqb_refl in Hsp.
           destruct (split sep ext) eqn:Hx; [by apply split_not_nil in Hx|done].
        -- destruct (Ascii.eqb b sep).
           ++ destruct (split sep (pre +:+ String sep ext)) eqn:Hx;
                [by apply split_not_nil in Hx|done].
           ++ destruct (split sep (pre +:+ String sep ext)) as [|h2 [|h3 t2]] eqn:Hx;
                [by apply split_not_nil in Hx| by eapply IH | done].
      * rewrite <- IH. done.
Qed.

(** The component that [split('.')[-1]] selects is the final component. *)
Lemma final_component_unique p ext :
  final_component p ext → last_component (split "." p) = ext.
Proof.
  intros [Hfree [-> | [pre ->]]].
  - by rewrite split_free.
  - change (pre +:+ "." +:+ ext) with (pre +:+ String "." ext).
    by rewrite last_split_app, split_free.
Qed.

Lemma split_components sep s :
  ∃ pre ext, split sep s = pre ++ [ext] ∧ free_of sep ext = true
    ∧ (pre = [] → s = ext)
    ∧ (pre ≠ [] → ∃ p, s = p +:+ String sep ext).
Proof.
  induction s as [|a s (pre & ext & Hsp & Hfree & H0 & H1)]; simpl.
  - exists [], "". by repeat split.
  - destruct (Ascii.eqb a sep) eqn:Ha.
    + apply Ascii.eqb_eq in Ha as ->.
      exists ("" :: pre), ext. rewrite Hsp. repeat split; [done..|]. intros _.
      destruct pre as [|h pre].
      * exists "". by rewrite H0.
      * destruct H1 as [p ->]; [done|]. by exists (String sep p).
    + rewrite Hsp. destruct pre as [|h pre]; simpl.
      * exists [], (String a ext). rewrite H0 by done. simpl. rewrite Ha, Hfree.
        by repeat split.
      * exists (String a h :: pre), ext. repeat split; [done..|]. intros _.
        destruct H1 as [p ->]; [done|]. by exists (String a p).
Qed.

Lemma final_component_exists p :
  final_component p (last_component (split "." p)).
Proof.
  destruct (split_components "." p) as (pre & ext & Hsp & Hfree & H0 & H1).
  assert (last_component (split "." p) = ext) as ->.
  { rewrite Hsp. unfold last_component. by rewrite last_last. }
  split; [done|]. destruct pre as [|h pre]; [left; auto|right].
  destruct H1 as [q ->]; [done|]. by exists q.
Qed.

End Dispatch.

(** C1: [get_dataset_fn] returns [get_csv_dataset] for "csv" and
    [get_wds_dataset] for "webdataset"; for "auto" it dispatches on the final
    dot-separated component of [data_path] (csv and tsv: [get_csv_dataset],
    tar: [get_wds_dataset], anything else: [ValueError]); every other
    [dataset_type] raises [ValueError]. *)
Theorem get_dataset_fn_dispatch (E : Env) (data_path dataset_type : string) :
  (dataset_type = "csv" →
     get_dataset_fn E data_path dataset_type = Ok (get_csv_dataset E))
  ∧ (dataset_type = "webdataset" →
     get_dataset_fn E data_path dataset_type = Ok (get_wds_dataset E))
  ∧ (∃ ext, final_component data_path ext)
  ∧ (dataset_type = "auto" → ∀ ext, final_component data_path ext →
       (ext = "csv" ∨ ext = "tsv" →
          get_dataset_fn E data_path dataset_type = Ok (get_csv_dataset E))
       ∧ (ext = "tar" →
          get_dataset_fn E data_path dataset_type = Ok (get_wds_dataset E))
       ∧ (ext ≠ "csv" → ext ≠ "tsv" → ext ≠ "tar" →
          ∃ msg, get_dataset_fn E data_path dataset_type = Raise (ValueError msg)))
  ∧ (dataset_type ≠ "webdataset" → dataset_type ≠ "csv" → dataset_type ≠ "auto" →
     ∃ msg, get_dataset_fn E data_path dataset_type = Raise (ValueError msg)).
Proof.
  split; [by intros ->|]. split; [by intros ->|].
  split; [eexists; apply final_component_exists|]. split.
  - intros -> ext Hext. unfold get_dataset_fn. simpl.
    rewrite (final_component_unique _ _ Hext).
    split; [by intros [-> | ->]|]. split; [by intros ->|].
    intros H1 H2 H3.
    rewrite !bool_decide_eq_false_2
      by (rewrite list_elem_of_In; simpl; intuition congruence).
    eauto.
  - intros H1 H2 H3. unfold get_dataset_fn.
    apply String.eqb_neq in H1, H2, H3. rewrite H1, H2, H3. eauto.
Qed.

Lemma get_dataset_fn_dispatch_witness :
  get_dataset_fn Sample.env "data/mols.v2.tsv" "auto" = Ok (get_csv_dataset Sample.env).
Proof.
  refine (proj1 (proj1 (proj2 (proj2 (proj2
    (get_dataset_fn_dispatch Sample.env "data/mols.v2.tsv" "auto")))) eq_refl "tsv" _) _).
  - split; [reflexivity|]. right. by exists "data/mols.v2".
  - by right.
Defined.

(** ** What the functions append to the trace of reads *)

Section Emits.
Context {E : Env}.
Implicit Types P : Event → Prop.

Lemma emits_ret {A} P (a : A) : emits P (mret a : M E A).
Proof. intros st. exists []. by rewrite app_nil_r. Qed.

Lemma emits_lift {A} P (r : result A) : emits P (lift r : M E A).
Proof. intros st. exists []. by rewrite app_nil_r. Qed.

Lemma emits_raise {A} P e : emits P (raise e : M E A).
Proof. intros st. exists []. by rewrite app_nil_r. Qed.

Lemma emits_log P ev : P ev → emits P (log ev : M E ()).
Proof. intros Hev st. exists [ev]. split; [done|]. by constructor. Qed.

Lemma emits_np_shuffle P a : emits P (np_shuffle E a).
Proof.
  intros st. exists []. unfold np_shuffle.
  destruct (np_random_shuffle E (np_rng st) a). by rewrite app_nil_r.
Qed.

Lemma emits_np_seed P s : emits P (np_seed E s).
Proof.
  intros st. exists []. unfold np_seed.
  destruct ((0 <=? s) && (s <? 2 ^ 32)); by rewrite app_nil_r.
Qed.

Lemma emits_setenv P k v : emits P (setenv E k v).
Proof. intros st. exists []. by rewrite app_nil_r. Qed.

Lemma emits_bind {A B} P (m : M E A) (k : A → M E B) :
  emits P m → (∀ a, emits P (k a)) → emits P (m ≫= k).
Proof.
  intros Hm Hk st. destruct (Hm st) as (evs & Hevs & HP).
  unfold mbind, M_bind. destruct (m st) as [[a|e] st1]; simpl in *.
  - destruct (Hk a st1) as (evs' & Hevs' & HP').
    exists (evs ++ evs'). rewrite Hevs', Hevs, app_assoc.
    split; [done|]. by apply Forall_app.
  - by exists evs.
Qed.

Lemma emits_weaken {A} P Q (m : M E A) :
  (∀ ev, P ev → Q ev) → emits P m → emits Q m.
Proof.
  intros HPQ Hm st. destruct (Hm st) as (evs & ? & HP).
  exists evs. split; [done|]. eapply Forall_impl; eauto.
Qed.

Lemma starts_with_bind {A} ev (k : () → M E A) :
  (∀ u, emits any_event (k u)) → starts_with ev (log ev ≫= k).
Proof.
  intros Hk st. unfold mbind, M_bind, log.
  match goal with |- context [k () ?s] => destruct (Hk () s) as (evs & Hevs & _) end.
  exists evs. rewrite Hevs. simpl. by rewrite <- app_assoc.
Qed.

Lemma emits_for_each {A S} P (xs : list A) (body : A → S → M E S) s :
  (∀ x s, emits P (body x s)) → emits P (for_each E xs body s).
Proof.
  intros Hb. revert s. induction xs as [|x xs IH]; intros s; simpl.
  - apply emits_ret.
  - apply emits_bind; auto.
Qed.

End Emits.

(** Decomposes a computation along its binds and branches. *)
Ltac emits_step :=
  lazymatch goal with
  | |- emits _ (mbind _ _) => apply emits_bind; [|intros ?]
  | |- emits _ (mret _) => apply emits_ret
  | |- emits _ (lift _) => apply emits_lift
  | |- emits _ (raise _) => apply emits_raise
  | |- emits _ (np_shuffle _ _) => apply emits_np_shuffle
  | |- emits _ (np_seed _ _) => apply emits_np_seed
  | |- emits _ (torch_manual_seed _ _) => unfold torch_manual_seed
  | |- emits _ (setenv _ _ _) => apply emits_setenv
  | |- emits _ (log _) => apply emits_log; exact I
  | |- emits _ (for_each _ _ _ _) => apply emits_for_each; intros ? ?
  | |- emits _ (assert_truthy ?x) =>
      unfold assert_truthy; destruct x; [destruct (truthy _)|]
  | |- emits _ (assert_not_None ?x) => unfold assert_not_None; destruct x
  | |- emits _ (assert ?b) => unfold assert; destruct b
  | |- emits _ (if ?b then _ else _) => destruct b
  | |- emits _ (match ?o with Some _ => _ | None => _ end) => destruct o
  | |- emits _ (let '(_, _) := ?p in _) => destruct p
  | |- emits _ (match ?p with (_, _) => _ end) => destruct p
  end.

Section EmitsFunctions.
Context {E : Env}.
Implicit Types P : Event → Prop.

Lemma emits_get_data_subset P dataset n :
  emits P (get_data_subset E dataset n).
Proof. unfold get_data_subset. repeat emits_step. Qed.

Lemma emits_new_DistributedSampler P dataset s :
  emits P (new_DistributedSampler E dataset s).
Proof. unfold new_DistributedSampler. repeat emits_step. Qed.

Lemma emits_new_DataLoader P a : emits P (new_DataLoader E a).
Proof.
  unfold new_DataLoader, new_RandomSampler, new_BatchSampler.
  repeat emits_step.
Qed.

Lemma emits_new_WebLoader P a : emits P (new_WebLoader E a).
Proof.
  unfold new_WebLoader. apply emits_bind; [apply emits_new_DataLoader|].
  intros _. apply emits_ret.
Qed.

Lemma emits_train_subset_indices P targets :
  emits P (train_subset_indices E targets).
Proof. unfold train_subset_indices, subsample_class. repeat emits_step. Qed.

End EmitsFunctions.

Ltac emits_fn :=
  first
    [ emits_step
    | apply emits_get_data_subset
    | apply emits_new_DistributedSampler
    | apply emits_new_DataLoader
    | apply emits_new_WebLoader
    | apply emits_train_subset_indices ].

Section EmitsConstructors.
Context {E : Env}.

Lemma emits_CsvDataset_init f t ik ck folder sep :
  emits any_event (CsvDataset_init E f t ik ck folder sep).
Proof. unfold CsvDataset_init. repeat emits_fn. Qed.

Lemma emits_get_dataset_size shards :
  emits any_event (get_dataset_size E shards).
Proof. unfold get_dataset_size. repeat emits_fn. Qed.

Lemma emits_get_cellpainting_dataset args pre is_train :
  emits cellpainting_or_imagenet (get_cellpainting_dataset E args pre is_train).
Proof. unfold get_cellpainting_dataset. repeat emits_fn. Qed.

Lemma emits_get_imagenet args fns split :
  emits cellpainting_or_imagenet (get_imagenet E args fns split).
Proof. unfold get_imagenet, imagenet_dataset_sampler. repeat emits_fn. Qed.

Lemma emits_get_csv_dataset args pre is_train run_mode :
  emits any_event (get_csv_dataset E args pre is_train run_mode).
Proof.
  unfold get_csv_dataset.
  repeat first [apply emits_CsvDataset_init | emits_fn].
Qed.

Lemma emits_get_wds_dataset args pre is_train run_mode :
  emits any_event (get_wds_dataset E args pre is_train run_mode).
Proof.
  unfold get_wds_dataset.
  repeat first [apply emits_get_dataset_size | emits_fn].
Qed.

Lemma emits_get_data args fns :
  emits cellpainting_or_imagenet (get_data E args fns).
Proof.
  unfold get_data. destruct fns as [pre_train pre_val].
  repeat first [apply emits_get_cellpainting_dataset | apply emits_get_imagenet
               | emits_fn].
Qed.

(** The monad laws, pointwise. *)
Lemma bind_ret_l {A B} (a : A) (k : A → M E B) st : (mret a ≫= k) st = k a st.
Proof. reflexivity. Qed.

Lemma bind_assoc {A B C} (m : M E A) (f : A → M E B) (g : B → M E C) st :
  ((m ≫= f) ≫= g) st = (m ≫= λ a, f a ≫= g) st.
Proof. unfold mbind, M_bind. by destruct (m st) as [[a|e] st1]. Qed.

End EmitsConstructors.

(** ** The assertions on the path arguments *)

(** C2: each constructor checks its path arguments before any work: when the
    selected file name of [get_csv_dataset] is empty or [None], when the
    selected shard pattern of [get_wds_dataset] is [None], when [data_mols]
    or [image_path] of [get_cellpainting_dataset] is empty or [None], the call
    raises [AssertionError] and leaves the state and the trace of reads as
    they were; with non-empty arguments the assertion does not fire: the call
    goes on to its first read. *)
Theorem assertions_first (E : Env) (args : Args) (pre : Transform)
    (is_train : bool) (run_mode : option string) (st : State E) :
  let selected := if is_train then train_data args else val_data args in
  (truthy selected = false →
     get_csv_dataset E args pre is_train run_mode st = (Raise AssertionError, st))
  ∧ (selected = None →
     get_wds_dataset E args pre is_train run_mode st = (Raise AssertionError, st))
  ∧ (truthy (data_mols args) = false ∨ truthy (image_path args) = false →
     get_cellpainting_dataset E args pre is_train st = (Raise AssertionError, st))
  ∧ (∀ f, selected = Some f → f ≠ "" →
     ∃ evs, events (get_csv_dataset E args pre is_train run_mode st).2
            = events st ++ EvReadCsv f (csv_separator args) :: evs)
  ∧ (∀ f, selected = Some f →
     ∃ evs, events (get_wds_dataset E args pre is_train run_mode st).2
            = events st ++ EvReadSizes (join (dirname f) "sizes.json") :: evs)
  ∧ (∀ mols imgs, data_mols args = Some mols → mols ≠ "" →
       image_path args = Some imgs → imgs ≠ "" →
     ∃ evs, events (get_cellpainting_dataset E args pre is_train st).2
            = events st
              ++ EvCellPainting (if is_train then train_index args else val_index args)
                   imgs mols :: evs).
Proof.
  intros selected. repeat split.
  - intros Hsel. unfold get_csv_dataset. fold selected.
    unfold assert_truthy. destruct selected as [f|]; [|done]. by rewrite Hsel.
  - intros Hsel. unfold get_wds_dataset. fold selected. by rewrite Hsel.
  - intros Hfalsy. unfold get_cellpainting_dataset, assert_truthy.
    destruct (data_mols args) as [mols|] eqn:Hm; [|done].
    destruct (truthy (Some mols)) eqn:Htm; [|done].
    destruct Hfalsy as [?|Hi]; [done|].
    destruct (image_path args) as [imgs|]; [|done]. by rewrite Hi.
  - intros f Hsel Hf. unfold get_csv_dataset. fold selected. rewrite Hsel.
    unfold assert_truthy, truthy. apply String.eqb_neq in Hf. rewrite Hf. simpl.
    rewrite bind_ret_l. unfold CsvDataset_init. rewrite bind_assoc.
    apply starts_with_bind. intros _.
    repeat first [apply emits_CsvDataset_init | emits_fn].
  - intros f Hsel. unfold get_wds_dataset. fold selected. rewrite Hsel.
    unfold assert_not_None. rewrite bind_ret_l.
    unfold get_dataset_size. rewrite bind_assoc.
    apply starts_with_bind. intros _.
    repeat first [apply emits_get_dataset_size | emits_fn].
  - intros mols imgs Hm Hmne Hi Hine. unfold get_cellpainting_dataset.
    rewrite Hm, Hi. unfold assert_truthy, truthy.
    apply String.eqb_neq in Hmne, Hine. rewrite Hmne, Hine. simpl.
    rewrite !bind_ret_l.
    apply starts_with_bind. intros _. repeat emits_fn.
Qed.

(** ** [get_data] *)

Section GetData.
Context {E : Env}.

Lemma bind_Ok_inv {A B} (m : M E A) (k : A → M E B) st b st' :
  (m ≫= k) st = (Ok b, st') →
  ∃ a st1, m st = (Ok a, st1) ∧ k a st1 = (Ok b, st').
Proof.
  unfold mbind, M_bind. destruct (m st) as [[a|e] st1]; [eauto|done].
Qed.

(** One [if cond: data[key] = constructor(...)] step of [get_data]. *)
Lemma get_data_step (c : bool) (m : M E DataInfo) key
    (data data' : gmap string DataInfo) st st' :
  (if c then d ← m; mret (<[key := d]> data) else mret data) st = (Ok data', st') →
  (c = true ∧ ∃ d, m st = (Ok d, st') ∧ data' = <[key := d]> data)
  ∨ (c = false ∧ data' = data ∧ st' = st).
Proof.
  destruct c.
  - intros (d & st1 & Hm & Hret)%bind_Ok_inv. left. split; [done|].
    injection Hret as <- <-. eauto.
  - intros [= <- <-]. by right.
Qed.

End GetData.

(** C10: the dictionary that [get_data] returns has the key "train" exactly
    when [args.train_index] is truthy and "val" exactly when [args.val_index]
    is, both built by [get_cellpainting_dataset], and "imagenet-val" and
    "imagenet-v2" exactly when [args.imagenet_val] and [args.imagenet_v2] are
    not [None], both built by [get_imagenet]; it has no other key, and the
    call does none of the reads of the csv and webdataset constructors. *)
Theorem get_data_keys (E : Env) (args : Args) (fns : Transform * Transform)
    (st st' : State E) (data : gmap string DataInfo) :
  get_data E args fns st = (Ok data, st') →
  (is_Some (data !! "train") ↔ truthy (train_index args) = true)
  ∧ (is_Some (data !! "val") ↔ truthy (val_index args) = true)
  ∧ (is_Some (data !! "imagenet-val") ↔ imagenet_val args ≠ None)
  ∧ (is_Some (data !! "imagenet-v2") ↔ imagenet_v2 args ≠ None)
  ∧ (∀ key, is_Some (data !! key) →
       key ∈ ["train"; "val"; "imagenet-val"; "imagenet-v2"])
  ∧ (∀ d, data !! "train" = Some d →
       ∃ s s', get_cellpainting_dataset E args fns.1 true s = (Ok d, s'))
  ∧ (∀ d, data !! "val" = Some d →
       ∃ s s', get_cellpainting_dataset E args fns.2 false s = (Ok d, s'))
  ∧ (∀ d, data !! "imagenet-val" = Some d →
       ∃ s s', get_imagenet E args fns "val" s = (Ok d, s'))
  ∧ (∀ d, data !! "imagenet-v2" = Some d →
       ∃ s s', get_imagenet E args fns "v2" s = (Ok d, s'))
  ∧ (∃ evs, events st' = events st ++ evs ∧ Forall cellpainting_or_imagenet evs).
Proof.
  intros Hrun.
  assert (Hev : ∃ evs, events st' = events st ++ evs
                       ∧ Forall cellpainting_or_imagenet evs).
  { destruct (emits_get_data args fns st) as (evs & Hevs & HP).
    rewrite Hrun in Hevs. eauto. }
  unfold get_data in Hrun. destruct fns as [pre_train pre_val].
  apply bind_Ok_inv in Hrun as (d1 & st1 & H1 & Hrun).
  apply bind_Ok_inv in Hrun as (d2 & st2 & H2 & Hrun).
  apply bind_Ok_inv in Hrun as (d3 & st3 & H3 & Hrun).
  apply bind_Ok_inv in Hrun as (d4 & st4 & H4 & Hrun).
  injection Hrun as -> ->.
  apply get_data_step in H1, H2, H3, H4.
  assert (Hv : ∀ o : option string, negb (is_None o) = true ↔ o ≠ None).
  { intros [s|]; simpl; split; done. }
  assert (Hv' : ∀ o : option string, negb (is_None o) = false → o = None).
  { intros [s|]; simpl; done. }
  destruct H1 as [(C1 & x1 & R1 & ->) | (C1 & -> & ->)];
  destruct H2 as [(C2 & x2 & R2 & ->) | (C2 & -> & ->)];
  destruct H3 as [(C3 & x3 & R3 & ->) | (C3 & -> & ->)];
  destruct H4 as [(C4 & x4 & R4 & ->) | (C4 & -> & ->)];
  rewrite ?C1, ?C2;
  try apply Hv in C3; try apply Hv in C4;
  try apply Hv' in C3; try apply Hv' in C4; rewrite ?C3, ?C4;
  (repeat split; try exact Hev;
   try (intros ?; simplify_map_eq; done);
   try (intros _; simplify_map_eq; eauto; done);
   try (intros [? ?]; simplify_map_eq; done);
   try (intros d ?; simplify_map_eq; eauto; done);
   try (intros key [d Hd];
        repeat (apply lookup_insert_Some in Hd as [[<- _]|[_ Hd]];
                [rewrite list_elem_of_In; simpl; tauto|]);
        by rewrite lookup_empty in Hd)).
Qed.

(** ** [get_dataset_size] *)

Section DatasetSize.
Context {E : Env}.

Lemma sum_foldl_acc (l : list Z) (a : Z) : foldl Z.add a l = a + sum l.
Proof.
  unfold sum. revert a. induction l as [|x l IH]; intros a; simpl; [lia|].
  rewrite (IH (a + x)), (IH (0 + x)). lia.
Qed.

Lemma sum_nil : sum [] = 0.
Proof. reflexivity. Qed.

Lemma sum_cons x l : sum (x :: l) = x + sum l.
Proof. unfold sum at 1. simpl. by rewrite sum_foldl_acc. Qed.

Lemma sum_app l1 l2 : sum (l1 ++ l2) = sum l1 + sum l2.
Proof.
  induction l1 as [|x l1 IH]; simpl; [by rewrite sum_nil|].
  rewrite !sum_cons, IH. lia.
Qed.

(** The comprehension succeeds exactly when every basename is recorded. *)
Lemma shard_sizes_Ok sizes shards_list ns :
  shard_sizes sizes shards_list = Ok ns ↔
  Forall2 (λ shard n, sizes !! basename shard = Some n) shards_list ns.
Proof.
  revert ns. induction shards_list as [|shard rest IH]; intros ns; simpl.
  - split; [by intros [= <-]; constructor|by intros ->%Forall2_nil_inv_l].
  - destruct (sizes !! basename shard) as [n|] eqn:Hn.
    + run_M. destruct (shard_sizes sizes rest) as [ns'|e]; simpl.
      * split.
        -- intros [= <-]. constructor; [done|by apply IH].
        -- intros (n' & ns'' & Hn' & Hrest & ->)%Forall2_cons_inv_l.
           apply IH in Hrest. by simplify_eq.
      * split; [done|].
        intros (n' & ns'' & Hn' & Hrest & ->)%Forall2_cons_inv_l.
        by apply IH in Hrest.
    + split; [done|].
      intros (n' & ns'' & Hn' & _)%Forall2_cons_inv_l. congruence.
Qed.

End DatasetSize.

(** C6: [get_dataset_size] returns [(total_size, num_shards)] where
    [num_shards] is the number of paths in the brace expansion of the pattern
    and [total_size] is the sum, over the expanded paths, of the sizes recorded
    under their basenames in [sizes.json] of the pattern's directory; it
    returns this pair whenever that file can be read and records every shard,
    and returns nothing else. *)
Theorem get_dataset_size_spec (E : Env) (shards : string) (st st' : State E)
    (total_size num_shards : Z) :
  get_dataset_size E shards st = (Ok (total_size, num_shards), st')
  ↔ ∃ sizes ns,
      open_eval E (join (dirname shards) "sizes.json") = Ok sizes
      ∧ Forall2 (λ shard n, sizes !! basename shard = Some n)
          (braceexpand E shards) ns
      ∧ total_size = sum ns
      ∧ num_shards = len (braceexpand E shards)
      ∧ np_rng st' = np_rng st ∧ environ st' = environ st
      ∧ events st' = events st ++ [EvReadSizes (join (dirname shards) "sizes.json")].
Proof.
  unfold get_dataset_size. run_M.
  destruct (open_eval E (join (dirname shards) "sizes.json")) as [sizes|e];
    simpl; [|split; [done|by intros (? & ? & ? & _)]].
  destruct (shard_sizes sizes (braceexpand E shards)) as [ns|e] eqn:Hns; simpl.
  - apply shard_sizes_Ok in Hns. split.
    + intros [= <- <- <-]. exists sizes, ns. by repeat split.
    + intros (sizes' & ns' & [= <-] & Hns' & -> & -> & H1 & H2 & H3).
      assert (ns' = ns) as ->.
      { apply shard_sizes_Ok in Hns, Hns'. congruence. }
      do 2 f_equal. destruct st'; simpl in *. by subst.
  - split; [done|]. intros (sizes' & ns' & [= <-] & Hns' & _).
    apply shard_sizes_Ok in Hns'. congruence.
Qed.

(** ** [CsvDataset] and [count_samples] *)

Section Csv.
Context {E : Env}.

Lemma df_column_length df key cells :
  df_column df key = Ok cells → length cells = length (df_rows df).
Proof.
  unfold df_column. destruct (column_index _ _); [|done].
  intros [= <-]. apply length_map.
Qed.

Lemma join_all_length folder names paths :
  join_all folder names = Ok paths → length paths = length names.
Proof.
  revert paths. induction names as [|c names IH]; intros paths; simpl.
  - by intros [= <-].
  - run_M. destruct (join_cell folder c); [|done]. simpl.
    destruct (join_all folder names) as [ps|]; [|done]. simpl.
    intros [= <-]. simpl. f_equal. by apply IH.
Qed.

Lemma CsvDataset_init_lengths f t ik ck folder sep st d st' :
  CsvDataset_init E f t ik ck folder sep st = (Ok d, st') →
  ∃ df, pd_read_csv E f sep = Ok df
    ∧ length (images d) = length (df_rows df)
    ∧ length (captions d) = length (df_rows df)
    ∧ transforms d = t.
Proof.
  unfold CsvDataset_init. run_M.
  destruct (pd_read_csv E f sep) as [df|]; [|done]. simpl.
  destruct (df_column df ik) as [names|] eqn:Hnames; [|done]. simpl.
  destruct (join_all folder names) as [paths|] eqn:Hpaths; [|done]. simpl.
  destruct (df_column df ck) as [caps|] eqn:Hcaps; [|done]. simpl.
  intros [= <- <-]. exists df. simpl.
  apply df_column_length in Hnames, Hcaps. apply join_all_length in Hpaths.
  repeat split; congruence.
Qed.

Lemma index_in_range {A} (l : list A) i :
  0 ≤ i < len l → ∃ x, l !! Z.to_nat i = Some x ∧ index l i = Ok x.
Proof.
  intros Hi. unfold index. destruct (i <? 0) eqn:Hneg; [lia|]. rewrite Hneg.
  destruct (l !! Z.to_nat i) as [x|] eqn:Hx; [eauto|].
  apply lookup_ge_None in Hx. unfold len in Hi. lia.
Qed.

Lemma count_loop_spec {A B} (batches : list (list A * list B)) a b n m :
  count_loop batches a b = Ok (n, m) ↔
  Forall (λ batch, len batch.1 = len batch.2) batches
  ∧ n = a + sum (map (λ batch, len batch.1) batches)
  ∧ m = b + len batches.
Proof.
  revert a b. induction batches as [|[images texts] rest IH]; intros a b; simpl.
  - rewrite sum_nil. unfold len. simpl. split.
    + intros [= <- <-]. split; [constructor|lia].
    + intros (_ & -> & ->). do 2 f_equal; lia.
  - rewrite sum_cons. destruct (len images =? len texts) eqn:Heq.
    + rewrite IH. apply Z.eqb_eq in Heq. unfold len in *. simpl. split.
      * intros (Hall & -> & ->). split; [by constructor|lia].
      * intros (Hall & -> & ->). apply Forall_cons in Hall as [_ Hall].
        split; [done|lia].
    + apply Z.eqb_neq in Heq. split; [done|].
      intros (Hall & _). apply Forall_cons in Hall as [Hhd _]. done.
Qed.

Lemma collate_lengths {A B} (items : list (A * B)) :
  len (collate items).1 = len items ∧ len (collate items).2 = len items.
Proof. unfold collate, len. simpl. by rewrite !length_map. Qed.

End Csv.

(** C7: the parallel sequences have matching lengths. A [CsvDataset] built
    from a file holds one image path and one caption per row, [__len__] is
    that common length, [__getitem__] at an index in range yields one pair of
    an image and a text, and [count_samples] returns exactly when every batch
    has as many images as texts, as the collated batches of pairs do. *)
Theorem parallel_lengths (E : Env) (HE : EnvOk E) :
  (∀ f t ik ck folder sep st d st',
     CsvDataset_init E f t ik ck folder sep st = (Ok d, st') →
     ∃ df, pd_read_csv E f sep = Ok df
       ∧ len (images d) = len (df_rows df)
       ∧ len (captions d) = len (df_rows df)
       ∧ CsvDataset_len d = len (images d))
  ∧ (∀ d idx st, len (images d) = len (captions d) →
       0 ≤ idx < CsvDataset_len d →
       ∃ path caption,
         images d !! Z.to_nat idx = Some path
         ∧ captions d !! Z.to_nat idx = Some caption
         ∧ ∀ img rows, Image_open E path = Ok img →
             tokenize E [str caption] = Ok rows →
             ∃ texts st', rows = [texts]
               ∧ CsvDataset_getitem E d idx st
                   = (Ok (transforms d img, texts), st'))
  ∧ (∀ (batches : list (list Tensor * list Tokens)) st n_elements n_batches,
       (count_samples E batches st).1 = Ok (n_elements, n_batches) ↔
       Forall (λ batch, len batch.1 = len batch.2) batches
       ∧ n_elements = sum (map (λ batch, len batch.1) batches)
       ∧ n_batches = len batches)
  ∧ (∀ (items : list (list (Tensor * Tokens))) st,
       (count_samples E (map collate items) st).1
         = Ok (sum (map len items), len items)).
Proof.
  split; [|split; [|split]].
  - intros f t ik ck folder sep st d st' Hinit.
    destruct (CsvDataset_init_lengths _ _ _ _ _ _ _ _ _ Hinit)
      as (df & Hdf & Hi & Hc & _).
    exists df. unfold CsvDataset_len, len. rewrite Hi, Hc. done.
  - intros d idx st Hlen Hidx. unfold CsvDataset_len in Hidx.
    destruct (index_in_range (images d) idx) as (path & Hp & Hpi); [lia|].
    destruct (index_in_range (captions d) idx) as (cap & Hc & Hci); [lia|].
    exists path, cap. split; [done|]. split; [done|].
    intros img rows Himg Hrows.
    pose proof (tokenize_rows E HE _ _ Hrows) as Hone.
    destruct rows as [|texts [|? ?]]; try done.
    exists texts. eexists. split; [done|].
    unfold CsvDataset_getitem. run_M. rewrite Hpi. simpl.
    rewrite Himg. simpl. rewrite Hci. simpl. rewrite Hrows. simpl. reflexivity.
  - intros batches st n_elements n_batches.
    unfold count_samples. run_M. simpl. rewrite count_loop_spec.
    split; intros (Hall & -> & ->); (split; [done|lia]).
  - intros items st. unfold count_samples. run_M. simpl.
    apply count_loop_spec. split; [|split].
    + apply Forall_forall. intros batch Hin.
      apply list_elem_of_In, in_map_iff in Hin as (its & <- & _).
      destruct (collate_lengths its). congruence.
    + rewrite map_map. simpl. rewrite Z.add_0_l. f_equal.
      apply map_ext. intros its. symmetry. apply (collate_lengths its).
    + unfold len. rewrite length_map. lia.
Qed.

(** ** The class-balanced subset of [get_imagenet] *)

Section Balanced.
Context {E : Env} (HE : EnvOk E).

Lemma nonzeros_app a b : nonzeros (a ++ b) = (nonzeros a + nonzeros b)%nat.
Proof. induction a as [|x a IH]; simpl; [done|]. rewrite IH. lia. Qed.

Lemma nonzeros_replicate_1 n : nonzeros (replicate n 1) = n.
Proof. induction n; simpl; [done|]. by rewrite IHn. Qed.

Lemma nonzeros_replicate_0 n : nonzeros (replicate n 0) = O.
Proof. induction n; simpl; done. Qed.

Lemma nonzeros_perm a b : a ≡ₚ b → nonzeros a = nonzeros b.
Proof. induction 1; simpl; lia. Qed.

Lemma Forall_bit_perm (a b : list Z) :
  a ≡ₚ b → Forall (λ x, x = 0 ∨ x = 1) a → Forall (λ x, x = 0 ∨ x = 1) b.
Proof. intros Hp. by rewrite Hp. Qed.

(** [arr = np.zeros(n); arr[:k] = 1] holds [min(k, n)] ones. *)
Lemma fill_to_zeros n k :
  0 ≤ k →
  length (fill_to (np_zeros n) k 1) = Z.to_nat n
  ∧ nonzeros (fill_to (np_zeros n) k 1) = Nat.min (Z.to_nat k) (Z.to_nat n)
  ∧ Forall (λ x, x = 0 ∨ x = 1) (fill_to (np_zeros n) k 1).
Proof.
  intros Hk. unfold fill_to, np_zeros, slice_to.
  destruct (k <? 0) eqn:Hneg; [lia|].
  rewrite length_take, length_replicate, drop_replicate.
  rewrite nonzeros_app, nonzeros_replicate_1, nonzeros_replicate_0.
  rewrite length_app, !length_replicate.
  split; [lia|]. split; [lia|].
  apply Forall_app. split; apply Forall_replicate; auto.
Qed.

Lemma masked_length a targets c :
  length a = length targets →
  length (masked a (eq_mask targets c)) = class_size c targets.
Proof.
  revert a. induction targets as [|t ts IH]; intros [|x a]; simpl; try done.
  intros [= Hlen]. destruct (t =? c); simpl; rewrite IH; done.
Qed.

Lemma mask_assign_length a m arr : length (mask_assign a m arr) = length a.
Proof.
  revert m arr. induction a as [|x a IH]; intros [|b m] arr; simpl; try done.
  destruct b; [destruct arr|]; simpl; by rewrite IH.
Qed.

Lemma mask_assign_bits a m arr :
  Forall (λ x, x = 0 ∨ x = 1) a → Forall (λ x, x = 0 ∨ x = 1) arr →
  Forall (λ x, x = 0 ∨ x = 1) (mask_assign a m arr).
Proof.
  revert m arr. induction a as [|x a IH]; intros [|b m] arr Ha Harr; simpl;
    try done.
  apply Forall_cons in Ha as [Hx Ha].
  destruct b; [destruct arr as [|y arr]|].
  - constructor; [done|]. by apply IH.
  - apply Forall_cons in Harr as [Hy Harr]. constructor; [done|]. by apply IH.
  - constructor; [done|]. by apply IH.
Qed.

(** [idxs[m] = arr] for the mask of class [c]: the class gets the ones of
    [arr], every other class keeps its own. *)
Lemma mask_assign_selected targets c a arr :
  length a = length targets →
  length arr = class_size c targets →
  selected c targets (mask_assign a (eq_mask targets c) arr) = nonzeros arr
  ∧ ∀ c', c' ≠ c →
      selected c' targets (mask_assign a (eq_mask targets c) arr)
        = selected c' targets a.
Proof.
  revert a arr. induction targets as [|t ts IH]; intros [|x a] arr; simpl;
    try done.
  - intros _ Harr. destruct arr; done.
  - intros [= Hlen] Harr. destruct (t =? c) eqn:Htc; simpl.
    + apply Z.eqb_eq in Htc as ->. destruct arr as [|y arr]; [done|].
      simpl in *. injection Harr as Harr.
      destruct (IH a arr Hlen Harr) as [H1 H2].
      split.
      * rewrite H1. by destruct (y =? 0).
      * intros c' Hc'. rewrite (H2 c' Hc').
        assert ((c =? c') = false) as -> by lia. done.
    + destruct (IH a arr Hlen Harr) as [H1 H2].
      split; [done|]. intros c' Hc'. by rewrite (H2 c' Hc').
Qed.

Lemma selected_zeros c targets n : selected c targets (replicate n 0) = O.
Proof.
  revert n. induction targets as [|t ts IH]; intros [|n]; simpl; try done.
  rewrite IH. by rewrite andb_false_r.
Qed.

(** One turn of the loop. *)
Lemma subsample_class_run k targets c idxs st :
  0 ≤ k → length idxs = length targets →
  Forall (λ x, x = 0 ∨ x = 1) idxs →
  ∃ idxs' st',
    subsample_class E k targets c idxs st = (Ok idxs', st')
    ∧ length idxs' = length targets
    ∧ Forall (λ x, x = 0 ∨ x = 1) idxs'
    ∧ selected c targets idxs' = Nat.min (Z.to_nat k) (class_size c targets)
    ∧ (∀ c', c' ≠ c → selected c' targets idxs' = selected c' targets idxs)
    ∧ environ st' = environ st ∧ events st' = events st.
Proof.
  intros Hk Hlen Hbits. unfold subsample_class. run_M.
  set (n := len (masked idxs (eq_mask targets c))).
  pose proof (shuffle_perm E HE (np_rng st) (fill_to (np_zeros n) k 1)) as Hp.
  destruct (np_random_shuffle E (np_rng st) (fill_to (np_zeros n) k 1))
    as [arr g]. simpl in Hp.
  destruct (fill_to_zeros n k Hk) as (Hfl & Hfn & Hfb).
  assert (Hn : Z.to_nat n = class_size c targets).
  { unfold n, len. rewrite Nat2Z.id. by apply masked_length. }
  assert (Harr : length arr = class_size c targets).
  { by rewrite Hp, Hfl. }
  destruct (mask_assign_selected targets c idxs arr Hlen Harr) as [H1 H2].
  eexists _, _. split; [reflexivity|]. simpl.
  split; [by rewrite mask_assign_length|].
  split; [apply mask_assign_bits; [done|]; by eapply Forall_bit_perm|].
  split; [|by split].
  rewrite H1, (nonzeros_perm _ _ Hp), Hfn. lia.
Qed.

End Balanced.

Section BalancedLoop.
Context {E : Env} (HE : EnvOk E).

(** The loop over the classes [cs]: each of them ends with [min(k, size)]
    selected examples, the others are left as they were. *)
Lemma class_loop_run k targets cs idxs st :
  0 ≤ k → length idxs = length targets →
  Forall (λ x, x = 0 ∨ x = 1) idxs →
  ∃ idxs' st',
    for_each E cs (subsample_class E k targets) idxs st = (Ok idxs', st')
    ∧ length idxs' = length targets
    ∧ (∀ c, c ∈ cs →
         selected c targets idxs' = Nat.min (Z.to_nat k) (class_size c targets))
    ∧ (∀ c, c ∉ cs → selected c targets idxs' = selected c targets idxs)
    ∧ environ st' = environ st ∧ events st' = events st.
Proof.
  intros Hk. revert idxs st.
  induction cs as [|c0 cs IH]; intros idxs st Hlen Hbits; simpl.
  - exists idxs, st. repeat split; try done. intros c Hc. by apply elem_of_nil in Hc.
  - destruct (subsample_class_run HE k targets c0 idxs st Hk Hlen Hbits)
      as (idxs1 & st1 & Hrun & Hlen1 & Hbits1 & Hsel & Hother & Henv & Hev).
    destruct (IH idxs1 st1 Hlen1 Hbits1)
      as (idxs' & st' & Hrun' & Hlen' & Hin & Hout & Henv' & Hev').
    exists idxs', st'. unfold mbind, M_bind. rewrite Hrun, Hrun'.
    split; [done|]. split; [done|]. split; [|split; [|split; congruence]].
    + intros c Hc. destruct (decide (c ∈ cs)) as [Hcs|Hcs]; [by apply Hin|].
      apply elem_of_cons in Hc as [->|?]; [|done]. by rewrite Hout.
    + intros c Hc. apply not_elem_of_cons in Hc as [Hne Hcs].
      rewrite Hout by done. by apply Hother.
Qed.

Lemma length_filter_ext {A} (P Q : A → Prop) `{∀ x, Decision (P x)}
    `{∀ x, Decision (Q x)} (l : list A) :
  (∀ x, x ∈ l → (P x ↔ Q x)) → length (filter P l) = length (filter Q l).
Proof.
  induction l as [|x l IH]; intros Hext; [done|].
  rewrite !filter_cons.
  assert (HPQ : P x ↔ Q x) by (apply Hext; left).
  assert (Hl : length (filter P l) = length (filter Q l)).
  { apply IH. intros y Hy. apply Hext. by right. }
  repeat case_decide; simpl; tauto || lia.
Qed.

Lemma elem_of_nonzero_from off a i :
  i ∈ nonzero_from off a ↔
  off ≤ i ∧ ∃ x, a !! Z.to_nat (i - off) = Some x ∧ x ≠ 0.
Proof.
  revert off. induction a as [|x a IH]; intros off; simpl.
  - split; [by intros ?%elem_of_nil|by intros (_ & ? & ? & _)].
  - assert (Htail : i ∈ nonzero_from (off + 1) a ↔
      off + 1 ≤ i ∧ ∃ y, (x :: a) !! Z.to_nat (i - off) = Some y ∧ y ≠ 0).
    { rewrite IH. split; intros (Hi & y & Hy & Hne); (split; [lia|]);
        exists y; (split; [|done]).
      - replace (Z.to_nat (i - off)) with (S (Z.to_nat (i - (off + 1)))) by lia.
        done.
      - replace (Z.to_nat (i - off)) with (S (Z.to_nat (i - (off + 1)))) in Hy
          by lia. done. }
    destruct (x =? 0) eqn:Hx.
    + rewrite Htail. apply Z.eqb_eq in Hx as ->. split.
      * intros (Hi & y & Hy & Hne). split; [lia|eauto].
      * intros (Hi & y & Hy & Hne).
        destruct (decide (i = off)) as [->|]; [|split; [lia|eauto]].
        rewrite Z.sub_diag in Hy. simpl in Hy. by simplify_eq.
    + apply Z.eqb_neq in Hx. rewrite elem_of_cons, Htail. split.
      * intros [->|(Hi & y & Hy & Hne)]; [|split; [lia|eauto]].
        split; [lia|]. exists x. by rewrite Z.sub_diag.
      * intros (Hi & y & Hy & Hne).
        destruct (decide (i = off)) as [->|]; [by left|right].
        split; [lia|eauto].
Qed.

Lemma NoDup_nonzero_from off a : NoDup (nonzero_from off a).
Proof.
  revert off. induction a as [|x a IH]; intros off; simpl; [constructor|].
  destruct (x =? 0); [apply IH|]. constructor; [|apply IH].
  rewrite elem_of_nonzero_from. lia.
Qed.

(** The positions that [np.where] returns, counted per class. *)
Lemma nonzero_from_selected c targets idxs off :
  length idxs = length targets →
  length (filter (λ i, targets !! Z.to_nat (i - off) = Some c)
            (nonzero_from off idxs))
    = selected c targets idxs.
Proof.
  revert idxs off. induction targets as [|t ts IH]; intros [|x idxs] off;
    simpl; try done.
  intros [= Hlen].
  assert (Htail :
    length (filter (λ i, (t :: ts) !! Z.to_nat (i - off) = Some c)
              (nonzero_from (off + 1) idxs)) = selected c ts idxs).
  { rewrite <- (IH idxs (off + 1) Hlen). apply length_filter_ext.
    intros i [Hi _]%elem_of_nonzero_from.
    replace (Z.to_nat (i - off)) with (S (Z.to_nat (i - (off + 1)))) by lia.
    done. }
  destruct (x =? 0) eqn:Hx; simpl.
  - rewrite Htail. by rewrite andb_false_r.
  - rewrite filter_cons, Z.sub_diag. simpl.
    destruct (t =? c) eqn:Htc; simpl.
    + apply Z.eqb_eq in Htc as ->. rewrite decide_True by done. simpl.
      by rewrite Htail.
    + apply Z.eqb_neq in Htc. rewrite decide_False by congruence.
      by rewrite Htail.
Qed.

Lemma length_filter_class c targets :
  length (filter (λ t, t = c) targets) = class_size c targets.
Proof.
  induction targets as [|t ts IH]; [done|]. rewrite filter_cons. simpl.
  destruct (t =? c) eqn:Htc.
  - apply Z.eqb_eq in Htc. rewrite decide_True by done. simpl. by rewrite IH.
  - apply Z.eqb_neq in Htc. by rewrite decide_False.
Qed.

Lemma selected_pos_class c targets idxs i x :
  targets !! i = Some c → idxs !! i = Some x → x ≠ 0 →
  (0 < selected c targets idxs)%nat.
Proof.
  revert idxs i. induction targets as [|t ts IH]; intros [|y idxs] [|i];
    simpl; try done.
  - intros [= ->] [= ->] Hx. rewrite Z.eqb_refl.
    apply Z.eqb_neq in Hx. rewrite Hx. simpl. lia.
  - intros Ht Hy Hx. pose proof (IH idxs i Ht Hy Hx). lia.
Qed.

End BalancedLoop.

(** The indices drawn by the [if is_train:] block hold, for every class label
    [c] in 0..999, exactly [min(50, number of examples of class c)] indices of
    that class, and no index of an example with any other label. *)
Lemma train_subset_indices_balanced (E : Env) (HE : EnvOk E) (targets : list Z)
    (st : State E) :
  ∃ indices st',
    train_subset_indices E targets st = (Ok indices, st')
    ∧ (∀ c, 0 ≤ c < 1000 →
         len (filter (λ i, targets !! Z.to_nat i = Some c) indices)
           = Z.min 50 (len (filter (λ t, t = c) targets)))
    ∧ (∀ i, i ∈ indices →
         ∃ c, 0 ≤ i ∧ targets !! Z.to_nat i = Some c ∧ 0 ≤ c < 1000)
    ∧ NoDup indices
    ∧ (∀ c, len (filter (λ i, targets !! Z.to_nat i = Some c) indices) ≤ 50).
Proof.
  unfold train_subset_indices.
  assert (Hlen0 : length (np_zeros (len targets)) = length targets).
  { unfold np_zeros, len. by rewrite length_replicate, Nat2Z.id. }
  assert (Hbits0 : Forall (λ x, x = 0 ∨ x = 1) (np_zeros (len targets))).
  { apply Forall_replicate. by left. }
  destruct (class_loop_run HE 50 targets (arange 1000) _ st ltac:(lia) Hlen0 Hbits0)
    as (idxs & st' & Hrun & Hlen & Hin & Hout & _ & _).
  exists (np_where idxs), st'. unfold mbind, M_bind. rewrite Hrun.
  assert (Hcount : ∀ c,
    length (filter (λ i, targets !! Z.to_nat i = Some c) (np_where idxs))
      = selected c targets idxs).
  { intros c. rewrite <- (nonzero_from_selected c targets idxs 0 Hlen).
    apply length_filter_ext. intros i _. by rewrite Z.sub_0_r. }
  assert (Hsel : ∀ c, selected c targets idxs
      = if decide (0 ≤ c < 1000) then Nat.min 50 (class_size c targets) else O).
  { intros c. case_decide as Hc.
    - by rewrite Hin by (by apply elem_of_arange).
    - rewrite Hout by (by rewrite elem_of_arange).
      unfold np_zeros. apply selected_zeros. }
  split; [done|]. split; [|split; [|split]].
  - intros c Hc. unfold len. rewrite Hcount, Hsel, decide_True by done.
    rewrite length_filter_class. lia.
  - intros i Hi. unfold np_where in Hi.
    apply elem_of_nonzero_from in Hi as (Hi & x & Hx & Hne).
    rewrite Z.sub_0_r in Hx.
    destruct (targets !! Z.to_nat i) as [c|] eqn:Ht.
    + exists c. split; [done|]. split; [done|].
      pose proof (selected_pos_class c targets idxs _ x Ht Hx Hne) as Hpos.
      rewrite Hsel in Hpos. case_decide; [done|lia].
    + apply lookup_ge_None in Ht. apply lookup_lt_Some in Hx. lia.
  - apply NoDup_nonzero_from.
  - intros c. unfold len. rewrite Hcount, Hsel. case_decide; lia.
Qed.

(** ** Batches *)

Section Batches.

(** [BatchSampler]: the number of batches it yields is its [__len__]. *)
Lemma batch_iter_length_acc {A} (batch_size : Z) (drop_last : bool)
    (batch sampler : list A) :
  len batch < batch_size →
  len (batch_iter batch_size drop_last batch sampler)
    = if drop_last then (len batch + len sampler) / batch_size
      else (len batch + len sampler + batch_size - 1) / batch_size.
Proof.
  revert batch. induction sampler as [|idx rest IH]; intros batch Hb; simpl.
  - pose proof (len_nonneg batch) as Hge. change (len (@nil A)) with 0.
    rewrite Z.add_0_r. destruct drop_last; simpl.
    + rewrite andb_false_r. by rewrite Z.div_small by lia.
    + rewrite andb_true_r. destruct (0 <? len batch) eqn:Hpos.
      * replace (len batch + batch_size - 1)
          with (1 * batch_size + (len batch - 1)) by lia.
        rewrite Z.div_add_l by lia. rewrite Z.div_small by lia. done.
      * assert (len batch = 0) as -> by lia. by rewrite Z.div_small by lia.
  - pose proof (len_nonneg batch) as Hge.
    assert (Hb' : len (batch ++ [idx]) = len batch + 1).
    { unfold len. rewrite length_app. simpl. lia. }
    assert (Hr : len (idx :: rest) = len rest + 1).
    { unfold len. simpl. lia. }
    rewrite Hr. destruct (len (batch ++ [idx]) =? batch_size) eqn:Hfull.
    + apply Z.eqb_eq in Hfull.
      change (len (?x :: ?l)) with (Z.of_nat (S (length l))).
      rewrite Nat2Z.inj_succ. fold (len (batch_iter batch_size drop_last [] rest)).
      rewrite IH by (change (len (@nil A)) with 0; lia).
      change (len (@nil A)) with 0. rewrite !Z.add_0_l.
      destruct drop_last.
      * replace (len batch + (len rest + 1)) with (1 * batch_size + len rest) by lia.
        rewrite Z.div_add_l by lia. lia.
      * replace (len batch + (len rest + 1) + batch_size - 1)
          with (1 * batch_size + (len rest + batch_size - 1)) by lia.
        rewrite Z.div_add_l by lia. lia.
    + apply Z.eqb_neq in Hfull. rewrite IH by lia. rewrite Hb'.
      destruct drop_last; f_equal; lia.
Qed.

Lemma batch_iter_length {A} (batch_size : Z) (drop_last : bool) (sampler : list A) :
  0 < batch_size →
  len (batch_iter batch_size drop_last [] sampler)
    = batch_sampler_len (len sampler) batch_size drop_last.
Proof.
  intros Hb. rewrite batch_iter_length_acc by done.
  unfold batch_sampler_len. change (len (@nil A)) with 0. by rewrite !Z.add_0_l.
Qed.

End Batches.

(** ** What the constructors return *)

Section Returns.
Context {E : Env}.

Lemma lift_Ok_inv {A} (r : result A) (st st' : State E) a :
  lift r st = (Ok a, st') → r = Ok a ∧ st' = st.
Proof. by intros [= -> ->]. Qed.

Lemma ret_Ok_inv {A} (a b : A) (st st' : State E) :
  (mret a : M E A) st = (Ok b, st') → b = a ∧ st' = st.
Proof. by intros [= -> ->]. Qed.

Lemma assert_truthy_Ok_inv x (st st' : State E) s :
  assert_truthy x st = (Ok s, st') → x = Some s ∧ s ≠ "" ∧ st' = st.
Proof.
  unfold assert_truthy. destruct x as [s0|]; [|done]. unfold truthy.
  destruct (String.eqb s0 "") eqn:Hs; simpl; [done|].
  intros [= -> ->]. by apply String.eqb_neq in Hs.
Qed.

Lemma new_RandomSampler_Ok_inv dataset (st st' : State E) u :
  new_RandomSampler E dataset st = (Ok u, st') →
  (∃ n, dataset_len E dataset = Ok n ∧ 0 < n) ∧ st' = st.
Proof.
  unfold new_RandomSampler.
  intros (n & s1 & [Hn ->]%lift_Ok_inv & H)%bind_Ok_inv.
  destruct (n <=? 0) eqn:Hpos; [done|].
  apply ret_Ok_inv in H as [_ ->]. split; [|done]. exists n. split; [done|lia].
Qed.

Lemma new_BatchSampler_Ok_inv b (st st' : State E) u :
  new_BatchSampler E b st = (Ok u, st') → 0 < b ∧ st' = st.
Proof.
  unfold new_BatchSampler. destruct (b <=? 0) eqn:Hb; [done|].
  intros [_ ->]%ret_Ok_inv. split; [lia|done].
Qed.

(** A loader that is built has passed every check of the constructor; one
    that shuffles without a sampler has a dataset that is not empty. *)
Lemma new_DataLoader_Ok_inv a (st st' : State E) d :
  new_DataLoader E a st = (Ok d, st') →
  d = {| loader := TorchLoader a; num_samples := None; num_batches := None |}
  ∧ st' = st
  ∧ 0 ≤ dl_num_workers a
  ∧ (dl_sampler a = None ∨ dl_shuffle a = false)
  ∧ (∀ b, dl_batch_size a = Some b → 0 < b)
  ∧ (dl_sampler a = None → dl_shuffle a = true →
     ∃ n, dataset_len E (dl_dataset a) = Ok n ∧ 0 < n).
Proof.
  unfold new_DataLoader.
  destruct (dl_num_workers a <? 0) eqn:Hw; [done|].
  destruct (negb (is_None (dl_sampler a)) && dl_shuffle a) eqn:Hs; [done|].
  intros (u1 & s1 & Hrand & H)%bind_Ok_inv.
  apply bind_Ok_inv in H as (u2 & s2 & Hbatch & [-> ->]%ret_Ok_inv).
  assert (Hs1 : s1 = st
    ∧ (dl_sampler a = None → dl_shuffle a = true →
       ∃ n, dataset_len E (dl_dataset a) = Ok n ∧ 0 < n)) .
  { destruct (is_None (dl_sampler a) && dl_shuffle a) eqn:Hsh.
    - apply new_RandomSampler_Ok_inv in Hrand as [Hn ->]. done.
    - apply ret_Ok_inv in Hrand as [_ ->]. split; [done|].
      intros Hnone Htrue. by rewrite Hnone, Htrue in Hsh. }
  destruct Hs1 as [-> Hne].
  assert (Hs2 : s2 = st ∧ ∀ b, dl_batch_size a = Some b → 0 < b).
  { destruct (dl_batch_size a) as [b|].
    - apply new_BatchSampler_Ok_inv in Hbatch as [Hb ->].
      split; [done|]. by intros ? [= <-].
    - apply ret_Ok_inv in Hbatch as [_ ->]. done. }
  destruct Hs2 as [-> Hbs].
  split; [done|]. split; [done|]. split; [lia|]. split; [|done].
  destruct (dl_sampler a), (dl_shuffle a); auto.
Qed.

Lemma new_WebLoader_Ok_inv a (st st' : State E) d :
  new_WebLoader E a st = (Ok d, st') →
  d = {| loader := WebLoader a; num_samples := None; num_batches := None |}
  ∧ st' = st
  ∧ 0 ≤ dl_num_workers a.
Proof.
  unfold new_WebLoader.
  intros (d0 & s1 & Hd & [-> ->]%ret_Ok_inv)%bind_Ok_inv.
  apply new_DataLoader_Ok_inv in Hd as (_ & -> & Hw & _). done.
Qed.

Lemma new_DistributedSampler_Ok_inv dataset sd (st st' : State E) s :
  new_DistributedSampler E dataset sd st = (Ok s, st') →
  ∃ w, dist_get_world_size E = Ok w
    ∧ s = DistributedSampler dataset w sd ∧ st' = st.
Proof.
  unfold new_DistributedSampler.
  intros (w & s1 & [Hw ->]%lift_Ok_inv & H)%bind_Ok_inv.
  apply bind_Ok_inv in H as (n & s2 & [_ ->]%lift_Ok_inv & [-> ->]%ret_Ok_inv).
  eauto.
Qed.

(** The common tail of [get_cellpainting_dataset] and [get_csv_dataset]:
    the sampler, the loader and its two attributes. *)
Lemma counted_loader_Ok_inv (args : Args) (is_train : bool) (dataset : Dataset)
    (shuffle_of : option Sampler → bool) (st st' : State E) di :
  counted_loader E args is_train dataset shuffle_of st = (Ok di, st') →
  ∃ a n b,
    dataloader di
      = {| loader := TorchLoader a; num_samples := Some n; num_batches := Some b |}
    ∧ a = {| dl_dataset := dataset;
             dl_batch_size :=
               Some (if is_train then batch_size args else batch_size_eval args);
             dl_shuffle := shuffle_of (sampler di);
             dl_num_workers := workers args; dl_pin_memory := true;
             dl_sampler := sampler di; dl_drop_last := is_train |}
    ∧ dataset_len E dataset = Ok n
    ∧ loader_len E (TorchLoader a) = Ok b
    ∧ 0 < (if is_train then batch_size args else batch_size_eval args)
    ∧ (sampler di = None ∨ shuffle_of (sampler di) = false)
    ∧ (if distributed args && is_train
       then ∃ w, dist_get_world_size E = Ok w
              ∧ sampler di = Some (DistributedSampler dataset w (seed args))
       else sampler di = None)
    ∧ st' = st.
Proof.
  unfold counted_loader.
  intros (n & s1 & [Hn ->]%lift_Ok_inv & H)%bind_Ok_inv.
  apply bind_Ok_inv in H as (smp & s2 & Hsmp & H).
  apply bind_Ok_inv in H as (d & s3 & Hd & H).
  apply new_DataLoader_Ok_inv in Hd as (-> & -> & Hw & Hexcl & Hbs & _).
  apply bind_Ok_inv in H as (b & s4 & [Hb ->]%lift_Ok_inv & [-> ->]%ret_Ok_inv).
  simpl in *.
  assert (Hsampler : (if distributed args && is_train
       then ∃ w, dist_get_world_size E = Ok w
              ∧ smp = Some (DistributedSampler dataset w (seed args))
       else smp = None) ∧ s2 = st).
  { destruct (distributed args && is_train).
    - apply bind_Ok_inv in Hsmp as (s & s5 & Hs & [-> ->]%ret_Ok_inv).
      apply new_DistributedSampler_Ok_inv in Hs as (w & Hw' & -> & ->). eauto.
    - by apply ret_Ok_inv in Hsmp as [-> ->]. }
  destruct Hsampler as [Hsampler ->].
  eexists _, n, b. split; [reflexivity|]. split; [reflexivity|].
  split; [done|]. split; [done|]. split; [by apply Hbs|]. done.
Qed.

Lemma subset_or_same (b : bool) dataset (st st' : State E) d :
  (if b then get_data_subset E dataset default_n_samples else mret dataset) st
    = (Ok d, st') →
  (b = false ∧ d = dataset ∧ st' = st)
  ∨ (b = true ∧ get_data_subset E dataset default_n_samples st = (Ok d, st')).
Proof. destruct b; [by right|]. intros [-> ->]%ret_Ok_inv. by left. Qed.

Lemma get_cellpainting_dataset_Ok_inv args pre is_train (st st' : State E) di :
  get_cellpainting_dataset E args pre is_train st = (Ok di, st') →
  ∃ a n b,
    dataloader di
      = {| loader := TorchLoader a; num_samples := Some n; num_batches := Some b |}
    ∧ dl_batch_size a
        = Some (if is_train then batch_size args else batch_size_eval args)
    ∧ dl_shuffle a = is_train && is_None (sampler di)
    ∧ dl_sampler a = sampler di
    ∧ dl_drop_last a = is_train
    ∧ dataset_len E (dl_dataset a) = Ok n
    ∧ loader_len E (TorchLoader a) = Ok b
    ∧ 0 < (if is_train then batch_size args else batch_size_eval args)
    ∧ (if distributed args && is_train
       then ∃ w, dist_get_world_size E = Ok w
              ∧ sampler di = Some (DistributedSampler (dl_dataset a) w (seed args))
       else sampler di = None).
Proof.
  unfold get_cellpainting_dataset.
  intros (mols & s1 & _ & H)%bind_Ok_inv.
  apply bind_Ok_inv in H as (imgs & s2 & _ & H).
  apply bind_Ok_inv in H as (u & s3 & _ & H).
  apply bind_Ok_inv in H as (size & s4 & _ & H).
  apply bind_Ok_inv in H as (dataset & s5 & _ & H).
  apply (counted_loader_Ok_inv args is_train dataset
           (λ sampler, is_train && is_None sampler)) in H
    as (a & n & b & Hdl & -> & Hn & Hb & Hbs & _ & Hs & _).
  eexists _, n, b. split; [exact Hdl|]. simpl. by repeat split.
Qed.

Lemma get_csv_dataset_Ok_inv args pre is_train run_mode (st st' : State E) di :
  get_csv_dataset E args pre is_train run_mode st = (Ok di, st') →
  ∃ a n b,
    dataloader di
      = {| loader := TorchLoader a; num_samples := Some n; num_batches := Some b |}
    ∧ dl_batch_size a
        = Some (if is_train then batch_size args else batch_size_eval args)
    ∧ dl_shuffle a = is_None (sampler di)
    ∧ dl_sampler a = sampler di
    ∧ dl_drop_last a = is_train
    ∧ dataset_len E (dl_dataset a) = Ok n
    ∧ loader_len E (TorchLoader a) = Ok b
    ∧ 0 < (if is_train then batch_size args else batch_size_eval args)
    ∧ (if distributed args && is_train
       then ∃ w, dist_get_world_size E = Ok w
              ∧ sampler di = Some (DistributedSampler (dl_dataset a) w (seed args))
       else sampler di = None).
Proof.
  unfold get_csv_dataset.
  intros (f & s1 & _ & H)%bind_Ok_inv.
  apply bind_Ok_inv in H as (d & s2 & _ & H).
  apply bind_Ok_inv in H as (dataset & s3 & _ & H).
  apply (counted_loader_Ok_inv args is_train dataset is_None) in H
    as (a & n & b & Hdl & -> & Hn & Hb & Hbs & _ & Hs & _).
  eexists _, n, b. split; [exact Hdl|]. simpl. by repeat split.
Qed.

Lemma get_wds_dataset_Ok_inv args pre is_train run_mode (st st' : State E) di :
  get_wds_dataset E args pre is_train run_mode st = (Ok di, st') →
  ∃ shards total_size num_shards n b bs st1 a,
    (if is_train then train_data args else val_data args) = Some shards
    ∧ get_dataset_size E shards st = (Ok (total_size, num_shards), st1)
    ∧ wds_counts args is_train total_size num_shards = Ok (n, b, bs)
    ∧ sampler di = None
    ∧ num_samples (dataloader di) = Some n
    ∧ num_batches (dataloader di) = Some b
    ∧ loader (dataloader di)
        = (if is_train && distributed args
           then Slice b (Repeat 2 (WebLoader a)) else WebLoader a)
    ∧ dl_shuffle a = false ∧ dl_sampler a = None ∧ dl_batch_size a = None
    ∧ (debug_run args = false →
       dl_dataset a = WebDataset
         {| wds_shards := shards; wds_epoch_shuffle := is_train;
            wds_split_by_node := is_train; wds_preprocess_img := pre;
            wds_batch_size := bs;
            wds_partial := negb is_train || negb (distributed args) |})
    ∧ 0 ≤ seed args < 2 ^ 32
    ∧ 0 ≤ workers args.
Proof.
  unfold get_wds_dataset.
  intros (shards & s1 & Hsh & H)%bind_Ok_inv.
  assert ((if is_train then train_data args else val_data args) = Some shards
          ∧ s1 = st) as [Hshards ->].
  { unfold assert_not_None in Hsh.
    destruct (if is_train then train_data args else val_data args); [|done].
    by apply ret_Ok_inv in Hsh as [-> ->]. }
  apply bind_Ok_inv in H as ([total_size num_shards] & s2 & Hsize & H).
  apply bind_Ok_inv in H as ([[n b] bs] & s3 & [Hcounts ->]%lift_Ok_inv & H).
  apply bind_Ok_inv in H as (u1 & s4 & _ & H).
  apply bind_Ok_inv in H as (u2 & s5 & Hseed & H).
  apply bind_Ok_inv in H as (u3 & s6 & _ & H).
  apply bind_Ok_inv in H as (dataset & s7 & Hds & H).
  apply bind_Ok_inv in H as (d & s8 & Hd & H).
  apply new_WebLoader_Ok_inv in Hd as (-> & -> & Hw).
  apply ret_Ok_inv in H as [-> ->].
  assert (Hrange : 0 ≤ seed args < 2 ^ 32).
  { unfold np_seed in Hseed.
    destruct ((0 <=? seed args) && (seed args <? 2 ^ 32)) eqn:Hr; [lia|done]. }
  exists shards, total_size, num_shards, n, b, bs, s2. eexists.
  split; [done|]. split; [done|]. split; [done|]. simpl.
  split; [done|]. split; [by destruct (is_train && distributed args)|].
  split; [by destruct (is_train && distributed args)|].
  split; [destruct (is_train && distributed args); reflexivity|]. simpl.
  split; [done|]. split; [done|]. split; [done|].
  split; [|done].
  intros Hdbg. rewrite Hdbg in Hds. by apply ret_Ok_inv in Hds as [-> _].
Qed.

Lemma get_imagenet_Ok_inv args fns split (st st' : State E) di :
  get_imagenet E args fns split st = (Ok di, st') →
  ∃ a, dataloader di
         = {| loader := TorchLoader a; num_samples := None; num_batches := None |}
    ∧ dl_sampler a = sampler di.
Proof.
  unfold get_imagenet.
  intros ([dataset smp] & s1 & _ & H)%bind_Ok_inv.
  apply bind_Ok_inv in H as (d & s2 & Hd & [-> ->]%ret_Ok_inv).
  apply new_DataLoader_Ok_inv in Hd as (-> & _). eexists. by split.
Qed.

Lemma bind_Ok_step {A B} (m : M E A) (k : A → M E B) st a st1 :
  m st = (Ok a, st1) → (m ≫= k) st = k a st1.
Proof. unfold mbind, M_bind. by intros ->. Qed.

Lemma new_DistributedSampler_returns (HE : EnvOk E) dataset sd n w (st : State E) :
  dataset_len E dataset = Ok n → dist_get_world_size E = Ok w →
  new_DistributedSampler E dataset sd st = (Ok (DistributedSampler dataset w sd), st)
  ∧ sampler_len E (DistributedSampler dataset w sd) = Ok (- (- n / w)).
Proof.
  intros Hn Hw. pose proof (world_size_pos E HE w Hw) as Hpos.
  assert (Hlen : sampler_len E (DistributedSampler dataset w sd)
                 = Ok (- (- n / w))).
  { simpl. run_M. rewrite Hn. simpl. unfold ceil_truediv.
    by assert ((w =? 0) = false) as -> by lia. }
  split; [|done]. unfold new_DistributedSampler.
  rewrite (bind_Ok_step _ _ st w st) by (unfold lift; by rewrite Hw).
  rewrite (bind_Ok_step _ _ st (- (- n / w)) st) by (unfold lift; by rewrite Hlen).
  done.
Qed.

(** The checks of the constructor are the only way for it to fail. *)
Lemma new_DataLoader_returns a (st : State E) :
  0 ≤ dl_num_workers a →
  (dl_sampler a = None ∨ dl_shuffle a = false) →
  (dl_sampler a = None → dl_shuffle a = true →
   ∃ n, dataset_len E (dl_dataset a) = Ok n ∧ 0 < n) →
  (∀ b, dl_batch_size a = Some b → 0 < b) →
  new_DataLoader E a st
    = (Ok {| loader := TorchLoader a; num_samples := None; num_batches := None |}, st).
Proof.
  intros Hw Hexcl Hne Hb. unfold new_DataLoader.
  assert ((dl_num_workers a <? 0) = false) as -> by lia.
  assert (negb (is_None (dl_sampler a)) && dl_shuffle a = false) as ->.
  { destruct Hexcl as [-> | ->]; [done|by rewrite andb_false_r]. }
  assert (Hrand : (if is_None (dl_sampler a) && dl_shuffle a
                   then new_RandomSampler E (dl_dataset a) else mret ()) st
                  = (Ok (), st)).
  { destruct (dl_sampler a) as [s|]; [done|].
    destruct (dl_shuffle a); [|done]. simpl.
    destruct (Hne eq_refl eq_refl) as (n & Hn & Hpos).
    unfold new_RandomSampler. run_M. rewrite Hn.
    by assert ((n <=? 0) = false) as -> by lia. }
  rewrite (bind_Ok_step _ _ _ _ _ Hrand).
  assert (Hbatch : match dl_batch_size a with
                   | Some batch_size => new_BatchSampler E batch_size
                   | None => mret ()
                   end st = (Ok (), st)).
  { destruct (dl_batch_size a) as [b|]; [|done].
    specialize (Hb b eq_refl). unfold new_BatchSampler.
    by assert ((b <=? 0) = false) as -> by lia. }
  by rewrite (bind_Ok_step _ _ _ _ _ Hbatch).
Qed.

(** [shuffle=True] without a sampler on an empty dataset: the [RandomSampler]
    that the constructor builds refuses it. *)
Lemma new_DataLoader_empty_shuffle a (st : State E) :
  0 ≤ dl_num_workers a → dl_sampler a = None → dl_shuffle a = true →
  dataset_len E (dl_dataset a) = Ok 0 →
  new_DataLoader E a st
    = (Raise (ValueError
         "num_samples should be a positive integer value, but got num_samples=0"),
       st).
Proof.
  intros Hw Hs Hsh Hn. unfold new_DataLoader, new_RandomSampler.
  assert ((dl_num_workers a <? 0) = false) as -> by lia.
  rewrite Hs, Hsh. simpl. run_M. by rewrite Hn.
Qed.

Lemma new_WebLoader_returns a (st : State E) :
  0 ≤ dl_num_workers a → dl_sampler a = None → dl_shuffle a = false →
  dl_batch_size a = None →
  new_WebLoader E a st
    = (Ok {| loader := WebLoader a; num_samples := None; num_batches := None |}, st).
Proof.
  intros Hw Hs Hsh Hb. unfold new_WebLoader.
  rewrite (bind_Ok_step _ _ _ _ _
             (new_DataLoader_returns a st Hw (or_introl Hs)
                ltac:(intros _ Ht; by rewrite Hsh in Ht)
                ltac:(intros b Hb'; by rewrite Hb in Hb'))).
  done.
Qed.

(** With a dataset of known length, a positive batch size and, in distributed
    training, an initialised process group, the tail returns. *)
Lemma counted_loader_returns (HE : EnvOk E) (args : Args) (is_train : bool) dataset
    (shuffle_of : option Sampler → bool) n (st : State E) :
  dataset_len E dataset = Ok n →
  (∀ s, shuffle_of (Some s) = false) →
  (distributed args && is_train = false → shuffle_of None = true → 0 < n) →
  0 < (if is_train then batch_size args else batch_size_eval args) →
  0 ≤ workers args →
  (distributed args && is_train = true → is_ok (dist_get_world_size E) = true) →
  ∃ di, counted_loader E args is_train dataset shuffle_of st = (Ok di, st).
Proof.
  intros Hn Hsh Hne Hbs Hw Hdist. unfold counted_loader.
  rewrite (bind_Ok_step _ _ st n st) by (unfold lift; by rewrite Hn).
  assert (Hsmp : ∃ smp z,
    (if distributed args && is_train
     then s ← new_DistributedSampler E dataset (seed args); mret (Some s)
     else mret None) st = (Ok smp, st)
    ∧ index_count E
        {| dl_dataset := dataset;
           dl_batch_size :=
             Some (if is_train then batch_size args else batch_size_eval args);
           dl_shuffle := shuffle_of smp; dl_num_workers := workers args;
           dl_pin_memory := true; dl_sampler := smp; dl_drop_last := is_train |}
      = Ok z
    ∧ (smp = None ∨ shuffle_of smp = false)
    ∧ (smp = None → shuffle_of smp = true → 0 < n)).
  { destruct (distributed args && is_train) eqn:Hd.
    - specialize (Hdist eq_refl).
      destruct (dist_get_world_size E) as [w|] eqn:Hws; [|done].
      destruct (new_DistributedSampler_returns HE dataset (seed args) n w st Hn Hws)
        as [Hnew Hlen].
      eexists _, _. rewrite (bind_Ok_step _ _ _ _ _ Hnew).
      split; [reflexivity|]. split; [exact Hlen|]. split; [|done].
      right. apply Hsh.
    - exists None, n. split; [done|]. split; [exact Hn|].
      split; [by left|]. intros _. by apply Hne. }
  destruct Hsmp as (smp & z & Hsmp & Hz & Hexcl & Hpos).
  rewrite (bind_Ok_step _ _ _ _ _ Hsmp). simpl.
  set (a := {| dl_dataset := dataset;
               dl_batch_size :=
                 Some (if is_train then batch_size args else batch_size_eval args);
               dl_shuffle := shuffle_of smp; dl_num_workers := workers args;
               dl_pin_memory := true; dl_sampler := smp;
               dl_drop_last := is_train |}) in *.
  assert (Hnew : new_DataLoader E a st
    = (Ok {| loader := TorchLoader a; num_samples := None; num_batches := None |}, st)).
  { apply new_DataLoader_returns; [done|done| |by intros b [= <-]].
    intros Hnone Hshuffle. exists n. split; [exact Hn|]. by apply Hpos. }
  rewrite (bind_Ok_step _ _ _ _ _ Hnew).
  simpl. eexists.
  rewrite (bind_Ok_step _ _ st
             (batch_sampler_len z
                (if is_train then batch_size args else batch_size_eval args)
                is_train) st); [reflexivity|].
  unfold lift, loader_len. run_M. fold a. rewrite Hz. reflexivity.
Qed.

End Returns.

Section ConstructorsReturn.
Context {E : Env} (HE : EnvOk E).

Lemma debug_subset_returns (b : bool) dataset n (st : State E) :
  dataset_len E dataset = Ok n →
  ∃ d m st',
    (if b then get_data_subset E dataset default_n_samples else mret dataset) st
      = (Ok d, st')
    ∧ dataset_len E d = Ok m
    ∧ (0 < n → 0 < m).
Proof.
  intros Hn. destruct b.
  - destruct (get_data_subset_run HE dataset n default_n_samples st Hn)
      as (idcs & st' & Hrun & Hperm & _).
    eexists _, _, st'. split; [exact Hrun|]. split; [reflexivity|].
    intros Hpos. unfold default_n_samples.
    rewrite len_slice_to by lia.
    unfold len. rewrite Hperm, length_arange. lia.
  - exists dataset, n, st. by split.
Qed.

Lemma get_cellpainting_dataset_returns (args : Args) pre (is_train : bool) mols imgs size
    (st : State E) :
  data_mols args = Some mols → mols ≠ "" →
  image_path args = Some imgs → imgs ≠ "" →
  CellPainting E (if is_train then train_index args else val_index args)
    imgs mols = Ok size →
  (is_train && negb (distributed args) = true → 0 < size) →
  0 < (if is_train then batch_size args else batch_size_eval args) →
  0 ≤ workers args →
  (distributed args && is_train = true → is_ok (dist_get_world_size E) = true) →
  ∃ di st', get_cellpainting_dataset E args pre is_train st = (Ok di, st').
Proof.
  intros Hm Hmne Hi Hine Hsize Hne Hbs Hw Hdist. unfold get_cellpainting_dataset.
  rewrite Hm, Hi. unfold assert_truthy, truthy.
  apply String.eqb_neq in Hmne, Hine. rewrite Hmne, Hine. simpl.
  rewrite !bind_ret_l.
  erewrite bind_Ok_step by reflexivity.
  erewrite bind_Ok_step by (unfold lift; rewrite Hsize; reflexivity).
  match goal with |- context [ (if debug_run args then _ else _) ≫= _ ] =>
    edestruct (debug_subset_returns (debug_run args)
      (CellPaintingDataset (if is_train then train_index args else val_index args)
         imgs mols pre size) size) as (d & m & st1 & Hd & Hlen & Hpos);
      [reflexivity|]
  end.
  erewrite bind_Ok_step by exact Hd.
  destruct (counted_loader_returns HE args is_train d
              (λ sampler, is_train && is_None sampler) m st1 Hlen)
    as [di Hdi]; [intros s; apply andb_false_r| |done..|].
  { intros Hnd Htrain. apply Hpos, Hne.
    destruct is_train, (distributed args); done. }
  exists di, st1. exact Hdi.
Qed.

Lemma get_csv_dataset_returns (args : Args) pre (is_train : bool) run_mode f d
    (st st1 : State E) :
  (if is_train then train_data args else val_data args) = Some f → f ≠ "" →
  CsvDataset_init E f pre (csv_img_key args) (csv_caption_key args)
    (path_data args) (csv_separator args) st = (Ok d, st1) →
  (distributed args && is_train = false → 0 < CsvDataset_len d) →
  0 < (if is_train then batch_size args else batch_size_eval args) →
  0 ≤ workers args →
  (distributed args && is_train = true → is_ok (dist_get_world_size E) = true) →
  ∃ di st', get_csv_dataset E args pre is_train run_mode st = (Ok di, st').
Proof.
  intros Hf Hfne Hinit Hne Hbs Hw Hdist. unfold get_csv_dataset.
  rewrite Hf. unfold assert_truthy, truthy.
  apply String.eqb_neq in Hfne. rewrite Hfne. simpl. rewrite bind_ret_l.
  erewrite bind_Ok_step by exact Hinit.
  edestruct (debug_subset_returns (debug_run args) (OfCsvDataset d))
    as (d' & m & st2 & Hd & Hlen & Hpos); [reflexivity|].
  erewrite bind_Ok_step by exact Hd.
  destruct (counted_loader_returns HE args is_train d' is_None m st2 Hlen)
    as [di Hdi]; [done| |done..|].
  { intros Hnd _. by apply Hpos, Hne. }
  exists di, st2. exact Hdi.
Qed.

End ConstructorsReturn.

(** ** The sample world is a lawful one *)

Lemma sample_env_ok : EnvOk Sample.env.
Proof.
  split; simpl.
  - intros g l. symmetry. apply Permutation_rev.
  - intros texts rows [= <-]. apply length_map.
  - intros n [= <-]. lia.
Qed.

(** ** The count attributes of the loaders *)

Section Attributes.
Context {E : Env}.

Lemma counts_attached_intro di a n b batch_size :
  dataloader di
    = {| loader := TorchLoader a; num_samples := Some n; num_batches := Some b |} →
  dl_batch_size a = Some batch_size → 0 < batch_size →
  dataset_len E (dl_dataset a) = Ok n →
  loader_len E (TorchLoader a) = Ok b →
  counts_attached E di.
Proof.
  intros Hdl Hbs Hpos Hn Hb. exists a, n, b, batch_size. rewrite Hdl. simpl.
  repeat split; try done.
  intros order Horder. rewrite batch_iter_length by done.
  unfold loader_len in Hb. run_M. rewrite Horder, Hbs in Hb. simpl in Hb.
  by injection Hb.
Qed.

End Attributes.

(** C3, as the code has it: a [DataInfo] that [get_cellpainting_dataset] or
    [get_csv_dataset] returns has a loader with [num_samples] equal to the
    length of the (possibly subsampled) dataset and [num_batches] equal to the
    number of batches the loader yields; the two functions do return when
    their inputs can be read, the batch size is positive, the number of
    workers is not negative, the process group is initialised in distributed
    training and the dataset of a loader that shuffles is not empty (an empty
    one is refused by [DataLoader]); [get_wds_dataset] sets both attributes to
    the counts it derives from the size manifest; [get_imagenet] sets neither
    attribute. *)
Theorem loader_count_attributes (E : Env) (HE : EnvOk E) (args : Args)
    (pre : Transform) (is_train : bool) (run_mode : option string)
    (fns : Transform * Transform) (split : string) (st : State E) :
  (∀ di st', get_cellpainting_dataset E args pre is_train st = (Ok di, st') →
     counts_attached E di)
  ∧ (∀ di st', get_csv_dataset E args pre is_train run_mode st = (Ok di, st') →
     counts_attached E di)
  ∧ (∀ mols imgs size,
       data_mols args = Some mols → mols ≠ "" →
       image_path args = Some imgs → imgs ≠ "" →
       CellPainting E (if is_train then train_index args else val_index args)
         imgs mols = Ok size →
       (is_train && negb (distributed args) = true → 0 < size) →
       0 < (if is_train then batch_size args else batch_size_eval args) →
       0 ≤ workers args →
       (distributed args && is_train = true →
        is_ok (dist_get_world_size E) = true) →
       ∃ di st', get_cellpainting_dataset E args pre is_train st = (Ok di, st'))
  ∧ (∀ f d st1,
       (if is_train then train_data args else val_data args) = Some f → f ≠ "" →
       CsvDataset_init E f pre (csv_img_key args) (csv_caption_key args)
         (path_data args) (csv_separator args) st = (Ok d, st1) →
       (distributed args && is_train = false → 0 < CsvDataset_len d) →
       0 < (if is_train then batch_size args else batch_size_eval args) →
       0 ≤ workers args →
       (distributed args && is_train = true →
        is_ok (dist_get_world_size E) = true) →
       ∃ di st', get_csv_dataset E args pre is_train run_mode st = (Ok di, st'))
  ∧ (∀ di st', get_wds_dataset E args pre is_train run_mode st = (Ok di, st') →
     ∃ shards total_size num_shards n b bs st1,
       (if is_train then train_data args else val_data args) = Some shards
       ∧ get_dataset_size E shards st = (Ok (total_size, num_shards), st1)
       ∧ wds_counts args is_train total_size num_shards = Ok (n, b, bs)
       ∧ num_samples (dataloader di) = Some n
       ∧ num_batches (dataloader di) = Some b)
  ∧ (∀ di st', get_imagenet E args fns split st = (Ok di, st') →
     num_samples (dataloader di) = None ∧ num_batches (dataloader di) = None).
Proof.
  split; [|split; [|split; [|split; [|split]]]].
  - intros di st' (a & n & b & Hdl & Hbs & _ & _ & _ & Hn & Hb & Hpos & _)
      %get_cellpainting_dataset_Ok_inv.
    by eapply counts_attached_intro.
  - intros di st' (a & n & b & Hdl & Hbs & _ & _ & _ & Hn & Hb & Hpos & _)
      %get_csv_dataset_Ok_inv.
    by eapply counts_attached_intro.
  - intros. by eapply get_cellpainting_dataset_returns.
  - intros. by eapply get_csv_dataset_returns.
  - intros di st' (shards & total & k & n & b & bs & st1 & a & H1 & H2 & H3
                   & _ & H4 & H5 & _)%get_wds_dataset_Ok_inv.
    by exists shards, total, k, n, b, bs, st1.
  - intros di st' (a & -> & _)%get_imagenet_Ok_inv. done.
Qed.

(** Two loaders of the sample world whose attributes are not the size of the
    dataset and the number of batches yielded. The one that [get_imagenet]
    returns for the "val" split has neither a [num_samples] nor a
    [num_batches] attribute. The one that [get_wds_dataset] returns for
    distributed training reports 1000 samples where the shards hold 1010, and
    50 batches where the node that reads the small shard, one batch per epoch,
    is given 2. *)
Lemma loaders_without_claimed_counts :
  (∃ di st',
     get_imagenet Sample.env Sample.args (Sample.pre, Sample.pre) "val" Sample.st0
       = (Ok di, st')
     ∧ num_samples (dataloader di) = None
     ∧ num_batches (dataloader di) = None
     ∧ ¬ counts_attached Sample.env di)
  ∧ (∃ di st' st1,
     get_wds_dataset Sample.env Sample.args Sample.pre true None Sample.st0
       = (Ok di, st')
     ∧ get_dataset_size Sample.env "shards/{0..1}.tar" Sample.st0
       = (Ok (1010, 2), st1)
     ∧ num_samples (dataloader di) = Some 1000
     ∧ num_batches (dataloader di) = Some 50
     ∧ len (stream (λ _, [()]) (loader (dataloader di))) = 2
     ∧ ¬ counts_attached Sample.env di).
Proof.
  split.
  - eexists _, _. split; [vm_compute; reflexivity|]. simpl.
    split; [done|]. split; [done|].
    intros (a & n & b & bs & _ & _ & Hn & _). simpl in Hn. done.
  - eexists _, _, _. split; [vm_compute; reflexivity|].
    split; [vm_compute; reflexivity|]. simpl.
    split; [done|]. split; [done|]. split; [done|].
    intros (a & n & b & bs & Hl & _). simpl in Hl. done.
Qed.

Lemma loader_count_attributes_witness :
  ∃ di st',
    get_csv_dataset Sample.env Sample.args Sample.pre false None Sample.st0
      = (Ok di, st')
    ∧ counts_attached Sample.env di.
Proof.
  destruct (proj1 (proj2 (proj2 (proj2
    (loader_count_attributes Sample.env sample_env_ok Sample.args Sample.pre
       false None (Sample.pre, Sample.pre) "val" Sample.st0))))
    "train.csv"
    {| images := ["imgs/a.png"; "imgs/b.png"; "imgs/c.png"];
       captions := [CellStr "CCO"; CellStr "c1ccccc1"; CellNaN];
       transforms := Sample.pre |}
    {| np_rng := 0%N : rng Sample.env; environ := ∅;
       events := [EvReadCsv "train.csv" ","] |})
    as (di & st' & Hrun).
  - reflexivity.
  - discriminate.
  - vm_compute. reflexivity.
  - intros _. vm_compute. reflexivity.
  - simpl. lia.
  - simpl. lia.
  - simpl. discriminate.
  - exists di, st'. split; [exact Hrun|].
    exact (proj1 (proj2
      (loader_count_attributes Sample.env sample_env_ok Sample.args Sample.pre
         false None (Sample.pre, Sample.pre) "val" Sample.st0)) di st' Hrun).
Defined.

(** ** The sampler field of [DataInfo] *)

(** C4, as the code has it: [DataInfo] pairs a loader with a possibly absent
    sampler. For [get_cellpainting_dataset] and [get_csv_dataset] the sampler
    is a [DistributedSampler] over the loader's dataset, seeded with
    [args.seed], exactly when [args.distributed] holds and [is_train] is true,
    and [None] otherwise; the loader is built with that same sampler, and when
    the sampler is [None] and [is_train] is true it is built with
    [shuffle=True]. For [get_wds_dataset] the sampler is always [None] and the
    loader is built with [shuffle=False]: there the shard list is what is
    shuffled, when [is_train] is true. *)
Theorem sampler_field (E : Env) (args : Args) (pre : Transform)
    (is_train : bool) (run_mode : option string) (st st' : State E)
    (di : DataInfo) :
  (get_cellpainting_dataset E args pre is_train st = (Ok di, st')
   ∨ get_csv_dataset E args pre is_train run_mode st = (Ok di, st') →
   ∃ a, loader (dataloader di) = TorchLoader a
     ∧ dl_sampler a = sampler di
     ∧ ((∃ w, sampler di = Some (DistributedSampler (dl_dataset a) w (seed args)))
        ↔ distributed args = true ∧ is_train = true)
     ∧ (sampler di = None ↔ ¬ (distributed args = true ∧ is_train = true))
     ∧ (sampler di = None → is_train = true → dl_shuffle a = true))
  ∧ (get_wds_dataset E args pre is_train run_mode st = (Ok di, st') →
     sampler di = None
     ∧ dl_sampler (loader_args (loader (dataloader di))) = None
     ∧ dl_shuffle (loader_args (loader (dataloader di))) = false
     ∧ (debug_run args = false →
        ∃ p, dl_dataset (loader_args (loader (dataloader di))) = WebDataset p
           ∧ wds_epoch_shuffle p = is_train)).
Proof.
  split.
  - intros Hrun.
    assert (∃ a shuffle,
      loader (dataloader di) = TorchLoader a ∧ dl_sampler a = sampler di
      ∧ dl_shuffle a = shuffle
      ∧ (sampler di = None → is_train = true → shuffle = true)
      ∧ (if distributed args && is_train
         then ∃ w, dist_get_world_size E = Ok w
                ∧ sampler di = Some (DistributedSampler (dl_dataset a) w (seed args))
         else sampler di = None))
      as (a & shuffle & Hl & Hs & Hsh & Hshuf & Hsmp).
    { destruct Hrun as [Hrun|Hrun].
      - apply get_cellpainting_dataset_Ok_inv in Hrun
          as (a & n & b & Hdl & _ & Hsh & Hs & _ & _ & _ & _ & Hsmp).
        exists a, (is_train && is_None (sampler di)). rewrite Hdl. simpl.
        repeat split; try done. by intros -> ->.
      - apply get_csv_dataset_Ok_inv in Hrun
          as (a & n & b & Hdl & _ & Hsh & Hs & _ & _ & _ & _ & Hsmp).
        exists a, (is_None (sampler di)). rewrite Hdl. simpl.
        repeat split; try done. by intros ->. }
    exists a. split; [done|]. split; [done|].
    destruct (distributed args && is_train) eqn:Hdt.
    + apply andb_true_iff in Hdt as [Hd Ht].
      destruct Hsmp as (w & _ & Hsmp). rewrite Hsmp.
      split; [split; [done|by intros _; exists w]|].
      split; [split; [done|by intros []]|]. done.
    + rewrite Hsmp in *.
      assert (Hnot : ¬ (distributed args = true ∧ is_train = true)).
      { intros [Hd Ht]. by rewrite Hd, Ht in Hdt. }
      split; [split; [by intros [? ?]|done]|].
      split; [done|]. intros _ Ht. rewrite Hsh. by apply Hshuf.
  - intros (shards & total & k & n & b & bs & st1 & a & _ & _ & _ & Hs & _ & _
            & Hl & Hsh & Hsmp & _ & Hds & _)%get_wds_dataset_Ok_inv.
    split; [done|]. rewrite Hl.
    assert (loader_args (if is_train && distributed args
                         then Slice b (Repeat 2 (WebLoader a)) else WebLoader a)
            = a) as -> by (by destruct (is_train && distributed args)).
    split; [done|]. split; [done|]. intros Hdbg. rewrite (Hds Hdbg). eauto.
Qed.

(** In the sample world [get_wds_dataset] for training returns no sampler and
    a loader built with [shuffle=False]. *)
Lemma get_wds_dataset_no_shuffle :
  ∃ di st',
    get_wds_dataset Sample.env Sample.args Sample.pre true None Sample.st0
      = (Ok di, st')
    ∧ sampler di = None
    ∧ dl_shuffle (loader_args (loader (dataloader di))) = false.
Proof. eexists _, _. split; [vm_compute; reflexivity|]. by split. Qed.

Lemma sampler_field_witness :
  ∃ di st',
    get_cellpainting_dataset Sample.env Sample.args Sample.pre true Sample.st0
      = (Ok di, st')
    ∧ ∃ a, loader (dataloader di) = TorchLoader a
      ∧ dl_sampler a = sampler di
      ∧ ((∃ w, sampler di
                 = Some (DistributedSampler (dl_dataset a) w (seed Sample.args)))
         ↔ distributed Sample.args = true ∧ true = true)
      ∧ (sampler di = None
         ↔ ¬ (distributed Sample.args = true ∧ true = true))
      ∧ (sampler di = None → true = true → dl_shuffle a = true).
Proof.
  eexists _, _. split; [vm_compute; reflexivity|].
  refine (proj1 (sampler_field Sample.env Sample.args Sample.pre true None
                   Sample.st0 _ _) _).
  left. vm_compute. reflexivity.
Defined.

(** ** [get_wds_dataset] in distributed training *)

Section Distributed.

(** The counts of lines 166-170: the batch count, and a sample count that is
    a multiple of [batch_size * world_size]. *)
Lemma wds_counts_distributed (args : Args) (num_samples num_shards : Z) :
  distributed args = true →
  world_size args ≠ 0 → batch_size args ≠ 0 → num_shards ≠ 0 →
  let max_shards_per_node := - (- num_shards / world_size args) in
  let num_batches :=
    (world_size args * (num_samples * max_shards_per_node / num_shards))
    / (batch_size args * world_size args) in
  wds_counts args true num_samples num_shards
    = Ok (num_batches * batch_size args * world_size args, num_batches,
          batch_size args)
  ∧ (batch_size args * world_size args
     | num_batches * batch_size args * world_size args).
Proof.
  intros Hd Hw Hb Hs. simpl. split.
  - unfold wds_counts. rewrite Hd. simpl. unfold ceil_truediv, floordiv. run_M.
    assert ((world_size args =? 0) = false) as -> by lia. simpl.
    assert ((num_shards =? 0) = false) as -> by lia. simpl.
    assert ((batch_size args * world_size args =? 0) = false) as -> by lia.
    reflexivity.
  - eexists. rewrite <- Z.mul_assoc. reflexivity.
Qed.

(** [loader.repeat(2).slice(n)] yields the first [n] batches of two epochs:
    never more than [n], and exactly [n] when two epochs hold that many. *)
Lemma stream_repeat_slice {A} (epoch : nat → list A) (n : Z) (a : LoaderArgs) :
  stream epoch (Slice n (Repeat 2 (WebLoader a)))
    = take (Z.to_nat n) (epoch O ++ epoch 1%nat)
  ∧ (0 ≤ n → len (stream epoch (Slice n (Repeat 2 (WebLoader a)))) ≤ n)
  ∧ (0 ≤ n → n ≤ len (epoch O) + len (epoch 1%nat) →
     len (stream epoch (Slice n (Repeat 2 (WebLoader a)))) = n).
Proof.
  assert (Heq : stream epoch (Slice n (Repeat 2 (WebLoader a)))
                = take (Z.to_nat n) (epoch O ++ epoch 1%nat)).
  { simpl. by rewrite app_nil_r. }
  rewrite Heq. split; [done|]. unfold len.
  rewrite length_take, length_app. split; intros; lia.
Qed.

End Distributed.

(** C8 at a failing input: two shards of 1000 and 10 samples, two nodes and
    batches of 10. [get_wds_dataset] reports 50 batches and 1000 samples, a
    multiple of [batch_size * world_size]; the node that reads the large shard
    has 100 batches per epoch and its loader yields 50, the node that reads the
    small shard has one batch per epoch and its loader yields 2. *)
Theorem wds_nodes_unequal_batches :
  ∃ di st',
    get_wds_dataset Sample.env Sample.args Sample.pre true None Sample.st0
      = (Ok di, st')
    ∧ num_batches (dataloader di) = Some 50
    ∧ num_samples (dataloader di) = Some 1000
    ∧ loader (dataloader di)
        = Slice 50 (Repeat 2 (WebLoader (loader_args (loader (dataloader di)))))
    ∧ len (stream (λ _, replicate 100 ()) (loader (dataloader di))) = 50
    ∧ len (stream (λ _, [()]) (loader (dataloader di))) = 2.
Proof. eexists _, _. split; [vm_compute; reflexivity|]. by repeat split. Qed.

(** ** [get_imagenet] for the "train" split *)

Section ImagenetTrain.
Context {E : Env} (HE : EnvOk E).

(** Up to the construction of the loader: the image folder is read, the
    balanced indices are drawn and wrapped in a [SubsetRandomSampler]. *)
Lemma imagenet_dataset_sampler_train_run (args : Args)
    (fns : Transform * Transform) (p : string) (targets : list Z) (st : State E) :
  imagenet_train args = Some p → p ≠ "" → debug_run args = false →
  ImageFolder E p = Ok targets →
  ∃ indices st1 st2,
    log (EvImageFolder p) st = (Ok (), st1)
    ∧ train_subset_indices E targets st1 = (Ok indices, st2)
    ∧ imagenet_dataset_sampler E args fns "train" st
      = (Ok (ImageFolderDataset p fns.1 targets,
             Some (SubsetRandomSampler indices)), st2).
Proof.
  intros Hp Hpne Hdbg Htargets.
  set (st1 := {| np_rng := np_rng st; environ := environ st;
                 events := events st ++ [EvImageFolder p] |}).
  destruct (train_subset_indices_balanced E HE targets st1)
    as (indices & st2 & Hrun & _).
  exists indices, st1, st2. split; [reflexivity|]. split; [exact Hrun|].
  unfold imagenet_dataset_sampler. destruct fns as [pre_train pre_val]. simpl.
  rewrite Hp, Hdbg. unfold assert_truthy, truthy.
  apply String.eqb_neq in Hpne. rewrite Hpne. simpl.
  repeat first
    [ rewrite bind_ret_l
    | rewrite bind_assoc
    | erewrite bind_Ok_step
        by first [ exact Hrun
                 | unfold lift; rewrite Htargets; reflexivity
                 | reflexivity ] ].
  reflexivity.
Qed.

Lemma get_imagenet_train_run (args : Args) (fns : Transform * Transform)
    (p : string) (targets : list Z) (st : State E) :
  imagenet_train args = Some p → p ≠ "" → debug_run args = false →
  ImageFolder E p = Ok targets →
  ∃ indices st1 st2,
    log (EvImageFolder p) st = (Ok (), st1)
    ∧ train_subset_indices E targets st1 = (Ok indices, st2)
    ∧ get_imagenet E args fns "train" st
      = (dataloader ← new_DataLoader E
           {| dl_dataset := ImageFolderDataset p fns.1 targets;
              dl_batch_size := Some (batch_size_eval args);
              dl_shuffle := true; dl_num_workers := workers args;
              dl_pin_memory := false;
              dl_sampler := Some (SubsetRandomSampler indices);
              dl_drop_last := false |};
         mret {| dataloader := dataloader;
                 sampler := Some (SubsetRandomSampler indices) |}) st2.
Proof.
  intros Hp Hpne Hdbg Htargets.
  destruct (imagenet_dataset_sampler_train_run args fns p targets st
              Hp Hpne Hdbg Htargets)
    as (indices & st1 & st2 & Hlog & Hrun & Hpre).
  exists indices, st1, st2. split; [exact Hlog|]. split; [exact Hrun|].
  unfold get_imagenet. by rewrite (bind_Ok_step _ _ _ _ _ Hpre).
Qed.

End ImagenetTrain.

(** C9: for the "train" split, [get_imagenet] builds a [SubsetRandomSampler]
    whose indices hold, for every class label [c] in 0..999, exactly
    [min(50, number of examples of class c)] indices of that class and no
    index of an example with any other label: at most 50 examples per class.
    The sampler is the one that lines 100-136 of the function hand, with the
    dataset, to the constructor of the loader. *)
Theorem get_imagenet_train_sampler (E : Env) (HE : EnvOk E) (args : Args)
    (fns : Transform * Transform) (p : string) (targets : list Z)
    (st : State E) :
  imagenet_train args = Some p → p ≠ "" → debug_run args = false →
  ImageFolder E p = Ok targets →
  ∃ indices st',
    imagenet_dataset_sampler E args fns "train" st
      = (Ok (ImageFolderDataset p fns.1 targets,
             Some (SubsetRandomSampler indices)), st')
    ∧ get_imagenet E args fns "train" st
      = (dataloader ← new_DataLoader E
           {| dl_dataset := ImageFolderDataset p fns.1 targets;
              dl_batch_size := Some (batch_size_eval args);
              dl_shuffle := true; dl_num_workers := workers args;
              dl_pin_memory := false;
              dl_sampler := Some (SubsetRandomSampler indices);
              dl_drop_last := false |};
         mret {| dataloader := dataloader;
                 sampler := Some (SubsetRandomSampler indices) |}) st'
    ∧ (∀ c, 0 ≤ c < 1000 →
         len (filter (λ i, targets !! Z.to_nat i = Some c) indices)
           = Z.min 50 (len (filter (λ t, t = c) targets)))
    ∧ (∀ i, i ∈ indices →
         ∃ c, 0 ≤ i ∧ targets !! Z.to_nat i = Some c ∧ 0 ≤ c < 1000)
    ∧ NoDup indices
    ∧ (∀ c, len (filter (λ i, targets !! Z.to_nat i = Some c) indices) ≤ 50).
Proof.
  intros Hp Hpne Hdbg Htargets.
  destruct (imagenet_dataset_sampler_train_run HE args fns p targets st
              Hp Hpne Hdbg Htargets)
    as (indices & st1 & st2 & _ & Hrun & Hpre).
  destruct (train_subset_indices_balanced E HE targets st1)
    as (indices' & st2' & Hrun' & Hbal).
  rewrite Hrun in Hrun'. injection Hrun' as <- <-.
  exists indices, st2. split; [exact Hpre|]. split; [|exact Hbal].
  unfold get_imagenet. by rewrite (bind_Ok_step _ _ _ _ _ Hpre).
Qed.

(** The loader of the "train" split is then built with both a sampler and
    [shuffle=True], which [DataLoader] refuses. *)
Lemma get_imagenet_train_raises (E : Env) (HE : EnvOk E) (args : Args)
    (fns : Transform * Transform) (p : string) (targets : list Z)
    (st : State E) :
  imagenet_train args = Some p → p ≠ "" → debug_run args = false →
  ImageFolder E p = Ok targets → 0 ≤ workers args →
  ∃ msg, (get_imagenet E args fns "train" st).1 = Raise (ValueError msg).
Proof.
  intros Hp Hpne Hdbg Htargets Hw.
  destruct (get_imagenet_train_run HE args fns p targets st Hp Hpne Hdbg Htargets)
    as (indices & st1 & st2 & _ & _ & ->).
  unfold mbind, M_bind, new_DataLoader. simpl.
  assert ((workers args <? 0) = false) as -> by lia. eauto.
Qed.

Lemma get_imagenet_train_sampler_witness :
  ∃ indices st',
    imagenet_dataset_sampler Sample.env Sample.args (Sample.pre, Sample.pre)
      "train" Sample.st0
      = (Ok (ImageFolderDataset "imagenet/train" Sample.pre [0; 1; 0; 2; 1; 0],
             Some (SubsetRandomSampler indices)), st')
    ∧ (∀ c, 0 ≤ c < 1000 →
       len (filter (λ i, [0; 1; 0; 2; 1; 0] !! Z.to_nat i = Some c) indices)
         = Z.min 50 (len (filter (λ t, t = c) [0; 1; 0; 2; 1; 0])))
    ∧ NoDup indices.
Proof.
  destruct (get_imagenet_train_sampler Sample.env sample_env_ok Sample.args
              (Sample.pre, Sample.pre) "imagenet/train" [0; 1; 0; 2; 1; 0]
              Sample.st0)
    as (indices & st' & Hrun & _ & Hcount & _ & Hnodup & _).
  - reflexivity.
  - discriminate.
  - reflexivity.
  - reflexivity.
  - exists indices, st'. split; [exact Hrun|]. by split.
Defined.

(** ** The theorems at work in the sample world *)

Lemma assertions_first_witness :
  get_cellpainting_dataset Sample.env
    {| train_data := None; val_data := None; train_index := Some "index.csv";
       val_index := None; data_mols := Some ""; image_path := Some "images";
       path_data := ""; imagenet_train := None; imagenet_val := None;
       imagenet_v2 := None; csv_img_key := ""; csv_caption_key := "";
       csv_separator := ","; debug_run := false; distributed := false;
       seed := 0; batch_size := 1; batch_size_eval := 1; workers := 0;
       world_size := 1 |}
    Sample.pre true Sample.st0
  = (Raise AssertionError, Sample.st0).
Proof.
  refine (proj1 (proj2 (proj2
    (assertions_first Sample.env _ Sample.pre true None Sample.st0))) _).
  left. reflexivity.
Defined.

Lemma get_data_subset_bounds_witness :
  ∃ indices st',
    get_data_subset Sample.env
      (CellPaintingDataset None "images" "mols.hdf5" Sample.pre 2500)
      default_n_samples Sample.st0
    = (Ok (Subset (CellPaintingDataset None "images" "mols.hdf5" Sample.pre 2500)
             indices), st')
    ∧ len indices = 1000
    ∧ NoDup indices
    ∧ (∀ i, i ∈ indices → 0 ≤ i < 2500).
Proof.
  destruct (get_data_subset_bounds Sample.env sample_env_ok
              (CellPaintingDataset None "images" "mols.hdf5" Sample.pre 2500)
              2500 Sample.st0)
    as (indices & st' & Hrun & _ & Hlen & Hnodup & Hrange & _).
  - reflexivity.
  - lia.
  - exists indices, st'. split; [exact Hrun|]. split; [exact Hlen|].
    split; [exact Hnodup|exact Hrange].
Defined.

Lemma get_dataset_size_spec_witness :
  ∃ st', get_dataset_size Sample.env "shards/{0..1}.tar" Sample.st0
         = (Ok (1010, 2), st').
Proof.
  exists {| np_rng := 0%N : rng Sample.env; environ := ∅;
            events := [EvReadSizes "shards/sizes.json"] |}.
  apply get_dataset_size_spec.
  exists ({[ "0.tar" := 1000; "1.tar" := 10 ]} : gmap string Z), [1000; 10].
  split; [reflexivity|]. split.
  - repeat constructor.
  - split; [reflexivity|]. split; [reflexivity|]. simpl.
    split; [reflexivity|]. split; reflexivity.
Defined.

Lemma parallel_lengths_witness :
  ∃ d st',
    CsvDataset_init Sample.env "train.csv" Sample.pre "file" "smiles" "imgs" ","
      Sample.st0 = (Ok d, st')
    ∧ len (images d) = len (captions d)
    ∧ CsvDataset_len d = 3.
Proof.
  eexists _, _. split; [vm_compute; reflexivity|].
  destruct (proj1 (parallel_lengths Sample.env sample_env_ok)
              "train.csv" Sample.pre "file" "smiles" "imgs" "," Sample.st0
              _ _ eq_refl)
    as (df & Hdf & Hi & Hc & Hlen).
  split; [etransitivity; [exact Hi|symmetry; exact Hc]|]. reflexivity.
Defined.

Lemma get_data_keys_witness :
  ∃ data st',
    get_data Sample.env Sample.args (Sample.pre, Sample.pre) Sample.st0
      = (Ok data, st')
    ∧ is_Some (data !! "train")
    ∧ ¬ is_Some (data !! "val")
    ∧ is_Some (data !! "imagenet-val")
    ∧ ¬ is_Some (data !! "imagenet-v2").
Proof.
  destruct (get_data Sample.env Sample.args (Sample.pre, Sample.pre) Sample.st0)
    as [[data|e] st'] eqn:Hrun; [|vm_compute in Hrun; discriminate].
  exists data, st'. split; [reflexivity|].
  destruct (get_data_keys Sample.env Sample.args (Sample.pre, Sample.pre)
              Sample.st0 st' data Hrun)
    as (Htrain & Hval & Hiv & Hv2 & _).
  split; [by apply Htrain|]. split; [by rewrite Hval|].
  split; [by apply Hiv|]. rewrite Hv2. simpl. tauto.
Defined.

(** * Further properties of the module *)

(** Runs the closed computation [t] and records its value as [H]. *)
Ltac evaluate_as H t :=
  let r := eval vm_compute in t in
  assert (H : t = r) by (vm_compute; reflexivity).

(** ** [get_imagenet]: the splits *)

Section ImagenetTotal.
Context {E : Env}.

Lemma for_each_returns {A S} (xs : list A) (body : A → S → M E S) s st :
  (∀ x s st, ∃ s' st', body x s st = (Ok s', st')) →
  ∃ s' st', for_each E xs body s st = (Ok s', st').
Proof.
  intros Hbody. revert s st. induction xs as [|x xs IH]; intros s st; simpl.
  - by exists s, st.
  - destruct (Hbody x s st) as (s1 & st1 & H1).
    destruct (IH s1 st1) as (s' & st' & H').
    exists s', st'. by rewrite (bind_Ok_step _ _ _ _ _ H1).
Qed.

Lemma bind_Raise_step {A B} (m : M E A) (k : A → M E B) st e st1 :
  m st = (Raise e, st1) → (m ≫= k) st = (Raise e, st1).
Proof. unfold mbind, M_bind. by intros ->. Qed.

(** Drawing the indices never fails, whatever the labels are. *)
Lemma train_subset_indices_returns targets (st : State E) :
  ∃ indices st', train_subset_indices E targets st = (Ok indices, st').
Proof.
  unfold train_subset_indices.
  edestruct (for_each_returns (arange 1000) (subsample_class E 50 targets))
    as (idxs & st' & Hrun).
  { intros c idxs s. unfold subsample_class, np_shuffle. run_M.
    destruct (np_random_shuffle E _ _). eauto. }
  eexists _, st'. rewrite (bind_Ok_step _ _ _ _ _ Hrun). reflexivity.
Qed.

End ImagenetTotal.

(** X1: for the "train" split [get_imagenet] never returns a [DataInfo]. It
    ends in [AssertionError] when [args.imagenet_train] is empty or [None], in
    [AttributeError] when [args.debug_run] is set (the subsampled dataset has
    no [targets]), and otherwise, once the image folder is read, in the
    [ValueError] of a [DataLoader] given both a sampler and [shuffle=True]. *)
Theorem get_imagenet_train_never_returns (E : Env) (args : Args)
    (fns : Transform * Transform) (st : State E) :
  is_ok (get_imagenet E args fns "train" st).1 = false
  ∧ (truthy (imagenet_train args) = false →
     get_imagenet E args fns "train" st = (Raise AssertionError, st))
  ∧ (∀ p targets, imagenet_train args = Some p → p ≠ "" →
       ImageFolder E p = Ok targets →
       if debug_run args
       then (get_imagenet E args fns "train" st).1 = Raise (AttributeError "targets")
       else 0 ≤ workers args →
            (get_imagenet E args fns "train" st).1
              = Raise (ValueError "sampler option is mutually exclusive with shuffle")).
Proof.
  split; [|split].
  - destruct (get_imagenet E args fns "train" st) as [[di|e] st'] eqn:Hrun;
      [exfalso|done].
    unfold get_imagenet in Hrun.
    apply bind_Ok_inv in Hrun as ([dataset0 smp0] & s0 & Hpre & H).
    apply bind_Ok_inv in H as (d & s5 & Hd & _).
    unfold imagenet_dataset_sampler in Hpre. destruct fns as [pre_train pre_val].
    apply bind_Ok_inv in Hpre as (u & s1 & _ & Hpre).
    apply bind_Ok_inv in Hpre as (dataset & s2 & _ & Hpre).
    apply bind_Ok_inv in Hpre as (dataset' & s3 & _ & Hpre).
    apply bind_Ok_inv in Hpre as (smp & s4 & Hsmp & [Heq _]%ret_Ok_inv).
    injection Heq as -> ->.
    simpl in Hsmp.
    apply bind_Ok_inv in Hsmp as (targets & s6 & _ & Hsmp).
    apply bind_Ok_inv in Hsmp as (idxs & s7 & _ & [-> _]%ret_Ok_inv).
    apply new_DataLoader_Ok_inv in Hd as (_ & _ & _ & [Hs|Hs] & _); done.
  - intros Hfalsy. unfold get_imagenet. apply bind_Raise_step.
    unfold imagenet_dataset_sampler. destruct fns as [pre_train pre_val].
    simpl. rewrite bind_ret_l. unfold assert_truthy.
    destruct (imagenet_train args) as [p|]; [|done]. by rewrite Hfalsy.
  - intros p targets Hp Hpne Htargets.
    destruct (debug_run args) eqn:Hdbg.
    + assert (Hpre : ∃ st1, imagenet_dataset_sampler E args fns "train" st
                            = (Raise (AttributeError "targets"), st1)).
      { unfold imagenet_dataset_sampler. destruct fns as [pre_train pre_val].
        simpl. rewrite Hp, Hdbg. unfold assert_truthy, truthy.
        apply String.eqb_neq in Hpne. rewrite Hpne. simpl.
        unfold get_data_subset. run_M. rewrite Htargets. simpl.
        destruct (np_random_shuffle E _ _). eauto. }
      destruct Hpre as [st1 Hpre]. unfold get_imagenet.
      by rewrite (bind_Raise_step _ _ _ _ _ Hpre).
    + intros Hw.
      set (st1 := {| np_rng := np_rng st; environ := environ st;
                     events := events st ++ [EvImageFolder p] |}).
      destruct (train_subset_indices_returns targets st1)
        as (indices & st2 & Hrun).
      assert (Hpre : imagenet_dataset_sampler E args fns "train" st
                     = (Ok (ImageFolderDataset p fns.1 targets,
                            Some (SubsetRandomSampler indices)), st2)).
      { unfold imagenet_dataset_sampler. destruct fns as [pre_train pre_val].
        simpl. rewrite Hp, Hdbg. unfold assert_truthy, truthy.
        apply String.eqb_neq in Hpne. rewrite Hpne. simpl.
        repeat first
          [ rewrite bind_ret_l
          | rewrite bind_assoc
          | erewrite bind_Ok_step
              by first [ exact Hrun
                       | unfold lift; rewrite Htargets; reflexivity
                       | reflexivity ] ].
        reflexivity. }
      unfold get_imagenet. rewrite (bind_Ok_step _ _ _ _ _ Hpre).
      unfold mbind, M_bind, new_DataLoader. simpl.
      by assert ((workers args <? 0) = false) as -> by lia.
Qed.

Lemma get_imagenet_train_never_returns_witness :
  (get_imagenet Sample.env Sample.args (Sample.pre, Sample.pre) "train" Sample.st0).1
    = Raise (ValueError "sampler option is mutually exclusive with shuffle").
Proof.
  refine (proj2 (proj2 (get_imagenet_train_never_returns Sample.env Sample.args
            (Sample.pre, Sample.pre) Sample.st0))
            "imagenet/train" [0; 1; 0; 2; 1; 0] eq_refl _ eq_refl _).
  - discriminate.
  - simpl. lia.
Defined.

(** ** [get_data]: an empty ImageNet path *)

(** X2: [get_data] guards the ImageNet validation set with
    [args.imagenet_val is not None], while [get_imagenet] asserts that the
    path is not empty: with [args.imagenet_val] the empty string [get_data]
    never returns a dictionary, and when no CellPainting index is requested
    it raises [AssertionError] before any read. *)
Theorem get_data_empty_imagenet_val (E : Env) (args : Args)
    (fns : Transform * Transform) (st : State E) :
  imagenet_val args = Some "" →
  is_ok (get_data E args fns st).1 = false
  ∧ (truthy (train_index args) = false → truthy (val_index args) = false →
     get_data E args fns st = (Raise AssertionError, st)).
Proof.
  intros Hval. split.
  - destruct (get_data E args fns st) as [[data|e] st'] eqn:Hrun; [exfalso|done].
    unfold get_data in Hrun. destruct fns as [pre_train pre_val].
    apply bind_Ok_inv in Hrun as (d1 & st1 & _ & Hrun).
    apply bind_Ok_inv in Hrun as (d2 & st2 & _ & Hrun).
    apply bind_Ok_inv in Hrun as (d3 & st3 & H3 & _).
    apply get_data_step in H3 as [(_ & d & Hd & _) | (Hc & _)];
      [|by rewrite Hval in Hc].
    unfold get_imagenet in Hd.
    apply bind_Ok_inv in Hd as (pair & s0 & Hd & _).
    unfold imagenet_dataset_sampler in Hd.
    apply bind_Ok_inv in Hd as (u & s1 & _ & Hd).
    apply bind_Ok_inv in Hd as (dataset & s2 & Hds & _).
    simpl in Hds. apply bind_Ok_inv in Hds as (p & s3 & Hp & _).
    apply assert_truthy_Ok_inv in Hp as (Hp & Hne & _). congruence.
  - intros Ht Hv. unfold get_data. destruct fns as [pre_train pre_val].
    rewrite Ht, Hv, Hval. simpl. rewrite !bind_ret_l.
    unfold get_imagenet, imagenet_dataset_sampler. simpl. rewrite Hval.
    reflexivity.
Qed.

Lemma get_data_empty_imagenet_val_witness :
  let args :=
    {| train_data := None; val_data := None; train_index := None;
       val_index := None; data_mols := None; image_path := None;
       path_data := ""; imagenet_train := None; imagenet_val := Some "";
       imagenet_v2 := None; csv_img_key := ""; csv_caption_key := "";
       csv_separator := ","; debug_run := false; distributed := false;
       seed := 0; batch_size := 1; batch_size_eval := 1; workers := 0;
       world_size := 1 |} in
  get_data Sample.env args (Sample.pre, Sample.pre) Sample.st0
  = (Raise AssertionError, Sample.st0).
Proof.
  intros args.
  exact (proj2 (get_data_empty_imagenet_val Sample.env args
                  (Sample.pre, Sample.pre) Sample.st0 eq_refl) eq_refl eq_refl).
Defined.

(** ** [get_data_subset]: any [n_samples] *)

(** X3: for a dataset of length [n], [get_data_subset(dataset, n_samples)]
    keeps [min(n_samples, n)] samples when [n_samples] is not negative and,
    through Python's slicing, [max(0, n + n_samples)] samples when it is
    negative; in both cases the indices are distinct and within [0, n), and
    only numpy's generator is advanced. *)
Theorem get_data_subset_any_n_samples (E : Env) (HE : EnvOk E) (dataset : Dataset)
    (n n_samples : Z) (st : State E) :
  dataset_len E dataset = Ok n → 0 ≤ n →
  ∃ indices st',
    get_data_subset E dataset n_samples st = (Ok (Subset dataset indices), st')
    ∧ len indices
        = (if n_samples <? 0 then Z.max 0 (n + n_samples) else Z.min n_samples n)
    ∧ NoDup indices
    ∧ (∀ i, i ∈ indices → 0 ≤ i < n)
    ∧ environ st' = environ st ∧ events st' = events st.
Proof.
  intros Hn Hpos.
  destruct (get_data_subset_run HE dataset n n_samples st Hn)
    as (idcs & st' & Hrun & Hperm & Henv & Hev).
  exists (slice_to idcs (Z.min n_samples n)), st'.
  split; [exact Hrun|]. split; [|split; [|split; [|by split]]].
  - assert (Hlen : length idcs = Z.to_nat n) by (by rewrite Hperm, length_arange).
    unfold slice_to, len. destruct (n_samples <? 0) eqn:Hneg.
    + assert ((Z.min n_samples n <? 0) = true) as -> by lia.
      rewrite length_take, Hlen. lia.
    + assert ((Z.min n_samples n <? 0) = false) as -> by lia.
      rewrite length_take, Hlen. lia.
  - eapply sublist_NoDup; [|apply slice_to_sublist].
    rewrite Hperm. apply NoDup_arange.
  - intros i Hi. apply elem_of_arange. rewrite <- Hperm.
    eapply elem_of_sublist; [exact Hi|apply slice_to_sublist].
Qed.

Lemma get_data_subset_any_n_samples_witness :
  ∃ indices st',
    get_data_subset Sample.env
      (ImageFolderDataset "imagenet/val" Sample.pre [0; 1; 0; 2; 1; 0]) (-2)
      Sample.st0
    = (Ok (Subset (ImageFolderDataset "imagenet/val" Sample.pre [0; 1; 0; 2; 1; 0])
             indices), st')
    ∧ len indices = 4.
Proof.
  destruct (get_data_subset_any_n_samples Sample.env sample_env_ok
              (ImageFolderDataset "imagenet/val" Sample.pre [0; 1; 0; 2; 1; 0])
              6 (-2) Sample.st0)
    as (indices & st' & Hrun & Hlen & _).
  - reflexivity.
  - lia.
  - exists indices, st'. split; [exact Hrun|exact Hlen].
Defined.

(** ** The counts that the torch loaders report *)

Section LoaderCounts.
Context {E : Env} (HE : EnvOk E).

(** The dataset after the [if args.debug_run:] step and its length. *)
Lemma debug_subset_len (b : bool) dataset size (st st' : State E) d :
  dataset_len E dataset = Ok size → 0 ≤ size →
  (if b then get_data_subset E dataset default_n_samples else mret dataset) st
    = (Ok d, st') →
  dataset_len E d = Ok (if b then Z.min 1000 size else size).
Proof.
  intros Hsize Hpos Hrun. destruct b.
  - destruct (get_data_subset_run HE dataset size default_n_samples st Hsize)
      as (idcs & st1 & Hrun' & Hperm & _).
    rewrite Hrun' in Hrun. injection Hrun as <- <-. simpl. f_equal.
    rewrite len_slice_to by (unfold default_n_samples; lia).
    unfold len. rewrite Hperm, length_arange. unfold default_n_samples. lia.
  - apply ret_Ok_inv in Hrun as [-> _]. done.
Qed.

End LoaderCounts.

(** X4: [num_samples] of the loaders of [get_cellpainting_dataset] and
    [get_csv_dataset] is the size of the dataset read (the length that
    [CellPainting] reports, the number of rows of the csv file), capped at
    1000 when [args.debug_run] is set. *)
Theorem num_samples_is_capped_size (E : Env) (HE : EnvOk E) (args : Args)
    (pre : Transform) (is_train : bool) (run_mode : option string)
    (st st' : State E) (di : DataInfo) :
  (get_cellpainting_dataset E args pre is_train st = (Ok di, st') →
   ∃ mols imgs size,
     data_mols args = Some mols ∧ image_path args = Some imgs
     ∧ CellPainting E (if is_train then train_index args else val_index args)
         imgs mols = Ok size
     ∧ (0 ≤ size →
        num_samples (dataloader di)
          = Some (if debug_run args then Z.min 1000 size else size)))
  ∧ (get_csv_dataset E args pre is_train run_mode st = (Ok di, st') →
     ∃ f df,
       (if is_train then train_data args else val_data args) = Some f
       ∧ pd_read_csv E f (csv_separator args) = Ok df
       ∧ num_samples (dataloader di)
           = Some (if debug_run args then Z.min 1000 (len (df_rows df))
                   else len (df_rows df))).
Proof.
  split.
  - unfold get_cellpainting_dataset.
    intros (mols & s1 & [Hm [_ ->]]%assert_truthy_Ok_inv & H)%bind_Ok_inv.
    apply bind_Ok_inv in H as (imgs & s2 & [Hi [_ ->]]%assert_truthy_Ok_inv & H).
    apply bind_Ok_inv in H as (u & s3 & _ & H).
    apply bind_Ok_inv in H as (size & s4 & [Hsize ->]%lift_Ok_inv & H).
    apply bind_Ok_inv in H as (dataset & s5 & Hds & H).
    exists mols, imgs, size. split; [done|]. split; [done|]. split; [done|].
    intros Hpos.
    apply (debug_subset_len HE _ _ size) in Hds; [|done|done].
    apply (counted_loader_Ok_inv args is_train dataset
             (λ sampler, is_train && is_None sampler)) in H
      as (a & n & b & -> & _ & Hn & _).
    simpl. congruence.
  - unfold get_csv_dataset.
    intros (f & s1 & [Hf [_ ->]]%assert_truthy_Ok_inv & H)%bind_Ok_inv.
    apply bind_Ok_inv in H as (d & s2 & Hinit & H).
    apply bind_Ok_inv in H as (dataset & s3 & Hds & H).
    destruct (CsvDataset_init_lengths _ _ _ _ _ _ _ _ _ Hinit)
      as (df & Hdf & _ & Hcap & _).
    exists f, df. split; [done|]. split; [done|].
    apply (debug_subset_len HE _ _ (len (df_rows df))) in Hds;
      [|simpl; unfold len; by rewrite Hcap|apply len_nonneg].
    apply (counted_loader_Ok_inv args is_train dataset is_None) in H
      as (a & n & b & -> & _ & Hn & _).
    simpl. congruence.
Qed.

Lemma num_samples_is_capped_size_witness :
  let args :=
    {| train_data := None; val_data := None; train_index := Some "index.csv";
       val_index := None; data_mols := Some "mols.hdf5";
       image_path := Some "images"; path_data := ""; imagenet_train := None;
       imagenet_val := None; imagenet_v2 := None; csv_img_key := "";
       csv_caption_key := ""; csv_separator := ","; debug_run := true;
       distributed := false; seed := 0; batch_size := 16; batch_size_eval := 16;
       workers := 0; world_size := 1 |} in
  ∃ di st',
    get_cellpainting_dataset Sample.env args Sample.pre true Sample.st0
      = (Ok di, st')
    ∧ num_samples (dataloader di) = Some 1000.
Proof.
  intros args.
  evaluate_as Hrun
    (get_cellpainting_dataset Sample.env args Sample.pre true Sample.st0).
  match type of Hrun with _ = (Ok ?di, ?st') =>
    exists di, st'; split; [exact Hrun|];
    destruct (proj1 (num_samples_is_capped_size Sample.env sample_env_ok args
                Sample.pre true None Sample.st0 st' di) Hrun)
      as (mols & imgs & size & _ & _ & Hsize & Hnum)
  end.
  injection Hsize as <-. apply Hnum. lia.
Defined.

(** X5: [num_batches] of the loaders of [get_cellpainting_dataset] and
    [get_csv_dataset], in terms of the reported [num_samples = n]: an
    evaluation loader keeps the last partial batch, [ceil(n / batch_size_eval)]
    batches that cover every sample; a training loader drops it,
    [n // batch_size] batches that leave out fewer than [batch_size] samples;
    a distributed training loader counts the batches of one replica,
    [ceil(n / world_size) // batch_size], so that over all replicas an epoch
    covers all but fewer than [batch_size * world_size] samples and repeats
    fewer than [world_size]. *)
Theorem num_batches_formula (E : Env) (args : Args) (pre : Transform)
    (is_train : bool) (run_mode : option string) (st st' : State E)
    (di : DataInfo) :
  get_cellpainting_dataset E args pre is_train st = (Ok di, st')
  ∨ get_csv_dataset E args pre is_train run_mode st = (Ok di, st') →
  ∃ n b,
    num_samples (dataloader di) = Some n
    ∧ num_batches (dataloader di) = Some b
    ∧ (is_train = false →
       b = (n + batch_size_eval args - 1) / batch_size_eval args
       ∧ n ≤ b * batch_size_eval args < n + batch_size_eval args)
    ∧ (is_train = true → distributed args = false →
       b = n / batch_size args
       ∧ b * batch_size args ≤ n < b * batch_size args + batch_size args)
    ∧ (is_train = true → distributed args = true →
       ∃ w, dist_get_world_size E = Ok w
         ∧ b = (- (- n / w)) / batch_size args
         ∧ (0 < w →
            n - batch_size args * w < b * batch_size args * w < n + w)).
Proof.
  intros Hrun.
  assert (∃ a n b,
    dataloader di
      = {| loader := TorchLoader a; num_samples := Some n; num_batches := Some b |}
    ∧ dl_batch_size a
        = Some (if is_train then batch_size args else batch_size_eval args)
    ∧ dl_sampler a = sampler di ∧ dl_drop_last a = is_train
    ∧ dataset_len E (dl_dataset a) = Ok n
    ∧ loader_len E (TorchLoader a) = Ok b
    ∧ 0 < (if is_train then batch_size args else batch_size_eval args)
    ∧ (if distributed args && is_train
       then ∃ w, dist_get_world_size E = Ok w
              ∧ sampler di = Some (DistributedSampler (dl_dataset a) w (seed args))
       else sampler di = None))
    as (a & n & b & Hdl & Hbs & Hsmp & Hdrop & Hn & Hb & Hpos & Hs).
  { destruct Hrun as [Hrun|Hrun].
    - apply get_cellpainting_dataset_Ok_inv in Hrun
        as (a & n & b & ? & ? & _ & ? & ? & ? & ? & ? & ?). by exists a, n, b.
    - apply get_csv_dataset_Ok_inv in Hrun
        as (a & n & b & ? & ? & _ & ? & ? & ? & ? & ? & ?). by exists a, n, b. }
  exists n, b. rewrite Hdl. simpl. split; [done|]. split; [done|].
  unfold loader_len, index_count in Hb. run_M. rewrite Hsmp, Hbs, Hdrop in Hb.
  split; [|split].
  - intros ->. rewrite andb_false_r in Hs. rewrite Hs, Hn in Hb. simpl in Hb.
    injection Hb as <-. unfold batch_sampler_len. split; [done|].
    pose proof (Z.div_mod (n + batch_size_eval args - 1) (batch_size_eval args)
                  ltac:(lia)) as Hdm.
    pose proof (Z.mod_pos_bound (n + batch_size_eval args - 1)
                  (batch_size_eval args) Hpos). lia.
  - intros -> Hd. rewrite Hd in Hs. simpl in Hs. rewrite Hs, Hn in Hb.
    simpl in Hb. injection Hb as <-. unfold batch_sampler_len. split; [done|].
    pose proof (Z.div_mod n (batch_size args) ltac:(lia)) as Hdm.
    pose proof (Z.mod_pos_bound n (batch_size args) Hpos). lia.
  - intros -> Hd. rewrite Hd in Hs. simpl in Hs.
    destruct Hs as (w & Hw & Hs). exists w. split; [done|].
    rewrite Hs in Hb. simpl in Hb. run_M. rewrite Hn in Hb. simpl in Hb.
    unfold ceil_truediv in Hb. destruct (w =? 0); [done|]. simpl in Hb.
    injection Hb as <-. unfold batch_sampler_len. split; [done|].
    intros Hwpos.
    pose proof (Z.div_mod (- n) w ltac:(lia)) as H1.
    pose proof (Z.mod_pos_bound (- n) w Hwpos) as H2.
    set (c := - (- n / w)) in *.
    pose proof (Z.div_mod c (batch_size args) ltac:(lia)) as H3.
    pose proof (Z.mod_pos_bound c (batch_size args) Hpos) as H4.
    set (q := c / batch_size args) in *.
    assert (Hc : n ≤ c * w < n + w) by (unfold c; nia).
    nia.
Qed.

Lemma num_batches_formula_witness :
  ∃ di st',
    get_cellpainting_dataset Sample.env Sample.args Sample.pre true Sample.st0
      = (Ok di, st')
    ∧ num_samples (dataloader di) = Some 2500
    ∧ num_batches (dataloader di) = Some 125.
Proof.
  evaluate_as Hrun
    (get_cellpainting_dataset Sample.env Sample.args Sample.pre true Sample.st0).
  match type of Hrun with _ = (Ok ?di, ?st') =>
    exists di, st'; split; [exact Hrun|];
    destruct (num_batches_formula Sample.env Sample.args Sample.pre true None
                Sample.st0 st' di (or_introl Hrun))
      as (n & b & Hn & Hb & _ & _ & Hdist)
  end.
  destruct (Hdist eq_refl eq_refl) as (w & Hw & -> & _).
  injection Hw as <-. simpl in Hn. injection Hn as <-.
  split; [reflexivity|exact Hb].
Defined.

(** ** Counting the batches of a loader *)

Section CountBatches.

(** The samples in the batches of [BatchSampler]: all of them, or the full
    batches only when the last partial batch is dropped. *)
Lemma batch_iter_total_acc {A} (batch_size : Z) (drop_last : bool)
    (batch sampler : list A) :
  len batch < batch_size →
  sum (map len (batch_iter batch_size drop_last batch sampler))
    = if drop_last
      then (len batch + len sampler) / batch_size * batch_size
      else len batch + len sampler.
Proof.
  revert batch. induction sampler as [|idx rest IH]; intros batch Hb; simpl.
  - pose proof (len_nonneg batch) as Hge. change (len (@nil A)) with 0.
    rewrite Z.add_0_r. destruct drop_last; simpl.
    + rewrite andb_false_r. simpl. rewrite sum_nil, Z.div_small by lia. lia.
    + rewrite andb_true_r. destruct (0 <? len batch) eqn:Hpos; simpl.
      * rewrite sum_cons, sum_nil. lia.
      * rewrite sum_nil. lia.
  - pose proof (len_nonneg batch) as Hge.
    assert (Hb' : len (batch ++ [idx]) = len batch + 1).
    { unfold len. rewrite length_app. simpl. lia. }
    assert (Hr : len (idx :: rest) = len rest + 1).
    { unfold len. simpl. lia. }
    rewrite Hr. destruct (len (batch ++ [idx]) =? batch_size) eqn:Hfull.
    + apply Z.eqb_eq in Hfull. simpl. rewrite sum_cons.
      rewrite IH by (change (len (@nil A)) with 0; lia).
      change (len (@nil A)) with 0. rewrite !Z.add_0_l.
      destruct drop_last; [|lia].
      replace (len batch + (len rest + 1)) with (1 * batch_size + len rest) by lia.
      rewrite Z.div_add_l by lia. lia.
    + apply Z.eqb_neq in Hfull. rewrite IH by lia. rewrite Hb'.
      destruct drop_last; [do 2 f_equal|]; lia.
Qed.

Lemma map_len_collate {A B} (batches : list (list (A * B))) :
  map (λ batch : list A * list B, len batch.1) (map collate batches)
    = map len batches.
Proof.
  rewrite map_map. apply map_ext. intros items. apply (collate_lengths items).
Qed.

End CountBatches.

(** X6: counting, with [count_samples], the batches of one pass of a loader
    that [get_cellpainting_dataset] or [get_csv_dataset] built without a
    sampler gives back the loader's own attributes: [(num_samples,
    num_batches)] for an evaluation loader, and for a training loader, which
    drops the last partial batch, [(num_batches * batch_size, num_batches)];
    the assertion of [count_samples] never fires on such batches. *)
Theorem count_samples_matches_attributes (E : Env) (args : Args)
    (pre : Transform) (is_train : bool) (run_mode : option string)
    (st st' : State E) (di : DataInfo) (items : list (Tensor * Tokens))
    (st1 : State E) :
  get_cellpainting_dataset E args pre is_train st = (Ok di, st')
  ∨ get_csv_dataset E args pre is_train run_mode st = (Ok di, st') →
  sampler di = None →
  num_samples (dataloader di) = Some (len items) →
  let batch_size := if is_train then batch_size args else batch_size_eval args in
  let batches := map collate (batch_iter batch_size is_train [] items) in
  ∃ b, num_batches (dataloader di) = Some b
    ∧ (count_samples E batches st1).1
        = Ok (if is_train then b * batch_size else len items, b).
Proof.
  intros Hrun Hsmp Hnum bs batches.
  assert (∃ a n b,
    dataloader di
      = {| loader := TorchLoader a; num_samples := Some n; num_batches := Some b |}
    ∧ dl_batch_size a = Some bs
    ∧ dl_sampler a = sampler di ∧ dl_drop_last a = is_train
    ∧ dataset_len E (dl_dataset a) = Ok n
    ∧ loader_len E (TorchLoader a) = Ok b ∧ 0 < bs)
    as (a & n & b & Hdl & Hbs & Hs & Hdrop & Hn & Hb & Hpos).
  { destruct Hrun as [Hrun|Hrun].
    - apply get_cellpainting_dataset_Ok_inv in Hrun
        as (a & n & b & ? & ? & _ & ? & ? & ? & ? & ? & _). by exists a, n, b.
    - apply get_csv_dataset_Ok_inv in Hrun
        as (a & n & b & ? & ? & _ & ? & ? & ? & ? & ? & _). by exists a, n, b. }
  rewrite Hdl in Hnum |- *. simpl in *. injection Hnum as ->.
  exists b. split; [done|].
  unfold loader_len, index_count in Hb. run_M.
  rewrite Hs, Hsmp, Hn, Hbs, Hdrop in Hb. simpl in Hb. injection Hb as <-.
  unfold count_samples. run_M. simpl. apply count_loop_spec.
  split; [|split].
  - apply Forall_forall. intros batch Hin.
    apply list_elem_of_In, in_map_iff in Hin as (its & <- & _).
    destruct (collate_lengths its). congruence.
  - unfold batches. rewrite map_len_collate, batch_iter_total_acc by done.
    change (len (@nil (Tensor * Tokens))) with 0. rewrite !Z.add_0_l.
    unfold batch_sampler_len. destruct is_train; lia.
  - unfold batches. rewrite Z.add_0_l.
    transitivity (len (batch_iter bs is_train [] items)).
    + by rewrite batch_iter_length.
    + unfold len. by rewrite length_map.
Qed.

Lemma count_samples_matches_attributes_witness :
  (count_samples Sample.env
     (map collate
        (batch_iter 4 false [] [([1], [2]); ([3], [4]); ([5], [6])]
           : list (list (Tensor * Tokens))))
     Sample.st0).1
  = Ok (3, 1).
Proof.
  evaluate_as Hrun
    (get_csv_dataset Sample.env Sample.args Sample.pre false None Sample.st0).
  match type of Hrun with _ = (Ok ?di, ?st') =>
    destruct (count_samples_matches_attributes Sample.env Sample.args Sample.pre
                false None Sample.st0 st' di
                [([1], [2]); ([3], [4]); ([5], [6])]
                Sample.st0 (or_intror Hrun) eq_refl eq_refl)
      as (b & Hb & Hcount)
  end.
  simpl in Hb. injection Hb as <-. exact Hcount.
Defined.

(** ** [get_wds_dataset]: the counts outside distributed training *)

Section WdsRuns.
Context {E : Env}.

Lemma torch_manual_seed_returns s (st : State E) :
  - 2 ^ 63 ≤ s < 2 ^ 64 → torch_manual_seed E s st = (Ok (), st).
Proof.
  intros Hs. unfold torch_manual_seed.
  by assert ((- 2 ^ 63 <=? s) && (s <? 2 ^ 64) = true) as -> by lia.
Qed.

Lemma np_seed_returns s (st : State E) :
  0 ≤ s < 2 ^ 32 →
  np_seed E s st
    = (Ok (), {| np_rng := np_random_seed E s; environ := environ st;
                 events := events st |}).
Proof.
  intros Hs. unfold np_seed.
  by assert ((0 <=? s) && (s <? 2 ^ 32) = true) as -> by lia.
Qed.

Lemma get_dataset_size_returns shards sizes ns (st : State E) :
  open_eval E (join (dirname shards) "sizes.json") = Ok sizes →
  Forall2 (λ shard n, sizes !! basename shard = Some n) (braceexpand E shards) ns →
  get_dataset_size E shards st
    = (Ok (sum ns, len (braceexpand E shards)),
       {| np_rng := np_rng st; environ := environ st;
          events := events st ++ [EvReadSizes (join (dirname shards) "sizes.json")] |}).
Proof.
  intros Hopen Hns. apply get_dataset_size_spec. exists sizes, ns. by repeat split.
Qed.

End WdsRuns.

(** X7: outside distributed training, with the manifest readable and
    complete, a batch size that is not zero, a seed that [np.random.seed]
    accepts (32 bits) and a number of workers that is not negative,
    [get_wds_dataset] returns a loader that is not sliced, reports as
    [num_samples] the sum of the shard sizes of the manifest and as
    [num_batches] that sum floor-divided by the batch size ([batch_size] for
    training, [batch_size_eval] otherwise), builds the pipeline with that
    batch size and with partial batches kept, and leaves numpy's generator
    seeded with [args.seed]. The two conditions on the seed and on the
    workers are needed: without either, the call raises. *)
Theorem get_wds_dataset_plain_counts (E : Env) (args : Args) (pre : Transform)
    (is_train : bool) (run_mode : option string) (st : State E)
    (shards : string) (sizes : gmap string Z) (ns : list Z) :
  let bs := if is_train then batch_size args else batch_size_eval args in
  is_train && distributed args = false →
  debug_run args = false →
  (if is_train then train_data args else val_data args) = Some shards →
  open_eval E (join (dirname shards) "sizes.json") = Ok sizes →
  Forall2 (λ shard n, sizes !! basename shard = Some n) (braceexpand E shards) ns →
  bs ≠ 0 →
  (0 ≤ seed args < 2 ^ 32 ∧ 0 ≤ workers args →
   ∃ a st',
     get_wds_dataset E args pre is_train run_mode st
       = (Ok {| dataloader :=
                  {| loader := WebLoader a; num_samples := Some (sum ns);
                     num_batches := Some (sum ns / bs) |};
                sampler := None |}, st')
     ∧ dl_dataset a = WebDataset
         {| wds_shards := shards; wds_epoch_shuffle := is_train;
            wds_split_by_node := is_train; wds_preprocess_img := pre;
            wds_batch_size := bs; wds_partial := true |}
     ∧ dl_num_workers a = workers args
     ∧ np_rng st' = np_random_seed E (seed args)
     ∧ events st'
         = events st ++ [EvReadSizes (join (dirname shards) "sizes.json");
                         EvShardList shards])
  ∧ (seed args < 0 ∨ 2 ^ 32 ≤ seed args ∨ workers args < 0 →
     is_ok (get_wds_dataset E args pre is_train run_mode st).1 = false).
Proof.
  intros bs Hplain Hdbg Hsel Hopen Hns Hbs. split.
  - intros [Hseed Hw].
    unfold get_wds_dataset. rewrite Hsel, Hdbg, Hplain. unfold assert_not_None.
    rewrite bind_ret_l.
    rewrite (bind_Ok_step _ _ _ _ _
               (get_dataset_size_returns shards sizes ns st Hopen Hns)).
    assert (Hcounts : wds_counts args is_train (sum ns) (len (braceexpand E shards))
                      = Ok (sum ns, sum ns / bs, bs)).
    { unfold wds_counts, floordiv. rewrite Hplain. run_M.
      destruct is_train; simpl in *.
      - rewrite Hplain. simpl.
        by assert ((batch_size args =? 0) = false) as -> by lia.
      - by assert ((batch_size_eval args =? 0) = false) as -> by lia. }
    erewrite bind_Ok_step by (unfold lift; rewrite Hcounts; reflexivity).
    cbv beta iota.
    erewrite bind_Ok_step by (apply torch_manual_seed_returns; lia).
    erewrite bind_Ok_step by (by apply np_seed_returns).
    erewrite bind_Ok_step by reflexivity.
    rewrite bind_ret_l.
    erewrite bind_Ok_step by (by apply new_WebLoader_returns).
    eexists _, _. split; [reflexivity|]. simpl.
    assert (negb is_train || negb (distributed args) = true) as ->.
    { destruct is_train, (distributed args); done. }
    split; [done|]. split; [done|]. split; [done|]. by rewrite <- app_assoc.
  - intros Hbad.
    destruct (get_wds_dataset E args pre is_train run_mode st)
      as [[di|e] st'] eqn:Hrun; [exfalso|done].
    apply get_wds_dataset_Ok_inv in Hrun
      as (? & ? & ? & ? & ? & ? & ? & ? & Hrun).
    destruct Hrun as (_ & _ & _ & _ & _ & _ & _ & _ & _ & _ & _ & Hseed & Hw).
    lia.
Qed.

Lemma get_wds_dataset_plain_counts_witness :
  let args :=
    {| train_data := Some "shards/{0..1}.tar"; val_data := None;
       train_index := None; val_index := None; data_mols := None;
       image_path := None; path_data := ""; imagenet_train := None;
       imagenet_val := None; imagenet_v2 := None; csv_img_key := "";
       csv_caption_key := ""; csv_separator := ","; debug_run := false;
       distributed := false; seed := 7; batch_size := 100; batch_size_eval := 1;
       workers := 0; world_size := 1 |} in
  ∃ di st',
    get_wds_dataset Sample.env args Sample.pre true None Sample.st0 = (Ok di, st')
    ∧ num_samples (dataloader di) = Some 1010
    ∧ num_batches (dataloader di) = Some 10.
Proof.
  intros args.
  destruct (get_wds_dataset_plain_counts Sample.env args Sample.pre true None
              Sample.st0 "shards/{0..1}.tar"
              ({[ "0.tar" := 1000; "1.tar" := 10 ]} : gmap string Z) [1000; 10])
    as [Hreturns _].
  - reflexivity.
  - reflexivity.
  - reflexivity.
  - reflexivity.
  - repeat constructor.
  - simpl. lia.
  - destruct Hreturns as (a & st' & Hrun & _); [simpl; lia|].
    eexists _, st'. split; [exact Hrun|]. by split.
Defined.

(** X8: in distributed training, whenever [get_wds_dataset] returns, the
    reported [num_samples] is [num_batches * batch_size * world_size]; and
    when the number of shards is a multiple of [world_size] it does not
    exceed the total of the manifest and falls short of it by fewer than
    [(batch_size + 1) * world_size] samples. *)
Theorem get_wds_dataset_distributed_bound (E : Env) (args : Args)
    (pre : Transform) (run_mode : option string) (st st' : State E)
    (di : DataInfo) :
  distributed args = true →
  get_wds_dataset E args pre true run_mode st = (Ok di, st') →
  ∃ shards total_size num_shards st1 n b,
    train_data args = Some shards
    ∧ get_dataset_size E shards st = (Ok (total_size, num_shards), st1)
    ∧ num_samples (dataloader di) = Some n
    ∧ num_batches (dataloader di) = Some b
    ∧ n = b * batch_size args * world_size args
    ∧ (0 < world_size args → 0 < batch_size args → 0 ≤ total_size →
       (world_size args | num_shards) →
       n ≤ total_size
       ∧ total_size - n < (batch_size args + 1) * world_size args).
Proof.
  intros Hd (shards & total & k & n & b & bs & st1 & a & Hsel & Hsize & Hcounts
             & _ & Hn & Hb & _)%get_wds_dataset_Ok_inv.
  exists shards, total, k, st1, n, b.
  split; [done|]. split; [done|]. split; [done|]. split; [done|].
  unfold wds_counts, ceil_truediv, floordiv in Hcounts. rewrite Hd in Hcounts.
  simpl in Hcounts. run_M.
  destruct (world_size args =? 0) eqn:Hw0; [done|]. simpl in Hcounts.
  destruct (k =? 0) eqn:Hk0; [done|]. simpl in Hcounts.
  destruct (batch_size args * world_size args =? 0) eqn:Hbw0; [done|].
  simpl in Hcounts. injection Hcounts as <- <- _.
  split; [done|]. intros Hw Hbs Htot [m Hm].
  set (w := world_size args) in *. set (s := batch_size args) in *.
  assert (Hmpos : m ≠ 0) by (intros ->; lia).
  assert (Hceil : - (- k / w) = m).
  { rewrite Hm. replace (- (m * w)) with ((- m) * w) by lia.
    rewrite Z.div_mul by lia. lia. }
  rewrite Hceil.
  assert (Hq : total * m / k = total / w).
  { rewrite Hm. rewrite (Z.mul_comm m w). rewrite Z.div_mul_cancel_r by lia. done. }
  rewrite Hq.
  pose proof (Z.div_mod total w ltac:(lia)) as H1.
  pose proof (Z.mod_pos_bound total w Hw) as H2.
  pose proof (Z.div_mod (w * (total / w)) (s * w) ltac:(lia)) as H3.
  pose proof (Z.mod_pos_bound (w * (total / w)) (s * w) ltac:(lia)) as H4.
  set (q := w * (total / w) / (s * w)) in *.
  split; nia.
Qed.

Lemma get_wds_dataset_distributed_bound_witness :
  ∃ di st' n,
    get_wds_dataset Sample.env Sample.args Sample.pre true None Sample.st0
      = (Ok di, st')
    ∧ num_samples (dataloader di) = Some n
    ∧ n ≤ 1010 ∧ 1010 - n < 22.
Proof.
  evaluate_as Hrun
    (get_wds_dataset Sample.env Sample.args Sample.pre true None Sample.st0).
  match type of Hrun with _ = (Ok ?di, ?st') =>
    destruct (get_wds_dataset_distributed_bound Sample.env Sample.args Sample.pre
                None Sample.st0 st' di eq_refl Hrun)
      as (shards & total & k & st1 & n & b & Hsel & Hsize & Hn & Hb & _ & Hbound);
    exists di, st', n
  end.
  injection Hsel as <-.
  pose proof (f_equal (λ r : result (Z * Z) * State Sample.env,
                         match r.1 with Ok p => p | Raise _ => (0, 0) end) Hsize)
    as Hpair.
  vm_compute in Hpair. injection Hpair as <- <-.
  split; [exact Hrun|]. split; [exact Hn|].
  apply Hbound; [simpl; lia..|]. exists 1. reflexivity.
Defined.

(** X9: [get_wds_dataset] divides by the batch size and by [world_size]
    after it has read the manifest and before it reseeds the generators or
    builds the pipeline: with the manifest readable and complete, a zero batch
    size (or, in distributed training, a zero [world_size]) ends the call in
    [ZeroDivisionError], with numpy's generator as it was. *)
Theorem get_wds_dataset_zero_division (E : Env) (args : Args) (pre : Transform)
    (is_train : bool) (run_mode : option string) (st : State E)
    (shards : string) (sizes : gmap string Z) (ns : list Z) :
  (if is_train then train_data args else val_data args) = Some shards →
  open_eval E (join (dirname shards) "sizes.json") = Ok sizes →
  Forall2 (λ shard n, sizes !! basename shard = Some n) (braceexpand E shards) ns →
  (if is_train && distributed args
   then world_size args = 0 ∨ batch_size args = 0
   else (if is_train then batch_size args else batch_size_eval args) = 0) →
  get_wds_dataset E args pre is_train run_mode st
    = (Raise ZeroDivisionError,
       {| np_rng := np_rng st; environ := environ st;
          events := events st ++ [EvReadSizes (join (dirname shards) "sizes.json")] |}).
Proof.
  intros Hsel Hopen Hns Hzero.
  unfold get_wds_dataset. rewrite Hsel. unfold assert_not_None.
  rewrite bind_ret_l.
  rewrite (bind_Ok_step _ _ _ _ _ (get_dataset_size_returns shards sizes ns st Hopen Hns)).
  assert (Hcounts : wds_counts args is_train (sum ns) (len (braceexpand E shards))
                    = Raise ZeroDivisionError).
  { unfold wds_counts, ceil_truediv, floordiv. run_M.
    destruct (is_train && distributed args) eqn:Hdist.
    - destruct (world_size args =? 0) eqn:Hw; [done|]. simpl.
      destruct (len (braceexpand E shards) =? 0); [done|]. simpl.
      assert ((batch_size args * world_size args =? 0) = true) as -> by lia.
      done.
    - destruct is_train; simpl in *.
      + rewrite Hdist. simpl. by rewrite Hzero.
      + by rewrite Hzero. }
  unfold mbind at 1, M_bind at 1, lift. by rewrite Hcounts.
Qed.

Lemma get_wds_dataset_zero_division_witness :
  let args :=
    {| train_data := None; val_data := Some "shards/{0..1}.tar";
       train_index := None; val_index := None; data_mols := None;
       image_path := None; path_data := ""; imagenet_train := None;
       imagenet_val := None; imagenet_v2 := None; csv_img_key := "";
       csv_caption_key := ""; csv_separator := ","; debug_run := false;
       distributed := true; seed := 7; batch_size := 100; batch_size_eval := 0;
       workers := 0; world_size := 2 |} in
  (get_wds_dataset Sample.env args Sample.pre false None Sample.st0).1
    = Raise ZeroDivisionError.
Proof.
  intros args.
  rewrite (get_wds_dataset_zero_division Sample.env args Sample.pre false None
             Sample.st0 "shards/{0..1}.tar"
             ({[ "0.tar" := 1000; "1.tar" := 10 ]} : gmap string Z) [1000; 10]
             eq_refl eq_refl ltac:(repeat constructor) eq_refl).
  reflexivity.
Defined.

(** X10: [get_wds_dataset] reseeds numpy's generator with [args.seed] before
    anything is drawn from it, so what it returns or raises does not depend on
    the state of the generator (nor on the trace) when it is called. *)
Theorem get_wds_dataset_ignores_generator_state (E : Env) (args : Args)
    (pre : Transform) (is_train : bool) (run_mode : option string)
    (st1 st2 : State E) :
  (get_wds_dataset E args pre is_train run_mode st1).1
    = (get_wds_dataset E args pre is_train run_mode st2).1.
Proof.
  unfold get_wds_dataset, assert_not_None.
  destruct (if is_train then train_data args else val_data args) as [shards|];
    [|done].
  unfold get_dataset_size, get_data_subset, new_WebLoader, new_DataLoader,
    torch_manual_seed.
  run_M. simpl.
  destruct (open_eval E (join (dirname shards) "sizes.json")) as [sizes|];
    [|done].
  destruct (shard_sizes sizes (braceexpand E shards)) as [ns|]; [|done].
  destruct (wds_counts args is_train (sum ns) (len (braceexpand E shards)))
    as [[[n b] bs]|]; [|done].
  destruct ((- 2 ^ 63 <=? seed args) && (seed args <? 2 ^ 64)); [|done].
  destruct ((0 <=? seed args) && (seed args <? 2 ^ 32)); [|done].
  destruct (debug_run args); simpl.
  - match goal with |- context [wds_len E ?p] =>
      destruct (wds_len E p) as [m|]; [|done] end.
    simpl.
    match goal with |- context [np_random_shuffle E ?g ?l] =>
      destruct (np_random_shuffle E g l) end.
    simpl. by destruct (workers args <? 0).
  - by destruct (workers args <? 0).
Qed.

(** ** [get_dataset_size]: a manifest that is missing or incomplete *)

(** X11: [get_dataset_size] fails with the error of opening [sizes.json]
    when the manifest cannot be read, and with [KeyError] on the basename of
    the first expanded shard that the manifest does not record; in both cases
    the manifest is the only file touched. *)
Theorem get_dataset_size_errors (E : Env) (shards : string) (st : State E) :
  let manifest := join (dirname shards) "sizes.json" in
  let st' := {| np_rng := np_rng st; environ := environ st;
                events := events st ++ [EvReadSizes manifest] |} in
  (∀ e, open_eval E manifest = Raise e →
     get_dataset_size E shards st = (Raise e, st'))
  ∧ (∀ sizes found shard rest,
       open_eval E manifest = Ok sizes →
       braceexpand E shards = found ++ shard :: rest →
       Forall (λ s, is_Some (sizes !! basename s)) found →
       sizes !! basename shard = None →
       get_dataset_size E shards st = (Raise (KeyError (basename shard)), st')).
Proof.
  intros manifest st'. split.
  - intros e He. unfold get_dataset_size. run_M. fold manifest. by rewrite He.
  - intros sizes found shard rest Hopen Hexp Hfound Hmiss.
    unfold get_dataset_size. run_M. fold manifest. rewrite Hopen, Hexp. simpl.
    assert (Hsz : shard_sizes sizes (found ++ shard :: rest)
                  = Raise (KeyError (basename shard))).
    { clear Hexp. induction Hfound as [|s found [n Hn] _ IH]; simpl.
      - by rewrite Hmiss.
      - rewrite Hn. run_M. by rewrite IH. }
    by rewrite Hsz.
Qed.

Lemma get_dataset_size_errors_witness :
  get_dataset_size Sample.env "other/{0..1}.tar" Sample.st0
  = (Raise (OSError "other/sizes.json"),
     {| np_rng := 0%N : rng Sample.env; environ := ∅;
        events := [EvReadSizes "other/sizes.json"] |}).
Proof.
  exact (proj1 (get_dataset_size_errors Sample.env "other/{0..1}.tar" Sample.st0)
           (OSError "other/sizes.json") eq_refl).
Defined.

(** ** [CsvDataset]: the columns and the index *)

Section CsvEdges.
Context {E : Env}.

Lemma column_index_None cols key :
  column_index cols key = None ↔ key ∉ cols.
Proof.
  induction cols as [|c cols IH]; simpl.
  - split; [intros _; apply not_elem_of_nil|done].
  - destruct (String.eqb c key) eqn:Hc.
    + apply String.eqb_eq in Hc as ->. split; [done|].
      intros Hn. exfalso. apply Hn. left.
    + apply String.eqb_neq in Hc. rewrite not_elem_of_cons.
      destruct (column_index cols key); simpl.
      * split; [done|]. intros [_ Hn]. by apply IH in Hn.
      * split; [|done]. intros _. split; [congruence|]. by apply IH.
Qed.

Lemma join_all_Ok folder names :
  Forall (λ c, ∃ s, c = CellStr s) names →
  ∃ paths, join_all folder names = Ok paths
    ∧ Forall2 (λ c p, ∃ s, c = CellStr s ∧ p = join folder s) names paths.
Proof.
  induction 1 as [|c names [s ->] _ (paths & Hp & Hall)]; simpl.
  - exists []. split; [done|constructor].
  - exists (join folder s :: paths). run_M. simpl. rewrite Hp. simpl.
    split; [done|]. constructor; eauto.
Qed.

Lemma join_all_TypeError folder names :
  ¬ Forall (λ c, ∃ s, c = CellStr s) names →
  join_all folder names = Raise TypeError.
Proof.
  induction names as [|c names IH]; intros Hnot; simpl.
  - exfalso. apply Hnot. constructor.
  - destruct c as [s| |]; simpl; try done. run_M. simpl.
    rewrite IH; [done|]. intros Hall. apply Hnot. constructor; eauto.
Qed.

End CsvEdges.

(** X12: what [CsvDataset(...)] does with the data frame it has read. A
    missing image column is [KeyError] on [img_key]; an image cell that is not
    a string (a number, or the NaN of a short row) is the [TypeError] of
    [os.path.join]; with the image column in order, a missing caption column
    is [KeyError] on [caption_key]; otherwise the dataset holds, row by row,
    the image name joined to [img_folder] and the caption as read. *)
Theorem CsvDataset_init_outcome (E : Env) (f : string) (t : Transform)
    (img_key caption_key folder sep : string) (df : DataFrame) (st : State E) :
  pd_read_csv E f sep = Ok df →
  let run := (CsvDataset_init E f t img_key caption_key folder sep st).1 in
  (img_key ∉ df_columns df → run = Raise (KeyError img_key))
  ∧ (∀ names, df_column df img_key = Ok names →
       (¬ Forall (λ c, ∃ s, c = CellStr s) names → run = Raise TypeError)
       ∧ (Forall (λ c, ∃ s, c = CellStr s) names →
          (caption_key ∉ df_columns df → run = Raise (KeyError caption_key))
          ∧ (∀ caps, df_column df caption_key = Ok caps →
               ∃ d, run = Ok d
                 ∧ Forall2 (λ c p, ∃ s, c = CellStr s ∧ p = join folder s)
                     names (images d)
                 ∧ captions d = caps ∧ transforms d = t))).
Proof.
  intros Hdf run. unfold run, CsvDataset_init. run_M. rewrite Hdf. simpl.
  split.
  - intros Hmiss. unfold df_column.
    apply column_index_None in Hmiss. by rewrite Hmiss.
  - intros names Hnames. rewrite Hnames. simpl. split.
    + intros Hnot. by rewrite join_all_TypeError.
    + intros Hall. destruct (join_all_Ok folder names Hall) as (paths & -> & Hp).
      simpl. split.
      * intros Hmiss. unfold df_column.
        apply column_index_None in Hmiss. by rewrite Hmiss.
      * intros caps ->. simpl. eexists. split; [reflexivity|]. by simpl.
Qed.

Lemma CsvDataset_init_outcome_witness :
  (CsvDataset_init Sample.env "train.csv" Sample.pre "file" "caption" "imgs" ","
     Sample.st0).1
  = Raise (KeyError "caption").
Proof.
  refine (proj1 (proj2 (proj2 (CsvDataset_init_outcome Sample.env "train.csv"
            Sample.pre "file" "caption" "imgs" "," Sample.frame Sample.st0 eq_refl)
            [CellStr "a.png"; CellStr "b.png"; CellStr "c.png"] eq_refl) _) _).
  - repeat constructor; eauto.
  - rewrite list_elem_of_In. simpl. intuition discriminate.
Defined.

(** X13: [CsvDataset.__getitem__] indexes as Python lists do. With [n] rows,
    an index outside [-n, n) is [IndexError], raised before any image file is
    opened, and a negative index [idx] in range yields the item at
    [n + idx]. *)
Theorem CsvDataset_getitem_index (E : Env) (d : CsvDataset) (idx : Z)
    (st : State E) :
  len (images d) = len (captions d) →
  let n := CsvDataset_len d in
  (idx < - n ∨ n ≤ idx →
   CsvDataset_getitem E d idx st = (Raise IndexError, st))
  ∧ (- n ≤ idx < 0 →
     CsvDataset_getitem E d idx st = CsvDataset_getitem E d (n + idx) st).
Proof.
  intros Hlen n. unfold n, CsvDataset_len. rewrite <- Hlen.
  pose proof (len_nonneg (images d)) as Hge.
  split.
  - intros Hout. unfold CsvDataset_getitem, index. run_M.
    destruct Hout as [Hlow|Hhigh].
    + assert ((idx <? 0) = true) as -> by lia.
      by assert ((len (images d) + idx <? 0) = true) as -> by lia.
    + assert ((idx <? 0) = false) as -> by lia.
      assert ((idx <? 0) = false) as -> by lia.
      rewrite (proj2 (lookup_ge_None (images d) (Z.to_nat idx)));
        [done|unfold len in *; lia].
  - intros Hneg. unfold CsvDataset_getitem, index. rewrite <- Hlen.
    assert (H1 : (idx <? 0) = true) by lia.
    assert (H2 : (len (images d) + idx <? 0) = false) by lia.
    by repeat (rewrite H1 || rewrite H2).
Qed.

Lemma CsvDataset_getitem_index_witness :
  let d := {| images := ["imgs/a.png"; "imgs/b.png"];
              captions := [CellStr "CCO"; CellStr "CC"];
              transforms := Sample.pre |} in
  CsvDataset_getitem Sample.env d (-1) Sample.st0
    = CsvDataset_getitem Sample.env d 1 Sample.st0
  ∧ CsvDataset_getitem Sample.env d 2 Sample.st0 = (Raise IndexError, Sample.st0).
Proof.
  intros d. split.
  - refine (proj2 (CsvDataset_getitem_index Sample.env d (-1) Sample.st0 eq_refl) _).
    simpl. unfold CsvDataset_len, len. simpl. lia.
  - refine (proj1 (CsvDataset_getitem_index Sample.env d 2 Sample.st0 eq_refl) _).
    right. unfold CsvDataset_len, len. simpl. lia.
Defined.

(** X14: the text that [CsvDataset.__getitem__] returns for a row is
    [preprocess_txt] of the row's caption, the function the webdataset
    pipeline maps over its texts: both kinds of dataset tokenize a caption the
    same way, as the first row of [tokenize([str(caption)])]. *)
Theorem getitem_text_is_preprocess_txt (E : Env) (d : CsvDataset) (idx : Z)
    (st st' : State E) (img : Tensor) (texts : Tokens) :
  CsvDataset_getitem E d idx st = (Ok (img, texts), st') →
  ∃ path caption image,
    index (images d) idx = Ok path
    ∧ index (captions d) idx = Ok caption
    ∧ Image_open E path = Ok image
    ∧ img = transforms d image
    ∧ preprocess_txt E caption = Ok texts
    ∧ events st' = events st ++ [EvImageOpen path].
Proof.
  unfold CsvDataset_getitem.
  intros (path & s1 & [Hpath ->]%lift_Ok_inv & H)%bind_Ok_inv.
  apply bind_Ok_inv in H as (u & s2 & Hlog & H).
  apply bind_Ok_inv in H as (image & s3 & [Himg ->]%lift_Ok_inv & H).
  apply bind_Ok_inv in H as (caption & s4 & [Hcap ->]%lift_Ok_inv & H).
  apply bind_Ok_inv in H as (rows & s5 & [Hrows ->]%lift_Ok_inv & H).
  apply bind_Ok_inv in H as (tx & s6 & [Htx ->]%lift_Ok_inv & H).
  apply ret_Ok_inv in H as [[= -> ->] ->].
  injection Hlog as _ <-.
  exists path, caption, image.
  split; [done|]. split; [done|]. split; [done|]. split; [done|].
  split; [|done].
  unfold preprocess_txt. run_M. by rewrite Hrows.
Qed.

Lemma getitem_text_is_preprocess_txt_witness :
  preprocess_txt Sample.env (CellStr "CC") = Ok [2].
Proof.
  destruct (getitem_text_is_preprocess_txt Sample.env
              {| images := ["imgs/a.png"; "imgs/b.png"];
                 captions := [CellStr "CCO"; CellStr "CC"];
                 transforms := Sample.pre |} 1 Sample.st0
              {| np_rng := 0%N : rng Sample.env; environ := ∅;
                 events := [EvImageOpen "imgs/b.png"] |} [10] [2] eq_refl)
    as (path & caption & image & _ & Hcap & _ & _ & Hpre & _).
  injection Hcap as <-. exact Hpre.
Defined.

(** ** The class-balanced subset: what it keeps and how large it is *)

Section BalancedMore.
Context {E : Env} (HE : EnvOk E).

Lemma selected_le_class_size c targets idxs :
  (selected c targets idxs ≤ class_size c targets)%nat.
Proof.
  revert idxs. induction targets as [|t ts IH]; intros [|x idxs]; simpl;
    try lia.
  specialize (IH idxs). destruct (t =? c), (x =? 0); simpl; lia.
Qed.

(** When a class has all its examples selected, each of them is. *)
Lemma selected_all c targets idxs i :
  length idxs = length targets →
  selected c targets idxs = class_size c targets →
  targets !! i = Some c →
  ∃ x, idxs !! i = Some x ∧ x ≠ 0.
Proof.
  revert idxs i. induction targets as [|t ts IH]; intros [|x idxs] i; simpl;
    try done.
  intros [= Hlen] Hsel Hi.
  pose proof (selected_le_class_size c ts idxs) as Hle.
  destruct i as [|i]; simpl in *.
  - injection Hi as ->. rewrite Z.eqb_refl in Hsel. simpl in Hsel.
    exists x. split; [done|]. intros ->. simpl in Hsel. lia.
  - apply (IH idxs i Hlen); [|done].
    destruct (t =? c), (x =? 0); simpl in Hsel; lia.
Qed.

Lemma length_nonzero_from off a : length (nonzero_from off a) = nonzeros a.
Proof.
  revert off. induction a as [|x a IH]; intros off; simpl; [done|].
  destruct (x =? 0); simpl; by rewrite IH.
Qed.

Lemma nonzeros_le_length a : (nonzeros a ≤ length a)%nat.
Proof. induction a as [|x a IH]; simpl; [lia|]. destruct (x =? 0); lia. Qed.

Lemma nonzero_from_all off a :
  Forall (λ x, x ≠ 0) a →
  nonzero_from off a = (λ i, off + Z.of_nat i) <$> seq 0 (length a).
Proof.
  intros Hall. revert off. induction Hall as [|x a Hx _ IH]; intros off; simpl.
  - done.
  - apply Z.eqb_neq in Hx. rewrite Hx. f_equal; [lia|].
    rewrite IH, <- fmap_S_seq, <- list_fmap_compose.
    apply list_fmap_ext. intros _ i _. simpl. lia.
Qed.

(** [idxs[m] = arr] adds at most the ones of [arr]. *)
Lemma mask_assign_nonzeros a m arr :
  (nonzeros (mask_assign a m arr) ≤ nonzeros a + nonzeros arr)%nat.
Proof.
  revert m arr. induction a as [|x a IH]; intros [|b m] arr; simpl; try lia.
  destruct b.
  - destruct arr as [|y arr]; simpl.
    + specialize (IH m []). simpl in IH. lia.
    + specialize (IH m arr). destruct (x =? 0), (y =? 0); simpl; lia.
  - simpl. specialize (IH m arr). lia.
Qed.

(** Every turn of the loop adds at most [k] selected examples. *)
Lemma subsample_class_nonzeros k targets c idxs (st : State E) :
  0 ≤ k →
  ∃ idxs' st',
    subsample_class E k targets c idxs st = (Ok idxs', st')
    ∧ (nonzeros idxs' ≤ nonzeros idxs + Z.to_nat k)%nat.
Proof.
  intros Hk. unfold subsample_class. run_M.
  set (n := len (masked idxs (eq_mask targets c))).
  pose proof (shuffle_perm E HE (np_rng st) (fill_to (np_zeros n) k 1)) as Hp.
  destruct (np_random_shuffle E (np_rng st) (fill_to (np_zeros n) k 1))
    as [arr g]. simpl in Hp.
  destruct (fill_to_zeros n k Hk) as (_ & Hfn & _).
  pose proof (mask_assign_nonzeros idxs (eq_mask targets c) arr) as Hle.
  rewrite (nonzeros_perm _ _ Hp), Hfn in Hle.
  eexists _, _. split; [reflexivity|]. lia.
Qed.

Lemma class_loop_nonzeros k targets cs idxs (st : State E) :
  0 ≤ k →
  ∃ idxs' st',
    for_each E cs (subsample_class E k targets) idxs st = (Ok idxs', st')
    ∧ (nonzeros idxs' ≤ nonzeros idxs + Z.to_nat k * length cs)%nat.
Proof.
  intros Hk. revert idxs st.
  induction cs as [|c cs IH]; intros idxs st; simpl.
  - exists idxs, st. split; [done|lia].
  - destruct (subsample_class_nonzeros k targets c idxs st Hk)
      as (idxs1 & st1 & Hstep & Hle).
    destruct (IH idxs1 st1) as (idxs' & st' & Hrun & Hbound).
    exists idxs', st'. rewrite (bind_Ok_step _ _ _ _ _ Hstep).
    split; [exact Hrun|]. lia.
Qed.

End BalancedMore.

(** X15: the indices that the "train" block of [get_imagenet] draws keep
    every example of a class (with a label in 0..999) that has at most 50
    examples; when every label is in 0..999 and no class has more than 50
    examples they are all the indices of the dataset, in ascending order. *)
Theorem train_subset_keeps_small_classes (E : Env) (HE : EnvOk E)
    (targets : list Z) (st : State E) :
  ∃ indices st',
    train_subset_indices E targets st = (Ok indices, st')
    ∧ (∀ (i : nat) c, targets !! i = Some c → 0 ≤ c < 1000 →
         len (filter (λ t, t = c) targets) ≤ 50 → Z.of_nat i ∈ indices)
    ∧ ((∀ c, c ∈ targets →
          0 ≤ c < 1000 ∧ len (filter (λ t, t = c) targets) ≤ 50) →
       indices = arange (len targets)).
Proof.
  unfold train_subset_indices.
  assert (Hlen0 : length (np_zeros (len targets)) = length targets).
  { unfold np_zeros, len. by rewrite length_replicate, Nat2Z.id. }
  assert (Hbits0 : Forall (λ x, x = 0 ∨ x = 1) (np_zeros (len targets))).
  { apply Forall_replicate. by left. }
  destruct (class_loop_run HE 50 targets (arange 1000) _ st ltac:(lia) Hlen0 Hbits0)
    as (idxs & st' & Hrun & Hlen & Hin & _ & _ & _).
  exists (np_where idxs), st'. unfold mbind, M_bind. rewrite Hrun.
  split; [done|].
  assert (Hkept : ∀ (i : nat) c, targets !! i = Some c → 0 ≤ c < 1000 →
            len (filter (λ t, t = c) targets) ≤ 50 →
            ∃ x, idxs !! i = Some x ∧ x ≠ 0).
  { intros i c Hi Hc Hsmall. apply (selected_all c targets idxs i Hlen); [|done].
    rewrite Hin by (by apply elem_of_arange).
    unfold len in Hsmall. rewrite length_filter_class in Hsmall. lia. }
  split.
  - intros i c Hi Hc Hsmall. destruct (Hkept i c Hi Hc Hsmall) as (x & Hx & Hne).
    apply elem_of_nonzero_from. split; [lia|]. exists x.
    by rewrite Z.sub_0_r, Nat2Z.id.
  - intros Hall. unfold np_where. rewrite nonzero_from_all.
    + unfold arange, len. rewrite Hlen, Nat2Z.id.
      apply list_fmap_ext. intros _ i _. lia.
    + apply Forall_lookup. intros i x Hx.
      destruct (targets !! i) as [c|] eqn:Hi.
      * destruct (Hall c) as [Hc Hsmall]; [by eapply list_elem_of_lookup_2|].
        destruct (Hkept i c Hi Hc Hsmall) as (x' & Hx' & Hne). congruence.
      * apply lookup_ge_None in Hi. apply lookup_lt_Some in Hx. lia.
Qed.

Lemma train_subset_keeps_small_classes_witness :
  ∃ st', train_subset_indices Sample.env [0; 1; 0; 2; 1; 0] Sample.st0
         = (Ok [0; 1; 2; 3; 4; 5], st').
Proof.
  destruct (train_subset_keeps_small_classes Sample.env sample_env_ok
              [0; 1; 0; 2; 1; 0] Sample.st0)
    as (indices & st' & Hrun & _ & Hall).
  exists st'. rewrite Hrun. f_equal. f_equal. rewrite Hall; [reflexivity|].
  intros c Hc. rewrite list_elem_of_In in Hc. simpl in Hc.
  destruct Hc as [<-|[<-|[<-|[<-|[<-|[<-|[]]]]]]]; (split; [lia|by vm_compute]).
Defined.

(** X16: the indices that the "train" block of [get_imagenet] draws are never
    more than 50 000 (50 for each of the 1000 classes) and never more than the
    dataset has examples. *)
Theorem train_subset_size_bound (E : Env) (HE : EnvOk E) (targets : list Z)
    (st : State E) :
  ∃ indices st',
    train_subset_indices E targets st = (Ok indices, st')
    ∧ len indices ≤ 50000
    ∧ len indices ≤ len targets.
Proof.
  unfold train_subset_indices.
  assert (Hlen0 : length (np_zeros (len targets)) = length targets).
  { unfold np_zeros, len. by rewrite length_replicate, Nat2Z.id. }
  assert (Hbits0 : Forall (λ x, x = 0 ∨ x = 1) (np_zeros (len targets))).
  { apply Forall_replicate. by left. }
  destruct (class_loop_run HE 50 targets (arange 1000) _ st ltac:(lia) Hlen0 Hbits0)
    as (idxs & st' & Hrun & Hlen & _).
  destruct (class_loop_nonzeros HE 50 targets (arange 1000)
              (np_zeros (len targets)) st ltac:(lia))
    as (idxs' & st'' & Hrun' & Hbound).
  rewrite Hrun in Hrun'. injection Hrun' as <- <-.
  exists (np_where idxs), st'. unfold mbind, M_bind. rewrite Hrun.
  split; [done|]. unfold np_where, len. rewrite length_nonzero_from.
  split.
  - unfold np_zeros in Hbound. rewrite nonzeros_replicate_0 in Hbound.
    rewrite length_arange in Hbound. lia.
  - pose proof (nonzeros_le_length idxs). lia.
Qed.

Lemma train_subset_size_bound_witness :
  ∃ indices st',
    train_subset_indices Sample.env [0; 1; 0; 2; 1; 0] Sample.st0
      = (Ok indices, st')
    ∧ len indices ≤ 6.
Proof.
  destruct (train_subset_size_bound Sample.env sample_env_ok
              [0; 1; 0; 2; 1; 0] Sample.st0)
    as (indices & st' & Hrun & _ & Hle).
  exists indices, st'. split; [exact Hrun|exact Hle].
Defined.

(** ** [get_data]: the reads, one by one *)

Section ReadsInOrder.
Context {E : Env}.

Lemma emits_no_event {A} (m : M E A) (st : State E) :
  emits no_event m → events (m st).2 = events st.
Proof.
  intros Hm. destruct (Hm st) as (evs & -> & Hall).
  destruct evs as [|ev evs]; [by rewrite app_nil_r|].
  by apply Forall_cons in Hall as [[] _].
Qed.

Lemma log_Ok_inv ev (st st' : State E) u :
  log ev st = (Ok u, st') →
  st' = {| np_rng := np_rng st; environ := environ st;
           events := events st ++ [ev] |}.
Proof. unfold log. by intros [= _ <-]. Qed.

Lemma get_cellpainting_dataset_events args pre is_train (st st' : State E) di :
  get_cellpainting_dataset E args pre is_train st = (Ok di, st') →
  ∃ imgs mols,
    image_path args = Some imgs ∧ data_mols args = Some mols
    ∧ events st'
        = events st
          ++ [EvCellPainting (if is_train then train_index args else val_index args)
                imgs mols].
Proof.
  unfold get_cellpainting_dataset.
  intros (mols & s1 & [Hm [_ ->]]%assert_truthy_Ok_inv & H)%bind_Ok_inv.
  apply bind_Ok_inv in H as (imgs & s2 & [Hi [_ ->]]%assert_truthy_Ok_inv & H).
  apply bind_Ok_inv in H as (u & s3 & Hlog & H).
  apply log_Ok_inv in Hlog as ->.
  exists imgs, mols. split; [done|]. split; [done|].
  match type of H with ?m ?s = _ =>
    assert (Hquiet : emits no_event m) by (repeat emits_fn);
    pose proof (emits_no_event m s Hquiet) as Hev
  end.
  rewrite H in Hev. exact Hev.
Qed.

Lemma get_imagenet_eval_events args fns (split : string) (st st' : State E) di :
  split ≠ "train" →
  get_imagenet E args fns split st = (Ok di, st') →
  events st'
    = events st
      ++ [if String.eqb split "v2" then EvImageNetV2 (imagenet_v2 args)
          else match imagenet_val args with
               | Some p => EvImageFolder p
               | None => EvImageFolder ""
               end].
Proof.
  intros Hsplit. apply String.eqb_neq in Hsplit.
  unfold get_imagenet.
  intros ([dataset smp] & s0 & Hpre & Htail)%bind_Ok_inv.
  assert (Hsame : events st' = events s0).
  { match type of Htail with ?m ?s = _ =>
      assert (Hquiet : emits no_event m) by (repeat emits_fn);
      pose proof (emits_no_event m s Hquiet) as Hev
    end.
    rewrite Htail in Hev. exact Hev. }
  rewrite Hsame. clear Htail Hsame st'. revert Hpre.
  unfold imagenet_dataset_sampler. destruct fns as [pre_train pre_val].
  rewrite Hsplit.
  intros (u & s1 & Hassert & H)%bind_Ok_inv.
  assert (s1 = st) as ->.
  { unfold assert in Hassert. destruct (bool_decide _); [|done].
    by apply ret_Ok_inv in Hassert as [_ ->]. }
  destruct (String.eqb split "v2").
  - rewrite !bind_assoc in H.
    apply bind_Ok_inv in H as (u1 & s2 & Hlog & H). apply log_Ok_inv in Hlog as ->.
    match type of H with ?m ?s = _ =>
      assert (Hquiet : emits no_event m) by (repeat emits_fn);
      pose proof (emits_no_event m s Hquiet) as Hev
    end.
    rewrite H in Hev. exact Hev.
  - rewrite !bind_assoc in H.
    apply bind_Ok_inv in H as (p & s2 & [Hp [_ ->]]%assert_truthy_Ok_inv & H).
    rewrite Hp. rewrite !bind_assoc in H.
    apply bind_Ok_inv in H as (u1 & s3 & Hlog & H). apply log_Ok_inv in Hlog as ->.
    match type of H with ?m ?s = _ =>
      assert (Hquiet : emits no_event m) by (repeat emits_fn);
      pose proof (emits_no_event m s Hquiet) as Hev
    end.
    rewrite H in Hev. exact Hev.
Qed.

End ReadsInOrder.

(** X17: when [get_data] returns, the call has read each requested source
    exactly once and in a fixed order: the CellPainting training index, the
    CellPainting validation index, the ImageNet validation folder, ImageNetV2;
    nothing else is read, whatever [args.debug_run] and [args.distributed]
    are. *)
Theorem get_data_reads_in_order (E : Env) (args : Args)
    (fns : Transform * Transform) (st st' : State E)
    (data : gmap string DataInfo) :
  get_data E args fns st = (Ok data, st') →
  let cellpainting index :=
    match image_path args, data_mols args with
    | Some imgs, Some mols => [EvCellPainting index imgs mols]
    | _, _ => []
    end in
  events st'
    = events st
      ++ (if truthy (train_index args) then cellpainting (train_index args) else [])
      ++ (if truthy (val_index args) then cellpainting (val_index args) else [])
      ++ match imagenet_val args with
         | Some p => [EvImageFolder p]
         | None => []
         end
      ++ match imagenet_v2 args with
         | Some _ => [EvImageNetV2 (imagenet_v2 args)]
         | None => []
         end.
Proof.
  intros Hrun cellpainting.
  unfold get_data in Hrun. destruct fns as [pre_train pre_val].
  apply bind_Ok_inv in Hrun as (d1 & st1 & H1 & Hrun).
  apply bind_Ok_inv in Hrun as (d2 & st2 & H2 & Hrun).
  apply bind_Ok_inv in Hrun as (d3 & st3 & H3 & Hrun).
  apply bind_Ok_inv in Hrun as (d4 & st4 & H4 & Hrun).
  apply ret_Ok_inv in Hrun as [_ Hst]. subst st4.
  apply get_data_step in H1, H2, H3, H4.
  assert (E1 : events st1 = events st
    ++ (if truthy (train_index args) then cellpainting (train_index args) else [])).
  { destruct H1 as [(-> & x & Hx & _) | (-> & _ & ->)]; [|by rewrite app_nil_r].
    apply get_cellpainting_dataset_events in Hx as (imgs & mols & Hi & Hm & ->).
    unfold cellpainting. by rewrite Hi, Hm. }
  assert (E2 : events st2 = events st1
    ++ (if truthy (val_index args) then cellpainting (val_index args) else [])).
  { destruct H2 as [(-> & x & Hx & _) | (-> & _ & ->)]; [|by rewrite app_nil_r].
    apply get_cellpainting_dataset_events in Hx as (imgs & mols & Hi & Hm & ->).
    unfold cellpainting. by rewrite Hi, Hm. }
  assert (E3 : events st3 = events st2
    ++ match imagenet_val args with Some p => [EvImageFolder p] | None => [] end).
  { destruct H3 as [(Hc & x & Hx & _) | (Hc & _ & ->)].
    - apply get_imagenet_eval_events in Hx as ->; [|done]. simpl.
      by destruct (imagenet_val args).
    - destruct (imagenet_val args); [done|by rewrite app_nil_r]. }
  assert (E4 : events st' = events st3
    ++ match imagenet_v2 args with
       | Some _ => [EvImageNetV2 (imagenet_v2 args)] | None => [] end).
  { destruct H4 as [(Hc & x & Hx & _) | (Hc & _ & ->)].
    - apply get_imagenet_eval_events in Hx as ->; [|done]. simpl.
      by destruct (imagenet_v2 args).
    - destruct (imagenet_v2 args); [done|by rewrite app_nil_r]. }
  rewrite E4, E3, E2, E1. by rewrite <- !app_assoc.
Qed.

Lemma get_data_reads_in_order_witness :
  ∃ data st',
    get_data Sample.env Sample.args (Sample.pre, Sample.pre) Sample.st0
      = (Ok data, st')
    ∧ events st'
        = [EvCellPainting (Some "index_train.csv") "images" "mols.hdf5";
           EvImageFolder "imagenet/val"].
Proof.
  evaluate_as Hrun
    (get_data Sample.env Sample.args (Sample.pre, Sample.pre) Sample.st0).
  match type of Hrun with _ = (Ok ?data, ?st') =>
    exists data, st'; split; [exact Hrun|];
    exact (get_data_reads_in_order Sample.env Sample.args
             (Sample.pre, Sample.pre) Sample.st0 st' data Hrun)
  end.
Defined.

(** ** Evaluation loaders *)

(** X18: an evaluation loader ([is_train] false) of
    [get_cellpainting_dataset] or [get_csv_dataset] never has a distributed
    sampler, even when [args.distributed] is set, never drops a batch and uses
    [args.batch_size_eval]; the two differ in one respect: the CellPainting
    loader is built with [shuffle=False], the csv loader with
    [shuffle=True]. *)
Theorem evaluation_loaders (E : Env) (args : Args) (pre : Transform)
    (run_mode : option string) (st st' : State E) (di : DataInfo) :
  (get_cellpainting_dataset E args pre false st = (Ok di, st') →
   sampler di = None
   ∧ ∃ a, loader (dataloader di) = TorchLoader a
       ∧ dl_sampler a = None ∧ dl_shuffle a = false ∧ dl_drop_last a = false
       ∧ dl_batch_size a = Some (batch_size_eval args))
  ∧ (get_csv_dataset E args pre false run_mode st = (Ok di, st') →
     sampler di = None
     ∧ ∃ a, loader (dataloader di) = TorchLoader a
         ∧ dl_sampler a = None ∧ dl_shuffle a = true ∧ dl_drop_last a = false
         ∧ dl_batch_size a = Some (batch_size_eval args)).
Proof.
  split.
  - intros (a & n & b & Hdl & Hbs & Hsh & Hs & Hdrop & _ & _ & _ & Hsmp)
      %get_cellpainting_dataset_Ok_inv.
    rewrite andb_false_r in Hsmp. split; [done|]. exists a.
    rewrite Hdl. simpl. rewrite Hs, Hsh, Hsmp. by repeat split.
  - intros (a & n & b & Hdl & Hbs & Hsh & Hs & Hdrop & _ & _ & _ & Hsmp)
      %get_csv_dataset_Ok_inv.
    rewrite andb_false_r in Hsmp. split; [done|]. exists a.
    rewrite Hdl. simpl. rewrite Hs, Hsh, Hsmp. by repeat split.
Qed.

Lemma evaluation_loaders_witness :
  ∃ di st',
    get_csv_dataset Sample.env Sample.args Sample.pre false None Sample.st0
      = (Ok di, st')
    ∧ sampler di = None
    ∧ dl_shuffle (loader_args (loader (dataloader di))) = true.
Proof.
  evaluate_as Hrun
    (get_csv_dataset Sample.env Sample.args Sample.pre false None Sample.st0).
  match type of Hrun with _ = (Ok ?di, ?st') =>
    exists di, st'; split; [exact Hrun|];
    destruct (proj2 (evaluation_loaders Sample.env Sample.args Sample.pre None
                       Sample.st0 st' di) Hrun)
      as (Hs & a & Hl & _ & Hsh & _)
  end.
  split; [exact Hs|]. rewrite Hl. exact Hsh.
Defined.

(** ** Where [get_dataset_size] looks for the manifest *)

Section ManifestPath.

Lemma ends_with_slash_cons c s :
  ends_with_slash (String c s)
    = if String.eqb s "" then Ascii.eqb c "/" else ends_with_slash s.
Proof.
  unfold ends_with_slash. destruct s as [|c' s]; [done|].
  simpl. by rewrite Nat.sub_0_r.
Qed.

Lemma rsplit_slash_free t :
  free_of "/" t = true → rsplit_slash t = ("", t).
Proof.
  induction t as [|c t IH]; simpl; [done|].
  intros [Hc Ht]%andb_true_iff. apply negb_true_iff in Hc.
  by rewrite (IH Ht), Hc.
Qed.

(** [p.rfind('/') + 1] falls after a head that ends in a slash when the tail
    has none. *)
Lemma rsplit_slash_app h t :
  free_of "/" t = true → h = "" ∨ ends_with_slash h = true →
  rsplit_slash (h +:+ t) = (h, t).
Proof.
  intros Ht. induction h as [|c h IH]; intros Hh; simpl.
  - by apply rsplit_slash_free.
  - destruct Hh as [?|Hh]; [done|]. rewrite ends_with_slash_cons in Hh.
    destruct h as [|c' h]; simpl in Hh.
    + rewrite IH by (by left). simpl. by rewrite Hh.
    + rewrite IH by (by right). done.
Qed.

Lemma all_slashes_ends s :
  s ≠ "" → all_slashes s = true → ends_with_slash s = true.
Proof.
  induction s as [|c s IH]; [done|]. intros _ [Hc Hs]%andb_true_iff.
  rewrite ends_with_slash_cons. destruct s as [|c' s]; [done|].
  by apply IH.
Qed.

Lemma rstrip_slash_empty s : rstrip_slash s = "" ↔ all_slashes s = true.
Proof.
  induction s as [|c s IH]; simpl; [done|].
  destruct (String.eqb (rstrip_slash s) "") eqn:Hr; simpl.
  - apply String.eqb_eq in Hr. apply IH in Hr. rewrite Hr, andb_true_r.
    destruct (Ascii.eqb c "/"); done.
  - apply String.eqb_neq in Hr. split; [done|].
    intros [_ Hs]%andb_true_iff. by apply IH in Hs.
Qed.

(** What [rstrip('/')] returns does not end in a slash. *)
Lemma rstrip_slash_no_trailing s : ends_with_slash (rstrip_slash s) = false.
Proof.
  induction s as [|c s IH]; simpl; [done|].
  destruct (String.eqb (rstrip_slash s) "") eqn:Hr; simpl.
  - destruct (Ascii.eqb c "/") eqn:Hc; [done|].
    rewrite ends_with_slash_cons, Hr. done.
  - by rewrite ends_with_slash_cons, Hr.
Qed.

Lemma rstrip_slash_id s : ends_with_slash s = false → rstrip_slash s = s.
Proof.
  induction s as [|c s IH]; simpl; [done|].
  rewrite ends_with_slash_cons. destruct s as [|c' s].
  - simpl. by intros ->.
  - intros Hs. rewrite (IH Hs). simpl. done.
Qed.

Lemma rstrip_slash_cons c s :
  rstrip_slash (String c s)
    = if String.eqb (rstrip_slash s) "" && Ascii.eqb c "/" then ""
      else String c (rstrip_slash s).
Proof. reflexivity. Qed.

Lemma rstrip_slash_app_slash s : rstrip_slash (s +:+ "/") = rstrip_slash s.
Proof.
  induction s as [|c s IH]; [done|].
  change (String c s +:+ "/") with (String c (s +:+ "/")).
  by rewrite !rstrip_slash_cons, IH.
Qed.

Lemma rstrip_slash_snoc s :
  ends_with_slash s = false → rstrip_slash (s +:+ "/") = s.
Proof. intros Hs. by rewrite rstrip_slash_app_slash, rstrip_slash_id. Qed.

Lemma string_app_assoc (a b c : string) : (a +:+ b) +:+ c = a +:+ b +:+ c.
Proof.
  induction a as [|x a IH]; [reflexivity|].
  change (String x (a +:+ b +:+ c)) with (String x a +:+ b +:+ c) in *.
  change ((String x a +:+ b) +:+ c) with (String x ((a +:+ b) +:+ c)).
  change (String x a +:+ b +:+ c) with (String x (a +:+ b +:+ c)).
  by rewrite IH.
Qed.

Lemma all_slashes_snoc s : all_slashes (s +:+ "/") = all_slashes s.
Proof. induction s as [|c s IH]; simpl; [done|]. by rewrite IH. Qed.

Lemma ends_with_slash_snoc s : ends_with_slash (s +:+ "/") = true.
Proof.
  induction s as [|c s IH]; [done|].
  change (String c s +:+ "/") with (String c (s +:+ "/")).
  rewrite ends_with_slash_cons. by destruct s.
Qed.

(** A directory name is empty, or only slashes, or does not end in a slash. *)
Lemma dirname_shape p :
  dirname p = ""
  ∨ (dirname p ≠ "" ∧ all_slashes (dirname p) = true)
  ∨ (dirname p ≠ "" ∧ all_slashes (dirname p) = false
     ∧ ends_with_slash (dirname p) = false).
Proof.
  unfold dirname. set (head := (rsplit_slash p).1).
  destruct (String.eqb head "") eqn:Hh; simpl.
  - apply String.eqb_eq in Hh. by left.
  - apply String.eqb_neq in Hh. destruct (all_slashes head) eqn:Ha; simpl.
    + right. by left.
    + right. right.
      assert (Hne : rstrip_slash head ≠ "").
      { intros Hr. apply rstrip_slash_empty in Hr. congruence. }
      split; [done|]. split; [|apply rstrip_slash_no_trailing].
      destruct (all_slashes (rstrip_slash head)) eqn:Hr; [|done].
      apply all_slashes_ends in Hr; [|done].
      by rewrite rstrip_slash_no_trailing in Hr.
Qed.

End ManifestPath.

(** X19: the manifest that [get_dataset_size] opens is the file named
    [sizes.json] in the directory of the shard pattern: the basename of its
    path is "sizes.json" and its directory name is that of the pattern. *)
Theorem manifest_is_sibling_of_shards (shards : string) :
  let manifest := join (dirname shards) "sizes.json" in
  basename manifest = "sizes.json" ∧ dirname manifest = dirname shards.
Proof.
  intros manifest. unfold manifest, join. simpl starts_with_slash. cbv iota.
  assert (Hfree : free_of "/" "sizes.json" = true) by reflexivity.
  pose proof (dirname_shape shards) as Hshape.
  set (d := dirname shards) in *. clearbody d. clear manifest.
  destruct Hshape as [Hd | [[Hne Hall] | (Hne & Hall & Hend)]].
  - rewrite Hd. simpl. done.
  - pose proof (all_slashes_ends _ Hne Hall) as Hend.
    apply String.eqb_neq in Hne. rewrite Hne, Hend. simpl.
    unfold basename, dirname.
    rewrite rsplit_slash_app by (by auto). simpl.
    by rewrite Hne, Hall.
  - apply String.eqb_neq in Hne. rewrite Hne, Hend. simpl.
    replace (d +:+ "/" +:+ "sizes.json") with ((d +:+ "/") +:+ "sizes.json")
      by apply string_app_assoc.
    unfold basename, dirname.
    rewrite rsplit_slash_app
      by (first [done | right; apply ends_with_slash_snoc]).
    simpl. rewrite all_slashes_snoc, Hall.
    assert (String.eqb (d +:+ "/") "" = false) as ->.
    { apply String.eqb_neq. by destruct d. }
    simpl. split; [done|]. by apply rstrip_slash_snoc.
Qed.
